(** * StackSave backend: transaction construction, business rules and
      wallet authentication

    A shallow embedding of the request handlers of the backend
    ([src/middleware/authMiddleware.js], [src/utils/validation.js],
    [src/services/blockchain.js], [src/utils/transactions.js], the routes of
    [src/routes/users.js], [src/routes/goals.js] and
    [src/routes/transactions.js], as [index.js] mounts them behind the
    middleware) and of the transaction wrapper of [src/config/db.js],
    followed by the properties that the specification
    states about them and by further properties of the code.

    Conventions of the embedding.
    - A JavaScript exception is the [Throw] case of [result]; [await] is
      sequencing in that monad: within one request the ledger is read as one
      snapshot.
    - [req.headers], [req.params], [req.body] and [process.env] are finite maps
      from names to values; a missing key reads as [undefined].
    - The clock is an input: [now_ms] is the value returned by [Date.now()].
    - JavaScript numbers are binary64 floats. Where a handler only compares
      integers with the clock (deadline, cool-down, replay window) the model
      keeps the exact integer: rounding to binary64 is monotone and clock
      readings are below 2^53, so those comparisons come out the same. Where
      a handler computes a reported amount (penalty arithmetic), or stores a
      parsed number as a byte (the goal index of a route), the model uses the
      binary64 operations of [SpecFloat]. *)

From Stdlib Require Import ZArith Lia Bool String Ascii List DecimalString DecimalPos.
From Stdlib Require Import Floats.SpecFloat.
From stdpp Require Import base strings gmap.
Import ListNotations.
Local Open Scope string_scope.
Local Open Scope Z_scope.

(** ** Exceptions *)

Inductive result (A : Type) : Type :=
| Ok (a : A)
| Throw (msg : string).
Arguments Ok {A} a.
Arguments Throw {A} msg.

#[global] Instance result_ret : MRet result := fun A a => Ok a.
#[global] Instance result_bind : MBind result :=
  fun A B f m => match m with Ok a => f a | Throw e => Throw e end.

(** ** JavaScript values found in JSON bodies

    [JNum] carries an integer number; the model is meant for the integers
    that binary64 represents exactly and prints digit by digit, those of
    magnitude below 2^53. Numbers with a fractional part are not represented,
    and objects and arrays do not occur in the fields read by the handlers. *)

Inductive jsval : Type :=
| JUndefined
| JNull
| JBool (b : bool)
| JNum (n : Z)
| JStr (s : string).

#[global] Instance jsval_eq_dec : EqDecision jsval.
Proof. solve_decision. Defined.

(** [!v] is [negb (truthy v)] *)
Definition truthy (v : jsval) : bool :=
  match v with
  | JUndefined | JNull => false
  | JBool b => b
  | JNum n => negb (n =? 0)
  | JStr s => negb (String.eqb s "")
  end.

(** [a === b] on primitives *)
Definition strict_eq (a b : jsval) : bool := bool_decide (a = b).

(** [o.key] on a parsed body *)
Definition field (o : gmap string jsval) (key : string) : jsval :=
  default JUndefined (o !! key).

(** a header or route parameter: a string or [undefined] *)
Definition str_truthy (o : option string) : bool :=
  match o with
  | Some s => negb (String.eqb s "")
  | None => false
  end.

(** [list.includes(v)] for a list of string literals *)
Definition includes_lit (l : list string) (v : jsval) : bool :=
  existsb (fun s => strict_eq v (JStr s)) l.

(** [s.includes(sub)] *)
Fixpoint includes (s sub : string) : bool :=
  String.prefix sub s ||
  match s with
  | EmptyString => false
  | String _ rest => includes rest sub
  end.

(** ** [parseInt] on a string, radix argument absent

    [None] is NaN. The integer is exact: the binary64 rounding of results
    beyond 2^53 is not applied here, which leaves the comparisons with the
    clock as they are (see the conventions above); where the result is used
    as a number of its own, in [index_arg], the rounding is applied there. *)

Definition code (a : ascii) : Z := Z.of_N (N_of_ascii a).

Definition is_StrWhiteSpaceChar (a : ascii) : bool :=
  let c := code a in
  ((9 <=? c) && (c <=? 13)) || (c =? 32) || (c =? 160).

Fixpoint trim_start (s : string) : string :=
  match s with
  | String a rest => if is_StrWhiteSpaceChar a then trim_start rest else s
  | EmptyString => EmptyString
  end.

Definition digit_value (radix : Z) (a : ascii) : option Z :=
  let c := code a in
  let v := if (48 <=? c) && (c <=? 57) then c - 48
           else if (97 <=? c) && (c <=? 122) then c - 87
           else if (65 <=? c) && (c <=? 90) then c - 55
           else radix in
  if v <? radix then Some v else None.

(** value of the longest prefix of radix digits, [None] when it is empty *)
Fixpoint digits_prefix (radix : Z) (s : string) (acc : option Z) : option Z :=
  match s with
  | String a rest =>
      match digit_value radix a with
      | Some d => digits_prefix radix rest (Some (default 0 acc * radix + d))
      | None => acc
      end
  | EmptyString => acc
  end.

Definition parseInt (input : string) : option Z :=
  let s0 := trim_start input in
  let '(sign, s1) :=
    match s0 with
    | String "-" rest => (-1, rest)
    | String "+" rest => (1, rest)
    | _ => (1, s0)
    end in
  let '(radix, s2) :=
    match s1 with
    | String "0" (String "x" rest) => (16, rest)
    | String "0" (String "X" rest) => (16, rest)
    | _ => (10, s1)
    end in
  option_map (Z.mul sign) (digits_prefix radix s2 None).

(** [/^\d+$/.test(s)] *)
Definition is_digit (a : ascii) : bool := (48 <=? code a) && (code a <=? 57).

Fixpoint all_digits (s : string) : bool :=
  match s with
  | EmptyString => true
  | String a rest => is_digit a && all_digits rest
  end.

Definition test_digits_only (s : string) : bool :=
  negb (String.eqb s "") && all_digits s.

(** [BigInt(s)] for a string of decimal digits *)
Fixpoint BigInt_digits (s : string) (acc : Z) : Z :=
  match s with
  | EmptyString => acc
  | String a rest => BigInt_digits rest (acc * 10 + (code a - 48))
  end.

(** [v.toString()] for a value that is neither [undefined] nor [null].
    A number prints as its decimal expansion, which is what
    [Number.prototype.toString] gives for an integer of magnitude below 2^53;
    from there on JavaScript prints the shortest digits that read back as the
    same binary64, and exponent notation from 1e21, which this function does
    not follow. *)
Definition toString (v : jsval) : string :=
  match v with
  | JStr s => s
  | JNum n => NilZero.string_of_int (Z.to_int n)
  | JBool true => "true"
  | JBool false => "false"
  | JNull => "null"
  | JUndefined => "undefined"
  end.

(** ** Numbers (binary64)

    [Number_of_Z z] is the number that [parseInt] returns on the decimal
    expansion of [z]: the nearest binary64 value, ties to even. *)

Definition Number : Type := spec_float.

Definition Number_of_Z (z : Z) : Number := binary_normalize 53 1024 z 0 false.
Definition Number_add : Number -> Number -> Number := SFadd 53 1024.
Definition Number_sub : Number -> Number -> Number := SFsub 53 1024.
Definition Number_mul : Number -> Number -> Number := SFmul 53 1024.

(** the literal [0.02]: 5764607523034235 * 2^-58 *)
Definition lit_0_02 : Number := S754_finite false 5764607523034235 (-58).

(** [Math.floor] *)
Definition Math_floor (x : Number) : Number :=
  match x with
  | S754_finite s m e =>
      if 0 <=? e then x
      else let q := cond_Zopp s (Zpos m) / 2 ^ (- e) in
           if q =? 0 then S754_zero s else Number_of_Z q
  | _ => x
  end.

(** the integer that a number denotes, when it is one *)
Definition Number_to_Z (x : Number) : option Z :=
  match x with
  | S754_zero _ => Some 0
  | S754_finite s m e =>
      if 0 <=? e then Some (cond_Zopp s (Zpos m * 2 ^ e))
      else if Zpos m mod 2 ^ (- e) =? 0 then Some (cond_Zopp s (Zpos m / 2 ^ (- e)))
      else None
  | _ => None
  end.

(** truncation toward zero, 0 for NaN and the infinities *)
Definition Number_trunc (x : Number) : Z :=
  match x with
  | S754_finite s m e =>
      cond_Zopp s (if 0 <=? e then Zpos m * 2 ^ e else Zpos m / 2 ^ (- e))
  | _ => 0
  end.

(** *** Rounding a mantissa shifted right

    [rne M n] is [M / 2^n] rounded to nearest, ties to even, as [SpecFloat]
    computes it from the quotient and the position of the remainder;
    [shifted M j mrs] says that the shift record [mrs] is what [j] one-bit
    shifts make of the mantissa [M]. *)

Definition loc_of_rest (rest W : Z) : location :=
  if rest =? 0 then loc_Exact else loc_Inexact (2 * rest ?= W).

Definition shifted (M j : Z) (mrs : shr_record) : Prop :=
  0 <= shr_m mrs /\
  exists rest, M = shr_m mrs * 2 ^ j + rest /\ 0 <= rest < 2 ^ j /\
               loc_of_shr_record mrs = loc_of_rest rest (2 ^ j).

Definition rne (M n : Z) : Z :=
  round_nearest_even (M / 2 ^ n) (loc_of_rest (M mod 2 ^ n) (2 ^ n)).

(** ** The libraries the backend is linked with

    [@solana/web3.js], [@solana/spl-token], [@coral-xyz/anchor], [bs58],
    [tweetnacl] and the string-to-number conversion of the language. The
    handlers are verified against any implementation of this interface. *)

Inductive arg : Type :=
| ArgVal (v : jsval)
| ArgBN (z : Z)
| ArgEnum (variant : string)
| ArgNull.

(** a [PublicKey] object is its 32 bytes; [toBuffer()] and [toBytes()] return
    them *)
Definition PublicKey : Type := list Z.
Definition pk_toBuffer (k : PublicKey) : list Z := k.

(** an unsigned transaction holding one program instruction *)
Record Transaction : Type := {
  method : string;
  args : list arg;
  data : list Z;
  accounts : list (string * PublicKey);
  recentBlockhash : option string;
  feePayer : option PublicKey;
}.

Class Platform : Type := {
  (** [new PublicKey(v)] *)
  PublicKey_new : jsval -> result PublicKey;
  pk_toString : PublicKey -> string;
  PublicKey_default : PublicKey;
  SystemProgram_programId : PublicKey;
  TOKEN_PROGRAM_ID : PublicKey;
  SYSVAR_RENT_PUBKEY : PublicKey;
  (** [PublicKey.findProgramAddressSync(seeds, programId)]: address and bump *)
  findProgramAddressSync : list (list Z) -> PublicKey -> result (PublicKey * Z);
  (** [getAssociatedTokenAddressSync(mint, owner, allowOwnerOffCurve)] *)
  getAssociatedTokenAddressSync : PublicKey -> PublicKey -> bool -> result PublicKey;
  bs58_decode : string -> result (list Z);
  (** [nacl.sign.detached.verify(msg, sig, publicKey)]; throws on a signature
      or key of the wrong size *)
  nacl_sign_detached_verify : list Z -> list Z -> list Z -> result bool;
  (** [new BN(v)] *)
  BN_new : jsval -> result Z;
  (** the number that a string converts to in arithmetic and comparisons *)
  StringToNumber : string -> Number;
  (** Anchor's encoding of an instruction: method name and arguments to
      instruction data *)
  encodeInstruction : string -> list arg -> result (list Z);
  (** [tx.serialize({requireAllSignatures: false, verifySignatures: false})
      .toString("base64")] *)
  serialize_base64 : Transaction -> result string;
}.

(** [Buffer.from(s)] and [Buffer.from(s, 'utf-8')]: the UTF-8 bytes of a
    string of code units below 256 *)
Definition utf8_bytes (a : ascii) : list Z :=
  let c := code a in
  if c <? 128 then [c] else [192 + c / 64; 128 + c mod 64].

Definition Buffer_from_string (s : string) : list Z :=
  flat_map utf8_bytes (list_ascii_of_string s).

(** the byte stored by [Buffer.from([v])]: [ToUint8(v)] *)
Definition ToUint8 `{Platform} (v : jsval) : Z :=
  match v with
  | JNum n => n mod 256
  | JStr s => Number_trunc (StringToNumber s) mod 256
  | JBool true => 1
  | JBool false | JNull | JUndefined => 0
  end.

Definition Buffer_from_array `{Platform} (l : list jsval) : list Z := map ToUint8 l.

(** [v < n] for a number [n] *)
Definition js_lt `{Platform} (v : jsval) (n : Z) : bool :=
  match v with
  | JNum z => z <? n
  | JStr s => SFltb (StringToNumber s) (Number_of_Z n)
  | JBool true => 1 <? n
  | JBool false | JNull => 0 <? n
  | JUndefined => false
  end.

(** whether [new Date(v * 1000).toISOString()] returns: the time value must
    be finite and within 8.64e15 ms of the epoch, else a RangeError is thrown *)
Definition Date_valid_seconds `{Platform} (v : jsval) : bool :=
  match v with
  | JNum z => Z.abs (z * 1000) <=? 8640000000000000
  | JStr s => SFleb (SFabs (Number_mul (StringToNumber s) (Number_of_Z 1000)))
                    (Number_of_Z 8640000000000000)
  | JBool _ | JNull => true
  | JUndefined => false
  end.

(** ** [src/utils/validation.js] *)

Record Validation : Type := {
  valid : bool;
  error : option string;
  value : option string;
}.

Definition MAX_U64 : Z := 18446744073709551615.

Definition validateAmount (amount : jsval) : Validation :=
  if strict_eq amount JUndefined || strict_eq amount JNull || strict_eq amount (JStr "")
  then {| valid := false; error := Some "Amount is required"; value := None |}
  else
    let amountStr := toString amount in
    if negb (test_digits_only amountStr)
    then {| valid := false; error := Some "Amount must be a positive integer"; value := None |}
    else
      let amountBigInt := BigInt_digits amountStr 0 in
      if amountBigInt <? 0
      then {| valid := false; error := Some "Amount must be positive"; value := None |}
      else if MAX_U64 <? amountBigInt
      then {| valid := false;
              error := Some "Amount exceeds maximum allowed value (u64 max)";
              value := None |}
      else {| valid := true; error := None; value := Some amountStr |}.

Definition validateCurrencyId (currencyId : jsval) : Validation :=
  if negb (strict_eq currencyId (JNum 0)) && negb (strict_eq currencyId (JNum 1))
  then {| valid := false;
          error := Some "Invalid currency ID. Must be 0 (USDC) or 1 (IDRX)";
          value := None |}
  else {| valid := true; error := None; value := None |}.

(** ** [src/services/blockchain.js]

    Account records, as Anchor decodes them ([K] is [PublicKey]) and as the
    service returns them ([K] is [string], after [.toString()] on every
    address). A 64-bit field is the integer that the service renders as a
    decimal string; an enum field is the key of its single-key object. *)

Module Account.

Record GlobalState (K : Type) : Type := {
  gs_authority : K;
  treasury : K;
  rewardPool : K;
  earlyWithdrawalPenalty : Z;
  totalCurrencies : Z;
}.
Arguments gs_authority {K} _.
Arguments treasury {K} _.
Arguments rewardPool {K} _.
Arguments earlyWithdrawalPenalty {K} _.
Arguments totalCurrencies {K} _.

Record CurrencyConfig (K : Type) : Type := {
  cc_currencyId : Z;
  baseTokenMint : K;
  savingsTokenMint : K;
  liteApy : Z;
  proLowRiskApy : Z;
  proMediumRiskApy : Z;
  proHighRiskApy : Z;
  totalDeposited : Z;
  totalGoals : Z;
}.
Arguments cc_currencyId {K} _.
Arguments baseTokenMint {K} _.
Arguments savingsTokenMint {K} _.
Arguments liteApy {K} _.
Arguments proLowRiskApy {K} _.
Arguments proMediumRiskApy {K} _.
Arguments proHighRiskApy {K} _.
Arguments totalDeposited {K} _.
Arguments totalGoals {K} _.

Record UserAccount (K : Type) : Type := {
  ua_owner : K;
  totalGoalsCreated : Z;
  activeGoals : Z;
  lifetimeDeposits : Z;
  lifetimeWithdrawals : Z;
}.
Arguments ua_owner {K} _.
Arguments totalGoalsCreated {K} _.
Arguments activeGoals {K} _.
Arguments lifetimeDeposits {K} _.
Arguments lifetimeWithdrawals {K} _.

Record GoalAccount (K : Type) : Type := {
  owner : K;
  goalIndex : Z;
  name : string;
  targetAmount : Z;
  currentAmount : Z;
  mode : string;
  riskTier : option string;
  currencyId : Z;
  createdAt : Z;
  deadline : Z;
  status : string;
  principal : Z;
  accruedInterest : Z;
  lastInterestUpdate : Z;
  consecutiveDepositDays : Z;
  lastDepositDay : Z;
  totalDeposits : Z;
  firstTimeBonus : bool;
  nftMint : option K;
}.
Arguments owner {K} _.
Arguments goalIndex {K} _.
Arguments name {K} _.
Arguments targetAmount {K} _.
Arguments currentAmount {K} _.
Arguments mode {K} _.
Arguments riskTier {K} _.
Arguments currencyId {K} _.
Arguments createdAt {K} _.
Arguments deadline {K} _.
Arguments status {K} _.
Arguments principal {K} _.
Arguments accruedInterest {K} _.
Arguments lastInterestUpdate {K} _.
Arguments consecutiveDepositDays {K} _.
Arguments lastDepositDay {K} _.
Arguments totalDeposits {K} _.
Arguments firstTimeBonus {K} _.
Arguments nftMint {K} _.

Record FaucetConfig (K : Type) : Type := {
  fc_authority : K;
  tokenMint : K;
  amountPerClaim : Z;
  cooldownPeriod : Z;
  maxClaimsPerDay : Z;
  totalClaimed : Z;
  totalUsers : Z;
}.
Arguments fc_authority {K} _.
Arguments tokenMint {K} _.
Arguments amountPerClaim {K} _.
Arguments cooldownPeriod {K} _.
Arguments maxClaimsPerDay {K} _.
Arguments totalClaimed {K} _.
Arguments totalUsers {K} _.

Record UserFaucetAccount (K : Type) : Type := {
  user : K;
  lastClaimTime : Z;
  claimsToday : Z;
  totalClaims : Z;
}.
Arguments user {K} _.
Arguments lastClaimTime {K} _.
Arguments claimsToday {K} _.
Arguments totalClaims {K} _.

End Account.
Import Account.

Section Service.
Context `{Platform}.

(** the addresses of a record rendered with [.toString()] *)
Definition decodeGlobalState (a : GlobalState PublicKey) : GlobalState string :=
  {| gs_authority := pk_toString (gs_authority a);
     treasury := pk_toString (treasury a);
     rewardPool := pk_toString (rewardPool a);
     earlyWithdrawalPenalty := earlyWithdrawalPenalty a;
     totalCurrencies := totalCurrencies a |}.

Definition decodeCurrencyConfig (a : CurrencyConfig PublicKey) : CurrencyConfig string :=
  {| cc_currencyId := cc_currencyId a;
     baseTokenMint := pk_toString (baseTokenMint a);
     savingsTokenMint := pk_toString (savingsTokenMint a);
     liteApy := liteApy a;
     proLowRiskApy := proLowRiskApy a;
     proMediumRiskApy := proMediumRiskApy a;
     proHighRiskApy := proHighRiskApy a;
     totalDeposited := totalDeposited a;
     totalGoals := totalGoals a |}.

Definition decodeUserAccount (a : UserAccount PublicKey) : UserAccount string :=
  {| ua_owner := pk_toString (ua_owner a);
     totalGoalsCreated := totalGoalsCreated a;
     activeGoals := activeGoals a;
     lifetimeDeposits := lifetimeDeposits a;
     lifetimeWithdrawals := lifetimeWithdrawals a |}.

Definition decodeGoalAccount (a : GoalAccount PublicKey) : GoalAccount string :=
  {| owner := pk_toString (owner a);
     goalIndex := goalIndex a;
     name := name a;
     targetAmount := targetAmount a;
     currentAmount := currentAmount a;
     mode := mode a;
     riskTier := riskTier a;
     currencyId := currencyId a;
     createdAt := createdAt a;
     deadline := deadline a;
     status := status a;
     principal := principal a;
     accruedInterest := accruedInterest a;
     lastInterestUpdate := lastInterestUpdate a;
     consecutiveDepositDays := consecutiveDepositDays a;
     lastDepositDay := lastDepositDay a;
     totalDeposits := totalDeposits a;
     firstTimeBonus := firstTimeBonus a;
     nftMint := option_map pk_toString (nftMint a) |}.

Definition decodeFaucetConfig (a : FaucetConfig PublicKey) : FaucetConfig string :=
  {| fc_authority := pk_toString (fc_authority a);
     tokenMint := pk_toString (tokenMint a);
     amountPerClaim := amountPerClaim a;
     cooldownPeriod := cooldownPeriod a;
     maxClaimsPerDay := maxClaimsPerDay a;
     totalClaimed := totalClaimed a;
     totalUsers := totalUsers a |}.

Definition decodeUserFaucetAccount (a : UserFaucetAccount PublicKey)
  : UserFaucetAccount string :=
  {| user := pk_toString (user a);
     lastClaimTime := lastClaimTime a;
     claimsToday := claimsToday a;
     totalClaims := totalClaims a |}.

(** The initialised singleton: the program id and the ledger behind the RPC
    connection. A lookup is [Ok None] when no account lives at the address
    and [Throw] when the RPC call fails. *)
Record BlockchainService : Type := {
  programId : PublicKey;
  rpc_globalState : PublicKey -> result (option (GlobalState PublicKey));
  rpc_currencyConfig : PublicKey -> result (option (CurrencyConfig PublicKey));
  rpc_userAccount : PublicKey -> result (option (UserAccount PublicKey));
  rpc_goalAccount : PublicKey -> result (option (GoalAccount PublicKey));
  rpc_faucetConfig : PublicKey -> result (option (FaucetConfig PublicKey));
  rpc_userFaucetAccount : PublicKey -> result (option (UserFaucetAccount PublicKey));
  getLatestBlockhash : result string;
}.

(** Anchor's [program.account.<name>.fetch(address)] *)
Definition fetch {A : Type} (rpc : PublicKey -> result (option A)) (address : PublicKey)
  : result A :=
  o ← rpc address;
  match o with
  | Some a => Ok a
  | None => Throw ("Account does not exist or has no data " +:+ pk_toString address)
  end.

Variable svc : BlockchainService.

Definition find_pda (seeds : list (list Z)) : result PublicKey :=
  r ← findProgramAddressSync seeds (programId svc);
  Ok (fst r).

Definition getGlobalStatePDA : result PublicKey :=
  find_pda [Buffer_from_string "global_state"].

Definition getCurrencyConfigPDA (currencyId : jsval) : result PublicKey :=
  find_pda [Buffer_from_string "currency"; Buffer_from_array [currencyId]].

Definition getSavingsMintPDA (currencyId : jsval) : result PublicKey :=
  find_pda [Buffer_from_string "savings_mint"; Buffer_from_array [currencyId]].

(** a wallet argument: a value taken from a request, or a [PublicKey] object *)
Inductive walletArg : Type :=
| WVal (v : jsval)
| WKey (k : PublicKey).

(** [typeof userWallet === "string" ? new PublicKey(userWallet) : userWallet],
    followed by the [.toBuffer()] call, which a non-string value does not have *)
Definition walletPubkey (userWallet : walletArg) : result PublicKey :=
  match userWallet with
  | WVal (JStr s) => PublicKey_new (JStr s)
  | WVal _ => Throw "TypeError: walletPubkey.toBuffer is not a function"
  | WKey k => Ok k
  end.

Definition getUserAccountPDA (userWallet : walletArg) : result PublicKey :=
  k ← walletPubkey userWallet;
  find_pda [Buffer_from_string "user"; pk_toBuffer k].

Definition getGoalAccountPDA (userWallet : walletArg) (goalIndex : jsval)
  : result PublicKey :=
  k ← walletPubkey userWallet;
  find_pda [Buffer_from_string "goal"; pk_toBuffer k; Buffer_from_array [goalIndex]].

Definition getFaucetConfigPDA : result PublicKey :=
  find_pda [Buffer_from_string "faucet_config"].

Definition getUserFaucetAccountPDA (userWallet : walletArg) : result PublicKey :=
  k ← walletPubkey userWallet;
  find_pda [Buffer_from_string "user_faucet"; pk_toBuffer k].

(** [catch (error) { if (error.message.includes("Account does not exist"))
    return null; throw error; }] *)
Definition null_if_missing {A : Type} (r : result A) : result (option A) :=
  match r with
  | Ok a => Ok (Some a)
  | Throw msg =>
      if includes msg "Account does not exist" then Ok None else Throw msg
  end.

(** [catch (error) { throw error; }] *)
Definition rethrow {A : Type} (r : result A) : result A :=
  match r with
  | Ok a => Ok a
  | Throw msg => Throw msg
  end.

Definition getGlobalState : result (GlobalState string) :=
  rethrow (pda ← getGlobalStatePDA;
           account ← fetch (rpc_globalState svc) pda;
           Ok (decodeGlobalState account)).

Definition getCurrencyConfig (currencyId : jsval) : result (CurrencyConfig string) :=
  rethrow (pda ← getCurrencyConfigPDA currencyId;
           account ← fetch (rpc_currencyConfig svc) pda;
           Ok (decodeCurrencyConfig account)).

Definition getUserAccount (userWallet : jsval) : result (option (UserAccount string)) :=
  null_if_missing (pda ← getUserAccountPDA (WVal userWallet);
                   account ← fetch (rpc_userAccount svc) pda;
                   Ok (decodeUserAccount account)).

Definition getGoalAccount (userWallet : jsval) (goalIndex : jsval)
  : result (option (GoalAccount string)) :=
  null_if_missing (pda ← getGoalAccountPDA (WVal userWallet) goalIndex;
                   account ← fetch (rpc_goalAccount svc) pda;
                   Ok (decodeGoalAccount account)).

Definition getFaucetConfig : result (option (FaucetConfig string)) :=
  null_if_missing (pda ← getFaucetConfigPDA;
                   account ← fetch (rpc_faucetConfig svc) pda;
                   Ok (decodeFaucetConfig account)).

Definition getUserFaucetAccount (userWallet : jsval)
  : result (option (UserFaucetAccount string)) :=
  null_if_missing (pda ← getUserFaucetAccountPDA (WVal userWallet);
                   account ← fetch (rpc_userFaucetAccount svc) pda;
                   Ok (decodeUserFaucetAccount account)).

(** no account lives at a derived address *)
Definition no_account_at {A : Type} (rpc : PublicKey -> result (option A))
    (address : result PublicKey) : Prop :=
  exists pda, address = Ok pda /\ rpc pda = Ok None.

(** [try { currencies.push(await this.getCurrencyConfig(i)) } catch (error) { }]:
    one turn of the loop of [getAllCurrencies] *)
Definition push_currency (currencies : list (CurrencyConfig string)) (i : Z)
  : list (CurrencyConfig string) :=
  match getCurrencyConfig (JNum i) with
  | Ok config => app currencies [config]
  | Throw _ => currencies
  end.

(** [for (let i = 0; i < 2; i++)] *)
Definition getAllCurrencies : result (list (CurrencyConfig string)) :=
  rethrow (Ok (fold_left push_currency [0; 1] [])).

(** the loop of [getUserGoals] with [n] turns left, at index [i], [goals]
    pushed so far *)
Fixpoint goals_loop (userWallet : jsval) (n : nat) (i : Z) (goals : list (GoalAccount string))
  : result (list (GoalAccount string)) :=
  match n with
  | O => Ok goals
  | S n' =>
      goal ← getGoalAccount userWallet (JNum i);
      goals_loop userWallet n' (i + 1)
        (match goal with
         | Some goal => app goals [goal]
         | None => goals
         end)
  end.

(** [for (let i = 0; i < userAccount.totalGoalsCreated; i++)] *)
Definition getUserGoals (userWallet : jsval) : result (list (GoalAccount string)) :=
  rethrow (
    userAccount ← getUserAccount userWallet;
    match userAccount with
    | None => Ok []
    | Some userAccount =>
        goals_loop userWallet (Z.to_nat (totalGoalsCreated userAccount)) 0 []
    end).

(** the answers of [getGoalAccount] at the indices [i], [i+1], ... [i+n-1],
    when none of the reads fails *)
Fixpoint goal_reads (userWallet : jsval) (n : nat) (i : Z)
  : option (list (option (GoalAccount string))) :=
  match n with
  | O => Some []
  | S n' =>
      match getGoalAccount userWallet (JNum i), goal_reads userWallet n' (i + 1) with
      | Ok goal, Some rest => Some (goal :: rest)
      | _, _ => None
      end
  end.

End Service.

(** ** [src/utils/transactions.js] *)

Section Transactions.
Context `{Platform}.
Variable svc : BlockchainService.

(** [program.methods.<method>(args).accounts(accounts).transaction()] *)
Definition program_methods (method : string) (args : list arg)
    (accounts : list (string * PublicKey)) : result (Transaction) :=
  d ← encodeInstruction method args;
  Ok {| method := method; args := args; data := d; accounts := accounts;
        recentBlockhash := None; feePayer := None |}.

(** [tx.recentBlockhash = blockhash; tx.feePayer = userPubkey] *)
Definition stamp (tx : Transaction) (blockhash : string) (payer : PublicKey)
  : Transaction :=
  {| method := method tx; args := args tx; data := data tx; accounts := accounts tx;
     recentBlockhash := Some blockhash; feePayer := Some payer |}.

Record CreateGoalTx : Type := {
  cg_transaction : Transaction;
  cg_goalAccount : string;
  cg_goalIndex : Z;
}.

Definition buildCreateGoalTx
    (userWallet name targetAmount mode riskTier currencyId deadline : jsval)
  : result CreateGoalTx :=
  rethrow (
    userPubkey ← PublicKey_new userWallet;
    userAccount ← getUserAccount svc userWallet;
    match userAccount with
    | None => Throw "User account not initialized. Please initialize user first."
    | Some userAccount =>
        let goalIndex := totalGoalsCreated userAccount in
        userAccountPDA ← getUserAccountPDA svc (WKey userPubkey);
        goalAccountPDA ← getGoalAccountPDA svc (WKey userPubkey) (JNum goalIndex);
        currencyConfigPDA ← getCurrencyConfigPDA svc currencyId;
        let nftMintPDA := PublicKey_default in
        let modeEnum :=
          if strict_eq mode (JStr "lite") then ArgEnum "lite" else ArgEnum "pro" in
        riskTierEnum ←
          (if strict_eq mode (JStr "pro") then
             if negb (truthy riskTier) then Throw "Risk tier is required for Pro mode"
             else Ok (if strict_eq riskTier (JStr "low") then ArgEnum "low"
                      else if strict_eq riskTier (JStr "medium") then ArgEnum "medium"
                      else ArgEnum "high")
           else Ok ArgNull);
        target ← BN_new targetAmount;
        dl ← BN_new deadline;
        tx ← program_methods "createGoal"
               [ArgVal name; ArgBN target; modeEnum; riskTierEnum; ArgVal currencyId;
                ArgBN dl]
               [("user", userPubkey); ("userAccount", userAccountPDA);
                ("goalAccount", goalAccountPDA); ("currencyConfig", currencyConfigPDA);
                ("nftMint", nftMintPDA); ("systemProgram", SystemProgram_programId);
                ("tokenProgram", TOKEN_PROGRAM_ID); ("rent", SYSVAR_RENT_PUBKEY)];
        blockhash ← getLatestBlockhash svc;
        Ok {| cg_transaction := stamp tx blockhash userPubkey;
              cg_goalAccount := pk_toString goalAccountPDA;
              cg_goalIndex := goalIndex |}
    end).

Record DepositTx : Type := {
  dp_transaction : Transaction;
  dp_savingsTokenMint : string;
  dp_userSavingsTokenAccount : string;
}.

Definition buildDepositTx (userWallet goalIndex amount currencyId : jsval)
  : result DepositTx :=
  rethrow (
    userPubkey ← PublicKey_new userWallet;
    userAccountPDA ← getUserAccountPDA svc (WKey userPubkey);
    goalAccountPDA ← getGoalAccountPDA svc (WKey userPubkey) goalIndex;
    currencyConfigPDA ← getCurrencyConfigPDA svc currencyId;
    savingsMintPDA ← getSavingsMintPDA svc currencyId;
    currencyConfig ← getCurrencyConfig svc currencyId;
    baseTokenMint ← PublicKey_new (JStr (baseTokenMint currencyConfig));
    userBaseTokenAccount ← getAssociatedTokenAddressSync baseTokenMint userPubkey false;
    userSavingsTokenAccount ← getAssociatedTokenAddressSync savingsMintPDA userPubkey false;
    amt ← BN_new amount;
    tx ← program_methods "deposit" [ArgBN amt]
           [("user", userPubkey); ("userAccount", userAccountPDA);
            ("goalAccount", goalAccountPDA); ("currencyConfig", currencyConfigPDA);
            ("baseTokenMint", baseTokenMint); ("savingsTokenMint", savingsMintPDA);
            ("userBaseTokenAccount", userBaseTokenAccount);
            ("userSavingsTokenAccount", userSavingsTokenAccount);
            ("tokenProgram", TOKEN_PROGRAM_ID);
            ("systemProgram", SystemProgram_programId)];
    blockhash ← getLatestBlockhash svc;
    Ok {| dp_transaction := stamp tx blockhash userPubkey;
          dp_savingsTokenMint := pk_toString savingsMintPDA;
          dp_userSavingsTokenAccount := pk_toString userSavingsTokenAccount |}).

(** What either withdrawal builder returns. An absent key is [None]. The
    amounts [totalAmount], [totalBeforePenalty], [penalty] and
    [totalAfterPenalty] are the numbers that the builder renders with
    [.toString()]. *)
Record WithdrawTx : Type := {
  wd_transaction : Transaction;
  wd_principal : Z;
  wd_interest : Z;
  totalAmount : option Number;
  totalBeforePenalty : option Number;
  penalty : option Number;
  totalAfterPenalty : option Number;
}.

Definition buildWithdrawCompletedTx (userWallet goalIndex : jsval) : result WithdrawTx :=
  rethrow (
    userPubkey ← PublicKey_new userWallet;
    goal ← getGoalAccount svc userWallet goalIndex;
    match goal with
    | None => Throw "Goal not found"
    | Some goal =>
        let currencyId := JNum (currencyId goal) in
        userAccountPDA ← getUserAccountPDA svc (WKey userPubkey);
        goalAccountPDA ← getGoalAccountPDA svc (WKey userPubkey) goalIndex;
        globalStatePDA ← getGlobalStatePDA svc;
        currencyConfigPDA ← getCurrencyConfigPDA svc currencyId;
        savingsMintPDA ← getSavingsMintPDA svc currencyId;
        currencyConfig ← getCurrencyConfig svc currencyId;
        baseTokenMint ← PublicKey_new (JStr (baseTokenMint currencyConfig));
        globalState ← getGlobalState svc;
        treasury ← PublicKey_new (JStr (treasury globalState));
        userBaseTokenAccount ← getAssociatedTokenAddressSync baseTokenMint userPubkey false;
        userSavingsTokenAccount ←
          getAssociatedTokenAddressSync savingsMintPDA userPubkey false;
        treasuryBaseTokenAccount ← getAssociatedTokenAddressSync baseTokenMint treasury false;
        tx ← program_methods "withdrawCompleted" []
               [("user", userPubkey); ("userAccount", userAccountPDA);
                ("goalAccount", goalAccountPDA); ("globalState", globalStatePDA);
                ("currencyConfig", currencyConfigPDA); ("baseTokenMint", baseTokenMint);
                ("savingsTokenMint", savingsMintPDA);
                ("userBaseTokenAccount", userBaseTokenAccount);
                ("userSavingsTokenAccount", userSavingsTokenAccount);
                ("treasuryBaseTokenAccount", treasuryBaseTokenAccount);
                ("tokenProgram", TOKEN_PROGRAM_ID)];
        blockhash ← getLatestBlockhash svc;
        let totalAmount :=
          Number_add (Number_of_Z (currentAmount goal)) (Number_of_Z (accruedInterest goal)) in
        Ok {| wd_transaction := stamp tx blockhash userPubkey;
              wd_principal := currentAmount goal;
              wd_interest := accruedInterest goal;
              totalAmount := Some totalAmount;
              totalBeforePenalty := None;
              penalty := None;
              totalAfterPenalty := None |}
    end).

Definition buildWithdrawEarlyTx (userWallet goalIndex : jsval) : result WithdrawTx :=
  rethrow (
    userPubkey ← PublicKey_new userWallet;
    goal ← getGoalAccount svc userWallet goalIndex;
    match goal with
    | None => Throw "Goal not found"
    | Some goal =>
        let currencyId := JNum (currencyId goal) in
        userAccountPDA ← getUserAccountPDA svc (WKey userPubkey);
        goalAccountPDA ← getGoalAccountPDA svc (WKey userPubkey) goalIndex;
        globalStatePDA ← getGlobalStatePDA svc;
        currencyConfigPDA ← getCurrencyConfigPDA svc currencyId;
        savingsMintPDA ← getSavingsMintPDA svc currencyId;
        currencyConfig ← getCurrencyConfig svc currencyId;
        baseTokenMint ← PublicKey_new (JStr (baseTokenMint currencyConfig));
        globalState ← getGlobalState svc;
        treasury ← PublicKey_new (JStr (treasury globalState));
        rewardPool ← PublicKey_new (JStr (rewardPool globalState));
        userBaseTokenAccount ← getAssociatedTokenAddressSync baseTokenMint userPubkey false;
        userSavingsTokenAccount ←
          getAssociatedTokenAddressSync savingsMintPDA userPubkey false;
        treasuryBaseTokenAccount ← getAssociatedTokenAddressSync baseTokenMint treasury false;
        rewardPoolBaseTokenAccount ←
          getAssociatedTokenAddressSync baseTokenMint rewardPool false;
        tx ← program_methods "withdrawEarly" []
               [("user", userPubkey); ("userAccount", userAccountPDA);
                ("goalAccount", goalAccountPDA); ("globalState", globalStatePDA);
                ("currencyConfig", currencyConfigPDA); ("baseTokenMint", baseTokenMint);
                ("savingsTokenMint", savingsMintPDA);
                ("userBaseTokenAccount", userBaseTokenAccount);
                ("userSavingsTokenAccount", userSavingsTokenAccount);
                ("treasuryBaseTokenAccount", treasuryBaseTokenAccount);
                ("rewardPoolBaseTokenAccount", rewardPoolBaseTokenAccount);
                ("tokenProgram", TOKEN_PROGRAM_ID)];
        blockhash ← getLatestBlockhash svc;
        let totalAmount :=
          Number_add (Number_of_Z (currentAmount goal)) (Number_of_Z (accruedInterest goal)) in
        let penalty := Math_floor (Number_mul totalAmount lit_0_02) in
        let amountAfterPenalty := Number_sub totalAmount penalty in
        Ok {| wd_transaction := stamp tx blockhash userPubkey;
              wd_principal := currentAmount goal;
              wd_interest := accruedInterest goal;
              totalAmount := None;
              totalBeforePenalty := Some totalAmount;
              penalty := Some penalty;
              totalAfterPenalty := Some amountAfterPenalty |}
    end).

Record ClaimFaucetTx : Type := {
  cf_transaction : Transaction;
  cf_userTokenAccount : string;
}.

Definition buildClaimFaucetTx (userWallet tokenMint : jsval) : result ClaimFaucetTx :=
  rethrow (
    userPubkey ← PublicKey_new userWallet;
    tokenMintPubkey ← PublicKey_new tokenMint;
    faucetConfigPDA ← getFaucetConfigPDA svc;
    userFaucetAccountPDA ← getUserFaucetAccountPDA svc (WKey userPubkey);
    userTokenAccount ← getAssociatedTokenAddressSync tokenMintPubkey userPubkey false;
    faucetTokenAccount ← getAssociatedTokenAddressSync tokenMintPubkey faucetConfigPDA true;
    tx ← program_methods "claimTokens" []
           [("user", userPubkey); ("faucetConfig", faucetConfigPDA);
            ("userFaucetAccount", userFaucetAccountPDA); ("tokenMint", tokenMintPubkey);
            ("faucetTokenAccount", faucetTokenAccount);
            ("userTokenAccount", userTokenAccount);
            ("tokenProgram", TOKEN_PROGRAM_ID);
            ("systemProgram", SystemProgram_programId)];
    blockhash ← getLatestBlockhash svc;
    Ok {| cf_transaction := stamp tx blockhash userPubkey;
          cf_userTokenAccount := pk_toString userTokenAccount |}).

Record InitializeUserTx : Type := {
  iu_transaction : Transaction;
  iu_userAccount : string;
}.

Definition buildInitializeUserTx (userWallet : jsval) : result InitializeUserTx :=
  rethrow (
    userPubkey ← PublicKey_new userWallet;
    userAccountPDA ← getUserAccountPDA svc (WKey userPubkey);
    tx ← program_methods "initializeUser" []
           [("user", userPubkey); ("userAccount", userAccountPDA);
            ("systemProgram", SystemProgram_programId)];
    blockhash ← getLatestBlockhash svc;
    Ok {| iu_transaction := stamp tx blockhash userPubkey;
          iu_userAccount := pk_toString userAccountPDA |}).

(** the transaction names the key of [userWallet] as its first account and
    as the payer of its fee, and carries the latest blockhash *)
Definition paid_by (userWallet : jsval) (tx : Transaction) : Prop :=
  exists userPubkey blockhash,
    PublicKey_new userWallet = Ok userPubkey /\
    getLatestBlockhash svc = Ok blockhash /\
    feePayer tx = Some userPubkey /\
    recentBlockhash tx = Some blockhash /\
    head (accounts tx) = Some ("user", userPubkey).

End Transactions.

(** ** [src/middleware/authMiddleware.js] *)

Record Request : Type := {
  headers : gmap string string;
  params : gmap string string;
  body : gmap string jsval;
}.

Section Middleware.
Context `{Platform}.

(** how the middleware leaves a request: a response of its own, or [next()]
    with [req.authenticatedWallet] and [req.walletPublicKey] set *)
Inductive AuthOutcome : Type :=
| Rejected (status : Z) (error : string)
| Authenticated (authenticatedWallet : string) (walletPublicKey : PublicKey).

Definition verifyWalletSignature (env : gmap string string) (now_ms : Z) (req : Request)
  : AuthOutcome :=
  let attempt : result AuthOutcome :=
    let walletAddress := headers req !! "x-wallet-address" in
    let signature := headers req !! "x-signature" in
    let message := headers req !! "x-message" in
    let timestamp := headers req !! "x-timestamp" in
    let simpleAuthMode := bool_decide (env !! "SIMPLE_AUTH" = Some "true") in
    if simpleAuthMode then
      if negb (str_truthy walletAddress) || negb (str_truthy timestamp)
      then Ok (Rejected 401 "Missing authentication headers")
      else
        match PublicKey_new (JStr (default "" walletAddress)) with
        | Throw _ => Ok (Rejected 401 "Invalid wallet address")
        | Ok publicKey =>
            match parseInt (default "" timestamp) with
            | None => Ok (Rejected 401 "Invalid timestamp")
            | Some _ => Ok (Authenticated (default "" walletAddress) publicKey)
            end
        end
    else
      if negb (str_truthy walletAddress) || negb (str_truthy signature)
         || negb (str_truthy message) || negb (str_truthy timestamp)
      then Ok (Rejected 401 "Missing authentication headers")
      else
        let currentTimestamp := now_ms in
        let fiveMinutes := 5 * 60 * 1000 in
        match parseInt (default "" timestamp) with
        | None => Ok (Rejected 401 "Invalid timestamp")
        | Some requestTimestamp =>
            if fiveMinutes <? Z.abs (currentTimestamp - requestTimestamp)
            then Ok (Rejected 401 "Timestamp expired")
            else
              match PublicKey_new (JStr (default "" walletAddress)) with
              | Throw _ => Ok (Rejected 401 "Invalid wallet address")
              | Ok publicKey =>
                  match bs58_decode (default "" signature) with
                  | Throw _ => Ok (Rejected 401 "Invalid signature format")
                  | Ok signatureBytes =>
                      let messageBytes := Buffer_from_string (default "" message) in
                      let publicKeyBytes := pk_toBuffer publicKey in
                      isValid ← nacl_sign_detached_verify messageBytes signatureBytes
                                  publicKeyBytes;
                      if negb isValid then Ok (Rejected 401 "Invalid signature")
                      else if str_truthy (params req !! "address")
                              && negb (bool_decide (params req !! "address" = walletAddress))
                      then Ok (Rejected 403 "Forbidden")
                      else if truthy (field (body req) "walletAddress")
                              && negb (strict_eq (field (body req) "walletAddress")
                                         (JStr (default "" walletAddress)))
                      then Ok (Rejected 403 "Forbidden")
                      else Ok (Authenticated (default "" walletAddress) publicKey)
                  end
              end
        end
  in
  match attempt with
  | Ok outcome => outcome
  | Throw _ => Rejected 500 "Authentication failed"
  end.

(** the request carries the wallet [w], a message and a signature of the
    message that verifies under the key [pk] of [w] *)
Definition signed_by (req : Request) (w : string) (pk : PublicKey) : Prop :=
  headers req !! "x-wallet-address" = Some w /\ w <> "" /\
  PublicKey_new (JStr w) = Ok pk /\
  exists sig msg sigBytes,
    headers req !! "x-signature" = Some sig /\ sig <> "" /\
    headers req !! "x-message" = Some msg /\ msg <> "" /\
    bs58_decode sig = Ok sigBytes /\
    nacl_sign_detached_verify (Buffer_from_string msg) sigBytes (pk_toBuffer pk) = Ok true.

(** the route parameter [address] or the body field [walletAddress] names a
    wallet other than [w] *)
Definition names_other_wallet (req : Request) (w : string) : Prop :=
  (exists a, params req !! "address" = Some a /\ a <> "" /\ a <> w) \/
  (truthy (field (body req) "walletAddress") = true /\
   field (body req) "walletAddress" <> JStr w).

(** [optionalAuth]: [None] is [next()] on the request as it came, without
    [req.authenticatedWallet] *)
Definition optionalAuth (env : gmap string string) (now_ms : Z) (req : Request)
  : option AuthOutcome :=
  let walletAddress := headers req !! "x-wallet-address" in
  if negb (str_truthy walletAddress) then None
  else Some (verifyWalletSignature env now_ms req).

(** the timestamp header parses and lies within five minutes of the clock *)
Definition fresh (now_ms : Z) (req : Request) : Prop :=
  exists ts t, headers req !! "x-timestamp" = Some ts /\ parseInt ts = Some t /\
               Z.abs (now_ms - t) <= 300000.

End Middleware.

(** ** The route handlers

    A handler answers with an error status and an [error] label, or with the
    success body; the human-readable [message] texts are left out. *)

Inductive response (A : Type) : Type :=
| Fail (status : Z) (error : string)
| Json (details : A).
Arguments Fail {A} status error.
Arguments Json {A} details.

(** [try { ... } catch (error) { res.status(500).json(...) }] *)
Definition handle {A : Type} (r : result (response A)) : response A :=
  match r with
  | Ok reply => reply
  | Throw _ => Fail 500 "Internal server error"
  end.

Section Routes.
Context `{Platform}.
Variable svc : BlockchainService.

(** *** [POST /api/goals/create] *)

Record CreateReply : Type := {
  cr_transaction : string;
  cr_built : Transaction;
  cr_goalAccount : string;
  cr_goalIndex : Z;
  cr_riskTier : jsval;
  (** the yield figure reported, in basis points *)
  cr_apy : Z;
}.

Definition post_create (now_ms : Z) (body : gmap string jsval) : response CreateReply :=
  handle (
    let walletAddress := field body "walletAddress" in
    let name := field body "name" in
    let targetAmount := field body "targetAmount" in
    let mode := field body "mode" in
    let riskTier := field body "riskTier" in
    let currencyId := field body "currencyId" in
    let deadline := field body "deadline" in
    if negb (truthy walletAddress) || negb (truthy name) || negb (truthy targetAmount)
       || negb (truthy mode) || strict_eq currencyId JUndefined || negb (truthy deadline)
    then Ok (Fail 400 "Missing required fields")
    else if strict_eq mode (JStr "pro") && negb (truthy riskTier)
    then Ok (Fail 400 "Missing risk tier")
    else if negb (includes_lit ["lite"; "pro"] mode)
    then Ok (Fail 400 "Invalid mode")
    else if strict_eq mode (JStr "pro") && negb (includes_lit ["low"; "medium"; "high"] riskTier)
    then Ok (Fail 400 "Invalid risk tier")
    else
      userAccount ← getUserAccount svc walletAddress;
      match userAccount with
      | None => Ok (Fail 400 "User not initialized")
      | Some userAccount =>
          if 5 <=? activeGoals userAccount
          then Ok (Fail 400 "Maximum goals reached")
          else
            let now := now_ms / 1000 in
            let minDeadline := now + 90 * 24 * 60 * 60 in
            if js_lt deadline minDeadline
            then Ok (Fail 400 "Invalid deadline")
            else
              result ← buildCreateGoalTx svc walletAddress name targetAmount mode riskTier
                         currencyId deadline;
              serializedTx ← serialize_base64 (cg_transaction result);
              currencyConfig ← getCurrencyConfig svc currencyId;
              let apy :=
                if strict_eq mode (JStr "lite") then liteApy currencyConfig
                else if strict_eq riskTier (JStr "low") then proLowRiskApy currencyConfig
                else if strict_eq riskTier (JStr "medium") then proMediumRiskApy currencyConfig
                else proHighRiskApy currencyConfig in
              if negb (Date_valid_seconds deadline)
              then Throw "RangeError: Invalid time value"
              else
                Ok (Json {| cr_transaction := serializedTx;
                            cr_built := cg_transaction result;
                            cr_goalAccount := cg_goalAccount result;
                            cr_goalIndex := cg_goalIndex result;
                            cr_riskTier :=
                              if strict_eq mode (JStr "pro") then riskTier else JNull;
                            cr_apy := apy |})
      end).

(** *** [POST /api/transactions/deposit] *)

Record DepositReply : Type := {
  dr_transaction : string;
  dr_built : Transaction;
  dr_depositAmount : jsval;
}.

Definition post_deposit (body : gmap string jsval) : response DepositReply :=
  handle (
    let walletAddress := field body "walletAddress" in
    let goalIndex := field body "goalIndex" in
    let amount := field body "amount" in
    let currencyId := field body "currencyId" in
    if negb (truthy walletAddress) || strict_eq goalIndex JUndefined || negb (truthy amount)
       || strict_eq currencyId JUndefined
    then Ok (Fail 400 "Missing required fields")
    else if negb (valid (validateAmount amount))
    then Ok (Fail 400 "Invalid amount")
    else if negb (valid (validateCurrencyId currencyId))
    then Ok (Fail 400 "Invalid currency")
    else
      goal ← getGoalAccount svc walletAddress goalIndex;
      match goal with
      | None => Ok (Fail 404 "Goal not found")
      | Some goal =>
          if negb (String.eqb (status goal) "active")
          then Ok (Fail 400 "Goal not active")
          else if negb (strict_eq (JNum (Account.currencyId goal)) currencyId)
          then Ok (Fail 400 "Currency mismatch")
          else
            result ← buildDepositTx svc walletAddress goalIndex amount currencyId;
            serializedTx ← serialize_base64 (dp_transaction result);
            Ok (Json {| dr_transaction := serializedTx;
                        dr_built := dp_transaction result;
                        dr_depositAmount := amount |})
      end).

(** *** [POST /api/transactions/withdraw] *)

Record WithdrawReply : Type := {
  wr_transaction : string;
  wr_built : Transaction;
  withdrawalType : string;
  wr_totalBeforePenalty : option Number;
  wr_penalty : Number;
  wr_finalAmount : option Number;
}.

(** [a || b] on two optional keys of the builder's result *)
Definition or_else {A : Type} (a b : option A) : option A :=
  match a with
  | Some x => Some x
  | None => b
  end.

Definition post_withdraw (now_ms : Z) (body : gmap string jsval) : response WithdrawReply :=
  handle (
    let walletAddress := field body "walletAddress" in
    let goalIndex := field body "goalIndex" in
    let early := field body "early" in
    if negb (truthy walletAddress) || strict_eq goalIndex JUndefined
    then Ok (Fail 400 "Missing required fields")
    else
      goal ← getGoalAccount svc walletAddress goalIndex;
      match goal with
      | None => Ok (Fail 404 "Goal not found")
      | Some goal =>
          if currentAmount goal =? 0
          then Ok (Fail 400 "No funds to withdraw")
          else
            let now := now_ms / 1000 in
            let isEarly := now <? deadline goal in
            result ← (if isEarly || truthy early
                      then buildWithdrawEarlyTx svc walletAddress goalIndex
                      else buildWithdrawCompletedTx svc walletAddress goalIndex);
            serializedTx ← serialize_base64 (wd_transaction result);
            Ok (Json {| wr_transaction := serializedTx;
                        wr_built := wd_transaction result;
                        withdrawalType :=
                          if isEarly || truthy early then "early" else "completed";
                        wr_totalBeforePenalty :=
                          or_else (totalBeforePenalty result) (totalAmount result);
                        wr_penalty := default (Number_of_Z 0) (penalty result);
                        wr_finalAmount :=
                          or_else (totalAfterPenalty result) (totalAmount result) |})
      end).

(** *** [POST /api/transactions/faucet/claim] *)

Record FaucetReply : Type := {
  fr_transaction : string;
  fr_built : Transaction;
  fr_userTokenAccount : string;
  (** [faucetConfig ? faucetConfig.amountPerClaim : "N/A"] *)
  fr_amount : option Z;
}.

(** the block "Determine token mint": [tokenMint], or else the base-token
    mint of the currency [currencyId] *)
Definition mintAddress_of (tokenMint currencyId : jsval) : result jsval :=
  if negb (truthy tokenMint) && negb (strict_eq currencyId JUndefined)
  then currencyConfig ← getCurrencyConfig svc currencyId;
       Ok (JStr (baseTokenMint currencyConfig))
  else Ok tokenMint.

Definition post_faucet_claim (env : gmap string string) (now_ms : Z) (body : gmap string jsval)
  : response FaucetReply :=
  handle (
    let walletAddress := field body "walletAddress" in
    let tokenMint := field body "tokenMint" in
    let currencyId := field body "currencyId" in
    if negb (truthy walletAddress)
    then Ok (Fail 400 "Missing required field")
    else
      mintAddress ← mintAddress_of tokenMint currencyId;
      if negb (truthy mintAddress)
      then Ok (Fail 400 "Missing token information")
      else if negb (bool_decide (env !! "FAUCET_ENABLED" = Some "true"))
      then Ok (Fail 403 "Faucet disabled")
      else
        userFaucetAccount ← getUserFaucetAccount svc walletAddress;
        let limited : option (response FaucetReply) :=
          match userFaucetAccount with
          | Some userFaucetAccount =>
              let now := now_ms / 1000 in
              let cooldownPeriod := 3600 in
              let timeSinceLastClaim := now - lastClaimTime userFaucetAccount in
              if timeSinceLastClaim <? cooldownPeriod
              then Some (Fail 429 "Cooldown active")
              else if 10 <=? claimsToday userFaucetAccount
              then Some (Fail 429 "Daily limit reached")
              else None
          | None => None
          end in
        match limited with
        | Some reply => Ok reply
        | None =>
            result ← buildClaimFaucetTx svc walletAddress mintAddress;
            serializedTx ← serialize_base64 (cf_transaction result);
            faucetConfig ← getFaucetConfig svc;
            Ok (Json {| fr_transaction := serializedTx;
                        fr_built := cf_transaction result;
                        fr_userTokenAccount := cf_userTokenAccount result;
                        fr_amount := option_map amountPerClaim faucetConfig |})
        end).

(** *** [POST /api/users/initialize] *)

Record InitializeReply : Type := {
  ir_transaction : string;
  ir_built : Transaction;
  ir_userAccount : string;
}.

Definition post_initialize (body : gmap string jsval) : response InitializeReply :=
  handle (
    let walletAddress := field body "walletAddress" in
    if negb (truthy walletAddress)
    then Ok (Fail 400 "Missing required field")
    else
      existingUser ← getUserAccount svc walletAddress;
      match existingUser with
      | Some _ => Ok (Fail 400 "User already exists")
      | None =>
          result ← buildInitializeUserTx svc walletAddress;
          serializedTx ← serialize_base64 (iu_transaction result);
          Ok (Json {| ir_transaction := serializedTx;
                      ir_built := iu_transaction result;
                      ir_userAccount := iu_userAccount result |})
      end).

(** *** [GET /api/users/:address] *)

Definition get_user (address : string) : response (UserAccount string) :=
  handle (
    userAccount ← getUserAccount svc (JStr address);
    match userAccount with
    | None => Ok (Fail 404 "User not found")
    | Some userAccount => Ok (Json userAccount)
    end).

(** *** [GET /api/users/:address/stats] *)

Record StatsReply : Type := {
  st_user : UserAccount string;
  st_totalGoals : Z;
  st_active : list (GoalAccount string);
  st_completed : list (GoalAccount string);
  st_all : list (GoalAccount string);
  st_totalSaved : Number;
  st_totalInterestEarned : Number;
}.

(** the sum of a list of integers *)
Definition sum_Z (l : list Z) : Z := fold_right Z.add 0 l.

(** [goals.reduce((sum, g) => sum + parseInt(g.<amount>), 0)] *)
Definition sum_amounts (amount : GoalAccount string -> Z) (goals : list (GoalAccount string))
  : Number :=
  fold_left (fun sum g => Number_add sum (Number_of_Z (amount g))) goals (Number_of_Z 0).

Definition get_user_stats (address : string) : response StatsReply :=
  handle (
    userAccount ← getUserAccount svc (JStr address);
    match userAccount with
    | None => Ok (Fail 404 "User not found")
    | Some userAccount =>
        goals ← getUserGoals svc (JStr address);
        let activeGoals := List.filter (fun g => String.eqb (status g) "active") goals in
        let completedGoals :=
          List.filter (fun g => String.eqb (status g) "completed") goals in
        Ok (Json {| st_user := userAccount;
                    st_totalGoals := totalGoalsCreated userAccount;
                    st_active := activeGoals;
                    st_completed := completedGoals;
                    st_all := goals;
                    st_totalSaved := sum_amounts currentAmount goals;
                    st_totalInterestEarned := sum_amounts accruedInterest goals |})
    end).

(** *** The goal listings

    What the routes add to a goal. [progress], a quotient rendered with
    [toFixed], is left out, and of the three dates only whether
    [toISOString()] returns. *)

Record EnrichedGoal : Type := {
  eg_goal : GoalAccount string;
  eg_totalValue : Number;
  eg_currency : string;
}.

Definition currencyName (currencyId : Z) : string :=
  if currencyId =? 0 then "USDC" else "IDRX".

(** [goal.lastDepositDay > 0 ? new Date(...).toISOString() : null] *)
Definition lastDepositDate_valid (goal : GoalAccount string) : bool :=
  if 0 <? lastDepositDay goal then Date_valid_seconds (JNum (lastDepositDay goal)) else true.

Definition enrich (goal : GoalAccount string) : result EnrichedGoal :=
  if negb (Date_valid_seconds (JNum (createdAt goal)))
     || negb (Date_valid_seconds (JNum (deadline goal)))
     || negb (lastDepositDate_valid goal)
  then Throw "RangeError: Invalid time value"
  else Ok {| eg_goal := goal;
             eg_totalValue :=
               Number_add (Number_of_Z (currentAmount goal))
                          (Number_of_Z (accruedInterest goal));
             eg_currency := currencyName (Account.currencyId goal) |}.

(** [list.map(f)] for an [f] that may throw *)
Fixpoint map_result {A B : Type} (f : A -> result B) (l : list A) : result (list B) :=
  match l with
  | [] => Ok []
  | a :: rest => b ← f a; bs ← map_result f rest; Ok (b :: bs)
  end.

(** a key of [req.query]: a string, or an array or object (repeated or
    bracketed keys), which is truthy and [===] to no string *)
Inductive query_value : Type :=
| QStr (s : string)
| QMany.

(** [GET /api/goals/user/:address] *)
Definition get_user_goals (address : string) (status : option query_value)
  : response (list EnrichedGoal) :=
  handle (
    goals ← getUserGoals svc (JStr address);
    let filteredGoals :=
      match status with
      | None => goals
      | Some (QStr s) =>
          if String.eqb s "" then goals
          else List.filter (fun g => String.eqb (Account.status g) s) goals
      | Some QMany => List.filter (fun _ => false) goals
      end in
    enrichedGoals ← map_result enrich filteredGoals;
    Ok (Json enrichedGoals)).

Record GoalReply : Type := {
  gr_goal : EnrichedGoal;
  isExpired : bool;
  canWithdrawWithoutPenalty : bool;
}.

(** [parseInt(goalIndex)] as the element of the array given to
    [Buffer.from]. [parseInt] returns a binary64 number: the integer read is
    rounded to the nearest one, so that beyond 2^53 the element is another
    integer than the one written ("9007199254740993" gives 2^53), and
    Infinity, stored as the byte 0, from 2^1024 on. NaN is stored as the
    byte 0, as [undefined] is. *)
Definition index_arg (n : option Z) : jsval :=
  match n with
  | Some z => JNum (Number_trunc (Number_of_Z z))
  | None => JUndefined
  end.

(** [GET /api/goals/:address/:goalIndex] *)
Definition get_goal (now_ms : Z) (address goalIndex : string) : response GoalReply :=
  handle (
    goal ← getGoalAccount svc (JStr address) (index_arg (parseInt goalIndex));
    match goal with
    | None => Ok (Fail 404 "Goal not found")
    | Some goal =>
        let now := now_ms / 1000 in
        let isExpired := deadline goal <? now in
        enriched ← enrich goal;
        Ok (Json {| gr_goal := enriched;
                    isExpired := isExpired;
                    canWithdrawWithoutPenalty := isExpired |})
    end).

(** [GET /api/goals/currencies/all]; the four yields rendered as percentages
    are left out *)
Definition get_currencies : response (list (CurrencyConfig string * string)) :=
  handle (
    currencies ← getAllCurrencies svc;
    Ok (Json (map (fun currency => (currency, currencyName (cc_currencyId currency)))
                  currencies))).

(** *** [GET /api/transactions/user/:address/history] *)

Record HistoryEntry : Type := {
  he_goalIndex : Z;
  he_goalName : string;
  he_currency : string;
  he_totalDeposits : Z;
  he_currentAmount : Z;
  he_accruedInterest : Z;
  he_status : string;
}.

Definition history_entry (goal : GoalAccount string) : result HistoryEntry :=
  if negb (Date_valid_seconds (JNum (createdAt goal))) || negb (lastDepositDate_valid goal)
  then Throw "RangeError: Invalid time value"
  else Ok {| he_goalIndex := goalIndex goal;
             he_goalName := name goal;
             he_currency := currencyName (Account.currencyId goal);
             he_totalDeposits := totalDeposits goal;
             he_currentAmount := currentAmount goal;
             he_accruedInterest := accruedInterest goal;
             he_status := Account.status goal |}.

Definition get_history (address : string) : response (list HistoryEntry) :=
  handle (
    goals ← getUserGoals svc (JStr address);
    history ← map_result history_entry goals;
    Ok (Json history)).

(** *** The [GET] routes of [src/routes/goals.js], as Express dispatches them

    A router tries its routes in the order of registration and runs the
    handler of the first one whose path matches; these handlers answer and
    never call [next()]. A path is given as its segments below the mount
    point, free of percent escapes. A literal segment matches without regard
    to letter case, a parameter matches any non-empty segment. *)

Inductive segment : Type :=
| Lit (s : string)
| Param (name : string).

Definition lower (a : ascii) : ascii :=
  let c := code a in
  if (65 <=? c) && (c <=? 90) then ascii_of_N (Z.to_N (c + 32)) else a.

Fixpoint lower_string (s : string) : string :=
  match s with
  | EmptyString => EmptyString
  | String a rest => String (lower a) (lower_string rest)
  end.

(** the route parameters when [path] matches [pattern] *)
Fixpoint match_path (pattern : list segment) (path : list string)
  : option (gmap string string) :=
  match pattern, path with
  | [], [] => Some ∅
  | Lit s :: pattern', piece :: path' =>
      if String.eqb (lower_string piece) (lower_string s) then match_path pattern' path'
      else None
  | Param name :: pattern', piece :: path' =>
      if String.eqb piece "" then None
      else option_map (insert name piece) (match_path pattern' path')
  | _, _ => None
  end.

(** the answer of the first matching route, [None] when no route matches
    and the request falls through to the handlers mounted after the router *)
Fixpoint dispatch {R : Type} (routes : list (list segment * (gmap string string -> R)))
    (path : list string) : option R :=
  match routes with
  | [] => None
  | (pattern, handler) :: rest =>
      match match_path pattern path with
      | Some params => Some (handler params)
      | None => dispatch rest path
      end
  end.

Inductive GoalsGet : Type :=
| GoalList (reply : response (list EnrichedGoal))
| GoalDetails (reply : response GoalReply)
| Currencies (reply : response (list (CurrencyConfig string * string))).

Definition param (params : gmap string string) (name : string) : string :=
  default "" (params !! name).

Definition goals_get_routes (now_ms : Z) (status : option query_value)
  : list (list segment * (gmap string string -> GoalsGet)) :=
  [ ([Lit "user"; Param "address"],
     fun params => GoalList (get_user_goals (param params "address") status));
    ([Param "address"; Param "goalIndex"],
     fun params => GoalDetails (get_goal now_ms (param params "address")
                                  (param params "goalIndex")));
    ([Lit "currencies"; Lit "all"],
     fun _ => Currencies get_currencies) ].

Definition goals_get (now_ms : Z) (status : option query_value) (path : list string)
  : option GoalsGet :=
  dispatch (goals_get_routes now_ms status) path.

End Routes.

(** ** [index.js]: the routers behind the middleware

    [app.use("/api/users", verifyWalletSignature, usersRoutes)], and the
    same for ["/api/goals"] and ["/api/transactions"]: the middleware runs
    at the mount point, whose path has no parameter, before the router has
    matched a route. The [req.params] that it reads there is the empty
    object; the parameters of a route exist only for the handler that the
    router then selects. A rejection by the middleware is the response;
    after [next()] the response is the handler's. *)

Section Application.
Context `{Platform}.

(** the request as the middleware sees it at the mount point *)
Definition at_mount_point (req_headers : gmap string string) (req_body : gmap string jsval)
  : Request :=
  {| headers := req_headers; params := ∅; body := req_body |}.

Definition mounted {A : Type} (env : gmap string string) (now_ms : Z)
    (req_headers : gmap string string) (req_body : gmap string jsval)
    (handler : response A) : response A :=
  match verifyWalletSignature env now_ms (at_mount_point req_headers req_body) with
  | Rejected status error => Fail status error
  | Authenticated _ _ => handler
  end.

(** [GET /api/users/:address], as the application answers it *)
Definition api_get_user (svc : BlockchainService) (env : gmap string string) (now_ms : Z)
    (req_headers : gmap string string) (req_body : gmap string jsval) (address : string)
  : response (UserAccount string) :=
  mounted env now_ms req_headers req_body (get_user svc address).

End Application.

(** ** [src/utils/validation.js]: wallet addresses *)

(** [s.toUpperCase()] as UTF-16 code units, for a string of code units below
    256: the sharp s becomes two letters, the micro sign and the y with
    diaeresis leave the range *)
Definition toUpperCase_unit (c : Z) : list Z :=
  if (97 <=? c) && (c <=? 122) then [c - 32]
  else if c =? 181 then [924]
  else if c =? 223 then [83; 83]
  else if (224 <=? c) && (c <=? 254) && negb (c =? 247) then [c - 32]
  else if c =? 255 then [376]
  else [c].

Definition units (s : string) : list Z := map code (list_ascii_of_string s).

Definition toUpperCase (s : string) : list Z := flat_map toUpperCase_unit (units s).

Fixpoint starts_with (sub l : list Z) : bool :=
  match sub, l with
  | [], _ => true
  | c :: sub', d :: l' => (c =? d) && starts_with sub' l'
  | _ :: _, [] => false
  end.

(** [s.includes(sub)] on code units *)
Fixpoint includes_units (l sub : list Z) : bool :=
  starts_with sub l ||
  match l with
  | [] => false
  | _ :: rest => includes_units rest sub
  end.

(** the character class [[1-9A-HJ-NP-Za-km-z]] *)
Definition is_base58 (a : ascii) : bool :=
  let c := code a in
  ((49 <=? c) && (c <=? 57)) || ((65 <=? c) && (c <=? 72)) || ((74 <=? c) && (c <=? 78))
  || ((80 <=? c) && (c <=? 90)) || ((97 <=? c) && (c <=? 107))
  || ((109 <=? c) && (c <=? 122)).

Fixpoint all_base58 (s : string) : bool :=
  match s with
  | EmptyString => true
  | String a rest => is_base58 a && all_base58 rest
  end.

(** [/^[1-9A-HJ-NP-Za-km-z]+$/.test(s)] *)
Definition base58Regex_test (s : string) : bool :=
  negb (String.eqb s "") && all_base58 s.

Section Addresses.
Context `{Platform}.

(** [typeof v === "string"] *)
Definition is_string (v : jsval) : bool :=
  match v with
  | JStr _ => true
  | _ => false
  end.

Definition isValidSolanaAddress (address : jsval) : bool :=
  if negb (truthy address) || negb (is_string address) then false
  else match PublicKey_new address with
       | Ok _ => true
       | Throw _ => false
       end.

(** the [suggestion] texts are left out *)
Definition validateSolanaAddress (address : jsval) : Validation :=
  if negb (truthy address)
  then {| valid := false; error := Some "Address is required"; value := None |}
  else
    match address with
    | JStr s =>
        if includes_units (toUpperCase s) (units "YOUR")
           || includes_units (toUpperCase s) (units "WALLET")
           || includes_units (toUpperCase s) (units "ADDRESS")
        then {| valid := false; error := Some "Placeholder address detected"; value := None |}
        else if (Z.of_nat (String.length s) <? 32) || (44 <? Z.of_nat (String.length s))
        then {| valid := false; error := Some "Invalid address length"; value := None |}
        else if negb (base58Regex_test s)
        then {| valid := false; error := Some "Invalid characters in address"; value := None |}
        else
          match PublicKey_new address with
          | Ok _ => {| valid := true; error := None; value := None |}
          | Throw _ =>
              {| valid := false; error := Some "Invalid Solana address format";
                 value := None |}
          end
    | _ => {| valid := false; error := Some "Address must be a string"; value := None |}
    end.

End Addresses.

(** ** [src/config/db.js]: transactions

    A client checked out of the pool is driven by [query] and [release]
    calls. The state is the log of the calls made on it so far; what the
    server answers to a statement may depend on that log. A computation
    returns or throws, and leaves a log either way. *)

Inductive call : Type :=
| Query (text : string)
| Release.

Definition is_query (c : call) : bool :=
  match c with
  | Query _ => true
  | Release => false
  end.

Definition DB (A : Type) : Type := list call -> result A * list call.

Definition db_ret {A : Type} (a : A) : DB A := fun log => (Ok a, log).

Definition db_throw {A : Type} (error : string) : DB A := fun log => (Throw error, log).

Definition db_bind {A B : Type} (m : DB A) (f : A -> DB B) : DB B :=
  fun log =>
    match m log with
    | (Ok a, log') => f a log'
    | (Throw error, log') => (Throw error, log')
    end.

(** [try { m } catch (error) { handler }] *)
Definition try_catch {A : Type} (m : DB A) (handler : string -> DB A) : DB A :=
  fun log =>
    match m log with
    | (Ok a, log') => (Ok a, log')
    | (Throw error, log') => handler error log'
    end.

(** [try { m } finally { cleanup }]: the outcome of [m] stands unless the
    cleanup throws *)
Definition try_finally {A : Type} (m : DB A) (cleanup : DB unit) : DB A :=
  fun log =>
    let '(outcome, log') := m log in
    match cleanup log' with
    | (Ok _, log'') => (outcome, log'')
    | (Throw error, log'') => (Throw error, log'')
    end.

(** the server behind a client: its answer to a statement after the calls
    logged so far, [None] for success and [Some error] for a failure *)
Definition Server : Type := list call -> string -> option string.

Definition client_query (server : Server) (text : string) : DB unit :=
  fun log =>
    (match server log text with
     | None => Ok ()
     | Some error => Throw error
     end, app log [Query text]).

(** [client.release()], which throws on a client already released *)
Definition client_release : DB unit :=
  fun log =>
    (if forallb is_query log then Ok ()
     else Throw "Release called on client which has already been released to the pool.",
     app log [Release]).

(** [transaction(callback)] on the client that [getClient()] returns,
    whose log is empty *)
Definition transaction {A : Type} (getClient : result Server) (callback : Server -> DB A)
  : result A * list call :=
  match getClient with
  | Throw error => (Throw error, [])
  | Ok client =>
      try_finally
        (try_catch
           (db_bind (client_query client "BEGIN") (fun _ =>
            db_bind (callback client) (fun result =>
            db_bind (client_query client "COMMIT") (fun _ =>
            db_ret result))))
           (fun error =>
            db_bind (client_query client "ROLLBACK") (fun _ => db_throw error)))
        client_release []
  end.

(** the callback only adds queries to the log *)
Definition queries_only {A : Type} (callback : DB A) : Prop :=
  forall log, exists calls,
    snd (callback log) = app log calls /\ forallb is_query calls = true.

(** the first of BEGIN, the callback and COMMIT to fail, with its error and
    the log at that point *)
Definition first_failure {A : Type} (client : Server) (callback : Server -> DB A)
    (failure : string) (log : list call) : Prop :=
  (client [] "BEGIN" = Some failure /\ log = [Query "BEGIN"]) \/
  (client [] "BEGIN" = None /\
   (callback client [Query "BEGIN"] = (Throw failure, log) \/
    exists a log', callback client [Query "BEGIN"] = (Ok a, log') /\
                   client log' "COMMIT" = Some failure /\
                   log = app log' [Query "COMMIT"])).

(** ** The contract configuration ([config/contracts])

    The addresses of the deployment, read from the environment when the
    module is loaded. *)

Section Contracts.
Context `{Platform}.
Variable env : gmap string string.

(** [process.env.NAME] *)
Definition process_env (name : string) : jsval :=
  match env !! name with
  | Some s => JStr s
  | None => JUndefined
  end.

(** [a || b] *)
Definition or_value (a b : jsval) : jsval := if truthy a then a else b.

Definition validatePublicKey (address : jsval) (name : string) : result PublicKey :=
  if negb (truthy address)
  then Throw ("Missing required environment variable: " +:+ name)
  else match PublicKey_new address with
       | Ok publicKey => Ok publicKey
       | Throw _ => Throw ("Invalid public key for " +:+ name +:+ ": " +:+ toString address)
       end.

Record CurrencyContracts : Type := {
  currency_id : Z;
  mint : jsval;
  savingsMint : jsval;
  configPda : jsval;
  faucet : jsval;
}.

Definition contracts_programId : jsval := process_env "PROGRAM_ID".
Definition globalState_pda : jsval := process_env "GLOBAL_STATE_PDA".
Definition globalState_treasury : jsval := process_env "TREASURY_ACCOUNT".
Definition globalState_rewardPool : jsval := process_env "REWARD_POOL_ACCOUNT".

Definition usdc : CurrencyContracts :=
  {| currency_id := 0;
     mint := process_env "USDC_MINT";
     savingsMint := or_value (process_env "USDC_SAVINGS_MINT") (process_env "SUSDC_MINT");
     configPda := process_env "USDC_CONFIG_PDA";
     faucet := process_env "USDC_FAUCET" |}.

Definition idrx : CurrencyContracts :=
  {| currency_id := 1;
     mint := process_env "IDRX_MINT";
     savingsMint := or_value (process_env "IDRX_SAVINGS_MINT") (process_env "SIDRX_MINT");
     configPda := process_env "IDRX_CONFIG_PDA";
     faucet := process_env "IDRX_FAUCET" |}.

(** [switch (currencyId) { case 0: ... case 1: ... default: throw ... }] *)
Definition getCurrency (currencyId : jsval) : result CurrencyContracts :=
  if strict_eq currencyId (JNum 0) then Ok usdc
  else if strict_eq currencyId (JNum 1) then Ok idrx
  else Throw ("Invalid currency ID: " +:+ toString currencyId).

Definition validate : result unit :=
  _ ← validatePublicKey contracts_programId "PROGRAM_ID";
  _ ← validatePublicKey globalState_pda "GLOBAL_STATE_PDA";
  _ ← validatePublicKey globalState_treasury "TREASURY_ACCOUNT";
  _ ← validatePublicKey globalState_rewardPool "REWARD_POOL_ACCOUNT";
  _ ← validatePublicKey (mint usdc) "USDC_MINT";
  _ ← validatePublicKey (savingsMint usdc) "USDC_SAVINGS_MINT or SUSDC_MINT";
  _ ← validatePublicKey (configPda usdc) "USDC_CONFIG_PDA";
  _ ← validatePublicKey (faucet usdc) "USDC_FAUCET";
  _ ← validatePublicKey (mint idrx) "IDRX_MINT";
  _ ← validatePublicKey (savingsMint idrx) "IDRX_SAVINGS_MINT or SIDRX_MINT";
  _ ← validatePublicKey (configPda idrx) "IDRX_CONFIG_PDA";
  _ ← validatePublicKey (faucet idrx) "IDRX_FAUCET";
  Ok ().

(** the addresses that [validate] requires, with the names it reports *)
Definition required_addresses : list (jsval * string) :=
  [ (contracts_programId, "PROGRAM_ID");
    (globalState_pda, "GLOBAL_STATE_PDA");
    (globalState_treasury, "TREASURY_ACCOUNT");
    (globalState_rewardPool, "REWARD_POOL_ACCOUNT");
    (mint usdc, "USDC_MINT");
    (savingsMint usdc, "USDC_SAVINGS_MINT or SUSDC_MINT");
    (configPda usdc, "USDC_CONFIG_PDA");
    (faucet usdc, "USDC_FAUCET");
    (mint idrx, "IDRX_MINT");
    (savingsMint idrx, "IDRX_SAVINGS_MINT or SIDRX_MINT");
    (configPda idrx, "IDRX_CONFIG_PDA");
    (faucet idrx, "IDRX_FAUCET") ].

(** the first address of the list that [validatePublicKey] refuses, with
    the error *)
Fixpoint first_refused (l : list (jsval * string)) : option string :=
  match l with
  | [] => None
  | (address, name) :: rest =>
      match validatePublicKey address name with
      | Ok _ => first_refused rest
      | Throw error => Some error
      end
  end.

End Contracts.

(** ** A concrete deployment

    An instance of the library interface and a small ledger, on which the
    handlers can be run. Base58 and the key format are the real ones. The
    hash behind derived addresses, the curve test, the signature check and
    the wire encodings are simple stand-ins for the real algorithms. *)

Module Devnet.
Local Open Scope list_scope.

Definition alphabet : string :=
  "123456789ABCDEFGHJKLMNPQRSTUVWXYZabcdefghijkmnopqrstuvwxyz".

Fixpoint index_in (a : ascii) (s : string) (i : Z) : option Z :=
  match s with
  | EmptyString => None
  | String b rest => if Ascii.eqb a b then Some i else index_in a rest (i + 1)
  end.

Fixpoint base58_value (s : string) (acc : Z) : option Z :=
  match s with
  | EmptyString => Some acc
  | String a rest =>
      match index_in a alphabet 0 with
      | Some d => base58_value rest (acc * 58 + d)
      | None => None
      end
  end.

Fixpoint leading_ones (s : string) : nat :=
  match s with
  | String "1" rest => S (leading_ones rest)
  | _ => O
  end.

(** the big-endian digits of [n] in base [b], without leading zeros *)
Fixpoint digits_be (fuel : nat) (b n : Z) (acc : list Z) : list Z :=
  match fuel with
  | O => acc
  | S fuel' => if n =? 0 then acc else digits_be fuel' b (n / b) (n mod b :: acc)
  end.

Definition decode (s : string) : result (list Z) :=
  match base58_value s 0 with
  | None => Throw "Non-base58 character"
  | Some n => Ok (repeat 0 (leading_ones s) ++ digits_be 128 256 n [])
  end.

Definition value_be (bytes : list Z) : Z := fold_left (fun acc b => acc * 256 + b) bytes 0.

Fixpoint leading_zeros (bytes : list Z) : nat :=
  match bytes with
  | b :: rest => if b =? 0 then S (leading_zeros rest) else O
  | [] => O
  end.

Definition encode (bytes : list Z) : string :=
  string_of_list_ascii
    (repeat "1"%char (leading_zeros bytes)
     ++ map (fun d => default "1"%char (String.get (Z.to_nat d) alphabet))
            (digits_be 128 58 (value_be bytes) [])).

(** the 32 bytes of a non-negative integer, big-endian *)
Definition bytes32 (n : Z) : list Z :=
  let ds := digits_be 32 256 (n mod 2 ^ 256) [] in
  repeat 0 (32 - List.length ds)%nat ++ ds.

(** stand-in for SHA-256 *)
Definition digest (input : list Z) : list Z :=
  bytes32 (fold_left (fun acc b => (acc * 1000003 + b + 1) mod 2 ^ 256) input 7).

#[global] Instance platform : Platform := {|
  PublicKey_new v :=
    match v with
    | JStr s =>
        match decode s with
        | Ok bytes =>
            if (List.length bytes =? 32)%nat then Ok bytes
            else Throw "Invalid public key input"
        | Throw msg => Throw msg
        end
    | JNum n => if 0 <=? n then Ok (bytes32 n) else Throw "Invalid public key input"
    | _ => Throw "Invalid public key input"
    end;
  pk_toString := encode;
  PublicKey_default := repeat 0 32;
  SystemProgram_programId := repeat 0 32;
  TOKEN_PROGRAM_ID := bytes32 0x06ddf6e1d765a193d9cbe146ceeb79ac1cb485ed5f5b37913a8cf5857eff00a9;
  SYSVAR_RENT_PUBKEY := bytes32 0x06a7d517192c5c51218cc94c3d4af17f58daee089ba1fd44e3dbd98a00000000;
  findProgramAddressSync seeds programId :=
    if existsb (fun seed => (32 <? List.length seed)%nat) seeds
    then Throw "Max seed length exceeded"
    else Ok (digest (concat seeds ++ [255] ++ programId
                     ++ Buffer_from_string "ProgramDerivedAddress"), 255);
  getAssociatedTokenAddressSync mint owner allowOwnerOffCurve :=
    Ok (digest (owner ++ mint ++ Buffer_from_string "AssociatedToken"));
  bs58_decode := decode;
  nacl_sign_detached_verify msg sig publicKey :=
    if negb (List.length sig =? 64)%nat then Throw "bad signature size"
    else if negb (List.length publicKey =? 32)%nat then Throw "bad public key size"
    else Ok (bool_decide (sig = publicKey ++ digest msg));
  BN_new v :=
    match v with
    | JNum n => Ok n
    | JStr s => if all_digits s then Ok (BigInt_digits s 0) else Throw "Invalid character"
    | JNull | JUndefined => Ok 0
    | JBool _ => Throw "Invalid character"
    end;
  StringToNumber s :=
    if all_digits s then Number_of_Z (BigInt_digits s 0) else S754_nan;
  encodeInstruction method args := Ok (Buffer_from_string method);
  serialize_base64 tx :=
    match recentBlockhash tx, feePayer tx with
    | Some blockhash, Some payer => Ok ("unsigned:" +:+ method tx +:+ ":" +:+ blockhash)
    | None, _ => Throw "Transaction recentBlockhash required"
    | _, None => Throw "Transaction fee payer required"
    end;
|}.

Definition alice : string := "9WzDXwBbmkg8ZTbNMqUxvQRAyrZzDsGYdLVL9zYtAWWM".
Definition bob : string := "vines1vzrYbzLMRdu58ou5XTby4qAqVRLmqo36NKPTg".
Definition usdc_mint : string := "4zMMC9srt5Ri5X14GAgXhaHii3GnPAEERYPJgZJDncDU".
Definition idrx_mint : string := "EPjFWdd5AufqSSqeM2qN1xzybapC8G4wEGGkZwyTDt1v".
Definition treasury_wallet : string := "DjVE6JNiYqPL2QXyCUUh8rNjHrbz9hXHNYt99MQ59qw1".
Definition reward_wallet : string := "SysvarC1ock11111111111111111111111111111111".

(** the key that a base58 text denotes, all zeros if it denotes none *)
Definition key (s : string) : PublicKey :=
  match decode s with
  | Ok bytes => bytes
  | Throw _ => repeat 0 32
  end.

Definition program : PublicKey := digest (Buffer_from_string "stacksave").

Definition pda (seeds : list (list Z)) : PublicKey :=
  digest (concat seeds ++ [255] ++ program ++ Buffer_from_string "ProgramDerivedAddress").

(** at the address [where], the account [what]; nothing elsewhere *)
Definition only_at {A : Type} (where_ : PublicKey) (what : option A) (address : PublicKey)
  : result (option A) :=
  if bool_decide (address = where_) then Ok what else Ok None.

Definition currency (id : Z) (mint : string) : CurrencyConfig PublicKey :=
  {| cc_currencyId := id; baseTokenMint := key mint;
     savingsTokenMint := pda [Buffer_from_string "savings_mint"; [id]];
     liteApy := 500; proLowRiskApy := 800; proMediumRiskApy := 1200;
     proHighRiskApy := 1800; totalDeposited := 0; totalGoals := 0 |}.

(** A ledger with the global state, both currencies and the faucet
    configured, where alice has the given user account, goal number 0 and
    faucet account. *)
Definition ledger (ua : option (UserAccount PublicKey)) (goal0 : option (GoalAccount PublicKey))
    (ufa : option (UserFaucetAccount PublicKey)) : BlockchainService :=
  {| programId := program;
     rpc_globalState :=
       only_at (pda [Buffer_from_string "global_state"])
         (Some {| gs_authority := key treasury_wallet; treasury := key treasury_wallet;
                  rewardPool := key reward_wallet; earlyWithdrawalPenalty := 200;
                  totalCurrencies := 2 |});
     rpc_currencyConfig := fun address =>
       if bool_decide (address = pda [Buffer_from_string "currency"; [0]])
       then Ok (Some (currency 0 usdc_mint))
       else only_at (pda [Buffer_from_string "currency"; [1]])
              (Some (currency 1 idrx_mint)) address;
     rpc_userAccount := only_at (pda [Buffer_from_string "user"; key alice]) ua;
     rpc_goalAccount := only_at (pda [Buffer_from_string "goal"; key alice; [0]]) goal0;
     rpc_faucetConfig :=
       only_at (pda [Buffer_from_string "faucet_config"])
         (Some {| fc_authority := key treasury_wallet; tokenMint := key usdc_mint;
                  amountPerClaim := 1000000000; cooldownPeriod := 3600;
                  maxClaimsPerDay := 10; totalClaimed := 0; totalUsers := 1 |});
     rpc_userFaucetAccount := only_at (pda [Buffer_from_string "user_faucet"; key alice]) ufa;
     getLatestBlockhash := Ok "EkSnNWid2cvwEVnVx9aBqawnmiCNiDgp3gUdkDPTKN1N" |}.

(** the ledger with no account at all *)
Definition empty_ledger : BlockchainService :=
  {| programId := program;
     rpc_globalState := fun _ => Ok None;
     rpc_currencyConfig := fun _ => Ok None;
     rpc_userAccount := fun _ => Ok None;
     rpc_goalAccount := fun _ => Ok None;
     rpc_faucetConfig := fun _ => Ok None;
     rpc_userFaucetAccount := fun _ => Ok None;
     getLatestBlockhash := Ok "EkSnNWid2cvwEVnVx9aBqawnmiCNiDgp3gUdkDPTKN1N" |}.

Definition alice_account (active : Z) : UserAccount PublicKey :=
  {| ua_owner := key alice; totalGoalsCreated := 1; activeGoals := active;
     lifetimeDeposits := 0; lifetimeWithdrawals := 0 |}.

(** goal number 0 of alice: a lite USDC goal *)
Definition alice_goal (amount interest deadline_ : Z) : GoalAccount PublicKey :=
  {| owner := key alice; goalIndex := 0; name := "Holiday"; targetAmount := 1000000;
     currentAmount := amount; mode := "lite"; riskTier := None; currencyId := 0;
     createdAt := 1700000000; deadline := deadline_; status := "active";
     principal := amount; accruedInterest := interest; lastInterestUpdate := 1700000000;
     consecutiveDepositDays := 0; lastDepositDay := 0; totalDeposits := 1;
     firstTimeBonus := false; nftMint := None |}.

(** alice's goal holds 10000 units and fell due at 1700000000 *)
Definition due_goal : GoalAccount PublicKey := alice_goal 10000 0 1700000000.

Definition due_ledger : BlockchainService := ledger None (Some due_goal) None.

(** alice's goal holds 2^53 + 1 units, which is not a binary64 value *)
Definition large_goal : GoalAccount PublicKey := alice_goal 9007199254740993 0 1700000000.

Definition large_ledger : BlockchainService := ledger None (Some large_goal) None.

Definition withdraw_request (early : jsval) : gmap string jsval :=
  {[ "walletAddress" := JStr alice; "goalIndex" := JNum 0; "early" := early ]}.

(** requests as alice, naming the wallet [named] in the route and in the body *)
Definition login_message : string := "Sign in to StackSave".

Definition alice_signature : string :=
  Eval vm_compute in encode (key alice ++ digest (Buffer_from_string login_message)).

Definition simple_request (timestamp named : string) : Request :=
  {| headers := {[ "x-wallet-address" := alice; "x-timestamp" := timestamp ]};
     params := {[ "address" := named ]};
     body := {[ "walletAddress" := JStr named ]} |}.

Definition signed_request (timestamp named : string) : Request :=
  {| headers := {[ "x-wallet-address" := alice; "x-signature" := alice_signature;
                   "x-message" := login_message; "x-timestamp" := timestamp ]};
     params := {[ "address" := named ]};
     body := {[ "walletAddress" := JStr named ]} |}.

(** alice with four active goals asks for a new goal due in 2024-03 *)
Definition create_ledger : BlockchainService := ledger (Some (alice_account 4)) None None.

Definition create_request (mode riskTier : jsval) : gmap string jsval :=
  {[ "walletAddress" := JStr alice; "name" := JStr "Car"; "targetAmount" := JNum 5000;
     "mode" := mode; "riskTier" := riskTier; "currencyId" := JNum 0;
     "deadline" := JNum 1710000000 ]}.

Definition deposit_request (amount : jsval) : gmap string jsval :=
  {[ "walletAddress" := JStr alice; "goalIndex" := JNum 0; "amount" := amount;
     "currencyId" := JNum 0 ]}.

(** alice's faucet account: last claim at [last], [claims] claims today *)
Definition faucet_account (last claims : Z) : UserFaucetAccount PublicKey :=
  {| user := key alice; lastClaimTime := last; claimsToday := claims;
     totalClaims := claims |}.

Definition faucet_ledger (last claims : Z) : BlockchainService :=
  ledger None None (Some (faucet_account last claims)).

Definition faucet_request : gmap string jsval :=
  {[ "walletAddress" := JStr alice; "tokenMint" := JStr usdc_mint ]}.

Definition faucet_env : gmap string string := {[ "FAUCET_ENABLED" := "true" ]}.

Definition simple_env : gmap string string := {[ "SIMPLE_AUTH" := "true" ]}.
Definition full_env : gmap string string := {[ "SIMPLE_AUTH" := "false" ]}.

(** alice has no user account yet and asks for one *)
Definition new_user_ledger : BlockchainService := ledger None None None.

Definition initialize_request : gmap string jsval := {[ "walletAddress" := JStr alice ]}.

(** alice has created one goal, the one that fell due *)
Definition listing_ledger : BlockchainService :=
  ledger (Some (alice_account 1)) (Some due_goal) None.

(** bob has a user account, and nobody else has one *)
Definition bob_account : UserAccount PublicKey :=
  {| ua_owner := key bob; totalGoalsCreated := 2; activeGoals := 2;
     lifetimeDeposits := 5000; lifetimeWithdrawals := 0 |}.

Definition bob_ledger : BlockchainService :=
  {| programId := program;
     rpc_globalState := fun _ => Ok None;
     rpc_currencyConfig := fun _ => Ok None;
     rpc_userAccount := only_at (pda [Buffer_from_string "user"; key bob]) (Some bob_account);
     rpc_goalAccount := fun _ => Ok None;
     rpc_faucetConfig := fun _ => Ok None;
     rpc_userFaucetAccount := fun _ => Ok None;
     getLatestBlockhash := Ok "EkSnNWid2cvwEVnVx9aBqawnmiCNiDgp3gUdkDPTKN1N" |}.

(** the headers of alice's signed requests *)
Definition signed_headers (timestamp : string) : gmap string string :=
  {[ "x-wallet-address" := alice; "x-signature" := alice_signature;
     "x-message" := login_message; "x-timestamp" := timestamp ]}.

(** a database server that refuses every COMMIT, and a callback of one
    statement *)
Definition commit_refused : Server :=
  fun _ text => if String.eqb text "COMMIT" then Some "could not serialize access" else None.

Definition insert_user (client : Server) : DB unit :=
  client_query client "INSERT INTO users (wallet_address, user_account_pda) VALUES ($1, $2)".

End Devnet.

(** * Properties *)

(** ** Binary64 arithmetic on integers

    [binary_round_aux] shifts the mantissa right bit by bit, keeping a round
    bit and a sticky bit. The lemmas below relate that loop to integer
    division, and conclude that sums, differences and the two-percent floor
    are exact on integers below 2^53. *)



(** [digits2_pos m] is the number of bits of [m] *)
Lemma digits2_pos_bounds (m : positive) :
  2 ^ (Zpos (digits2_pos m) - 1) <= Zpos m < 2 ^ Zpos (digits2_pos m).
Proof.
  induction m as [p IH | p IH |]; cbn [digits2_pos].
  - rewrite Pos2Z.inj_succ, Z.pow_succ_r by lia.
    replace (Z.succ (Zpos (digits2_pos p)) - 1) with (Z.succ (Zpos (digits2_pos p) - 1)) by lia.
    rewrite Z.pow_succ_r by lia. lia.
  - rewrite Pos2Z.inj_succ, Z.pow_succ_r by lia.
    replace (Z.succ (Zpos (digits2_pos p)) - 1) with (Z.succ (Zpos (digits2_pos p) - 1)) by lia.
    rewrite Z.pow_succ_r by lia. lia.
  - cbn. lia.
Qed.

Lemma digits2_pos_unique (m : positive) (k : Z) :
  2 ^ (k - 1) <= Zpos m < 2 ^ k -> Zpos (digits2_pos m) = k.
Proof.
  intros [Hlo Hhi]. pose proof (digits2_pos_bounds m) as [Blo Bhi].
  set (d := Zpos (digits2_pos m)) in *.
  assert (0 < d) by (subst d; lia).
  assert (0 < k).
  { destruct (Z_lt_le_dec 0 k); [assumption|].
    assert (2 ^ k <= 2 ^ 0) by (apply Z.pow_le_mono_r; lia). cbn in *. lia. }
  destruct (Z_lt_le_dec d k) as [Hlt|Hge].
  - assert (2 ^ d <= 2 ^ (k - 1)) by (apply Z.pow_le_mono_r; lia). lia.
  - destruct (Z_lt_le_dec k d) as [Hlt|Hge'].
    + assert (2 ^ k <= 2 ^ (d - 1)) by (apply Z.pow_le_mono_r; lia). lia.
    + lia.
Qed.

(** one more shift, on an even and on an odd mantissa *)
Lemma shifted_even M j q m r s rest :
  0 <= j -> M = m * 2 ^ j + rest -> 0 <= rest < 2 ^ j -> m = 2 * q ->
  loc_of_shr_record (Build_shr_record m r s) = loc_of_rest rest (2 ^ j) ->
  M = q * 2 ^ (j + 1) + rest /\ 0 <= rest < 2 ^ (j + 1) /\
  loc_of_shr_record (Build_shr_record q false (r || s)) = loc_of_rest rest (2 ^ (j + 1)).
Proof.
  intros Hj HM Hrest Hm Hloc.
  assert (Hp : 2 ^ (j + 1) = 2 * 2 ^ j) by (rewrite Z.pow_add_r by lia; lia).
  rewrite Hp. split; [lia|]. split; [lia|].
  unfold loc_of_rest in *. destruct (Z.eqb_spec rest 0).
  - destruct r, s; try discriminate. reflexivity.
  - assert ((2 * rest ?= 2 * 2 ^ j) = Lt) as -> by (apply Z.compare_lt_iff; lia).
    destruct r, s; cbn in *; try discriminate; reflexivity.
Qed.

Lemma shifted_odd M j q m r s rest :
  0 <= j -> M = m * 2 ^ j + rest -> 0 <= rest < 2 ^ j -> m = 2 * q + 1 ->
  loc_of_shr_record (Build_shr_record m r s) = loc_of_rest rest (2 ^ j) ->
  M = q * 2 ^ (j + 1) + (2 ^ j + rest) /\ 0 <= 2 ^ j + rest < 2 ^ (j + 1) /\
  loc_of_shr_record (Build_shr_record q true (r || s)) =
    loc_of_rest (2 ^ j + rest) (2 ^ (j + 1)).
Proof.
  intros Hj HM Hrest Hm Hloc.
  assert (Hp : 2 ^ (j + 1) = 2 * 2 ^ j) by (rewrite Z.pow_add_r by lia; lia).
  rewrite Hp. split; [lia|]. split; [lia|].
  unfold loc_of_rest in *.
  destruct (Z.eqb_spec (2 ^ j + rest) 0); [lia|].
  destruct (Z.eqb_spec rest 0).
  - assert ((2 * (2 ^ j + rest) ?= 2 * 2 ^ j) = Eq) as -> by (apply Z.compare_eq_iff; lia).
    destruct r, s; try discriminate. reflexivity.
  - assert ((2 * (2 ^ j + rest) ?= 2 * 2 ^ j) = Gt) as -> by (apply Z.compare_gt_iff; lia).
    destruct r, s; cbn in *; try discriminate; reflexivity.
Qed.

Lemma shifted_step M j mrs :
  0 <= j -> shifted M j mrs -> shifted M (j + 1) (shr_1 mrs).
Proof.
  intros Hj (Hm & rest & HM & Hrest & Hloc).
  assert (Hp : 2 ^ (j + 1) = 2 * 2 ^ j) by (rewrite Z.pow_add_r by lia; lia).
  assert (0 < 2 ^ j) by (apply Z.pow_pos_nonneg; lia).
  destruct mrs as [m r s]. cbn [shr_m] in *.
  unfold loc_of_rest in Hloc.
  destruct m as [|[p|p|]|p]; try lia; cbn [shr_1]; unfold shifted; cbn [shr_m];
    (split; [lia|]).
  - exists rest. eapply shifted_even; [exact Hj | exact HM | exact Hrest | lia | exact Hloc].
  - exists (2 ^ j + rest). eapply shifted_odd; [exact Hj | exact HM | exact Hrest | lia | exact Hloc].
  - exists rest. eapply shifted_even; [exact Hj | exact HM | exact Hrest | lia | exact Hloc].
  - exists (2 ^ j + rest). eapply shifted_odd; [exact Hj | exact HM | exact Hrest | lia | exact Hloc].
Qed.

(** [p] shifts, along the binary recursion of [iter_pos] *)
Lemma shifted_iter (p : positive) : forall M j mrs,
  0 <= j -> shifted M j mrs -> shifted M (j + Zpos p) (SpecFloat.iter_pos shr_1 p mrs).
Proof.
  induction p as [p IH | p IH |]; intros M j mrs Hj H; cbn [SpecFloat.iter_pos].
  - replace (j + Zpos p~1) with (j + 1 + Zpos p + Zpos p) by lia.
    apply IH; [lia|]. apply IH; [lia|]. now apply shifted_step.
  - replace (j + Zpos p~0) with (j + Zpos p + Zpos p) by lia.
    apply IH; [lia|]. now apply IH.
  - now apply shifted_step.
Qed.

Lemma shifted_0 M : 0 <= M -> shifted M 0 (Build_shr_record M false false).
Proof.
  intros HM. split; [exact HM|]. exists 0. cbn. repeat split; lia.
Qed.


Lemma shr_nonpos mrs e n : n <= 0 -> shr mrs e n = (mrs, e).
Proof. destruct n; [reflexivity | lia | reflexivity]. Qed.

(** shifting an exact mantissa right by [n] and rounding gives [rne M n] *)
Lemma shr_exact_round M e n :
  0 <= M -> 0 < n ->
  exists mrs, shr (Build_shr_record M false false) e n = (mrs, e + n) /\
              round_nearest_even (shr_m mrs) (loc_of_shr_record mrs) = rne M n.
Proof.
  intros HM Hn. destruct n as [|p|p]; try lia.
  exists (SpecFloat.iter_pos shr_1 p (Build_shr_record M false false)). split; [reflexivity|].
  destruct (shifted_iter p M 0 _ (Z.le_refl 0) (shifted_0 M HM)) as (Hq & rest & Heq & Hrest & Hloc).
  rewrite Z.add_0_l in *.
  set (mrs := SpecFloat.iter_pos shr_1 p _) in *.
  assert (Hd : shr_m mrs = M / 2 ^ Zpos p).
  { apply Z.div_unique with rest; lia. }
  assert (Hr : rest = M mod 2 ^ Zpos p).
  { apply Z.mod_unique with (shr_m mrs); lia. }
  unfold rne. rewrite Hloc, <- Hd, <- Hr. reflexivity.
Qed.

(** away from the subnormal range the exponent leaves 53 bits of mantissa *)
Lemma fexp_normal x : -1021 <= x -> fexp 53 1024 x = x - 53.
Proof. intros H. unfold fexp, emin. lia. Qed.

(** a mantissa of at most 53 bits is kept as it is *)
Lemma binary_round_aux_fits s (M : positive) E :
  Zpos (digits2_pos M) <= 53 -> -1021 <= Zpos (digits2_pos M) + E -> E <= 971 ->
  binary_round_aux 53 1024 s (Zpos M) E loc_Exact = S754_finite s M E.
Proof.
  intros Hd Hn He. unfold binary_round_aux, shr_fexp.
  cbn [Zdigits2 shr_record_of_loc]. rewrite fexp_normal by lia.
  rewrite shr_nonpos by lia. cbn [shr_m loc_of_shr_record round_nearest_even Zdigits2 shr_record_of_loc].
  rewrite fexp_normal by lia. rewrite shr_nonpos by lia. cbn [shr_m].
  replace (E <=? 1024 - 53) with true by (symmetry; apply Z.leb_le; lia). reflexivity.
Qed.

Lemma rne_bounds M n q :
  0 <= M -> 0 < n -> q = M / 2 ^ n -> rne M n = q \/ rne M n = q + 1.
Proof.
  intros HM Hn ->. unfold rne, round_nearest_even, loc_of_rest.
  destruct (_ =? 0); [now left|].
  destruct (_ ?= _); [destruct (Z.even _)| |]; auto.
Qed.

(** a longer mantissa is rounded to 53 bits; when rounding up carries into a
    54th bit the result is renormalised to 2^52 *)
Lemma binary_round_aux_shift s (M : positive) E :
  let d := Zpos (digits2_pos M) in
  let m1 := rne (Zpos M) (d - 53) in
  53 < d -> -1021 <= d + E -> E + (d - 53) + 1 <= 971 ->
  binary_round_aux 53 1024 s (Zpos M) E loc_Exact =
    if m1 <? 2 ^ 53 then S754_finite s (Z.to_pos m1) (E + (d - 53))
    else S754_finite s (Z.to_pos (2 ^ 52)) (E + (d - 53) + 1).
Proof.
  intros d m1 Hd Hn He. unfold binary_round_aux, shr_fexp.
  cbn [Zdigits2 shr_record_of_loc]. fold d. rewrite fexp_normal by lia.
  replace (d + E - 53 - E) with (d - 53) by lia.
  destruct (shr_exact_round (Zpos M) E (d - 53)) as (mrs & -> & Hround); [lia | lia |].
  rewrite Hround. fold m1.
  pose proof (digits2_pos_bounds M) as [Blo Bhi]. fold d in Blo, Bhi.
  assert (Hpow : 2 ^ (d - 1) = 2 ^ 52 * 2 ^ (d - 53)).
  { rewrite <- Z.pow_add_r by lia. f_equal. lia. }
  assert (Hpow' : 2 ^ d = 2 ^ 53 * 2 ^ (d - 53)).
  { rewrite <- Z.pow_add_r by lia. f_equal. lia. }
  assert (Hpos : 0 < 2 ^ (d - 53)) by (apply Z.pow_pos_nonneg; lia).
  assert (Hq : 2 ^ 52 <= Zpos M / 2 ^ (d - 53) < 2 ^ 53).
  { split.
    - apply Z.div_le_lower_bound; lia.
    - apply Z.div_lt_upper_bound; lia. }
  destruct (rne_bounds (Zpos M) (d - 53) _ ltac:(lia) ltac:(lia) eq_refl) as [Hm|Hm];
    fold m1 in Hm.
  - assert (Hlt : (m1 <? 2 ^ 53) = true) by (apply Z.ltb_lt; lia). rewrite Hlt.
    destruct m1 as [|pm|pm] eqn:E1; try lia.
    cbn [Zdigits2].
    assert (Zpos (digits2_pos pm) = 53) as -> by (apply digits2_pos_unique; lia).
    rewrite fexp_normal by lia. rewrite shr_nonpos by lia. cbn [shr_m shr_record_of_loc].
    replace (E + (d - 53) <=? 1024 - 53) with true by (symmetry; apply Z.leb_le; lia).
    reflexivity.
  - destruct (Z.ltb_spec m1 (2 ^ 53)) as [Hlt|Hge].
    + destruct m1 as [|pm|pm] eqn:E1; try lia.
      cbn [Zdigits2].
      assert (Zpos (digits2_pos pm) = 53) as -> by (apply digits2_pos_unique; lia).
      rewrite fexp_normal by lia. rewrite shr_nonpos by lia. cbn [shr_m shr_record_of_loc].
      replace (E + (d - 53) <=? 1024 - 53) with true by (symmetry; apply Z.leb_le; lia).
      reflexivity.
    + assert (Hm1 : m1 = 2 ^ 53) by lia. rewrite Hm1.
      change (Zdigits2 (2 ^ 53)) with 54.
      rewrite fexp_normal by lia.
      replace (54 + (E + (d - 53)) - 53 - (E + (d - 53))) with 1 by lia.
      cbn [shr shr_record_of_loc SpecFloat.iter_pos].
      change (shr_m (shr_1 {| shr_m := 2 ^ 53; shr_r := false; shr_s := false |})) with (2 ^ 52).
      change (2 ^ 52) with (Zpos (Z.to_pos (2 ^ 52))) at 1. cbv iota beta.
      replace (E + (d - 53) + 1 <=? 1024 - 53) with true by (symmetry; apply Z.leb_le; lia).
      reflexivity.
Qed.


(** left shifts and the alignment of two exponents *)
Lemma iter_xO (d m : positive) : Zpos (Pos.iter xO m d) = Zpos m * 2 ^ Zpos d.
Proof.
  induction d as [|d IH] using Pos.peano_ind.
  - cbn. lia.
  - rewrite Pos.iter_succ, Pos2Z.inj_succ, Z.pow_succ_r by lia.
    rewrite Pos2Z.inj_xO, IH. lia.
Qed.

Lemma shl_align_le mx ex ex' :
  ex' <= ex ->
  exists m, shl_align mx ex ex' = (m, ex') /\ Zpos m = Zpos mx * 2 ^ (ex - ex').
Proof.
  intros H. unfold shl_align. destruct (ex' - ex) as [|d|d] eqn:E; try lia.
  - exists mx. replace ex' with ex by lia. rewrite Z.sub_diag. split; [reflexivity|cbn; lia].
  - exists (Pos.iter xO mx d). split; [reflexivity|].
    rewrite iter_xO. f_equal. f_equal. lia.
Qed.

Lemma shl_align_gt mx ex ex' : ex < ex' -> shl_align mx ex ex' = (mx, ex).
Proof.
  intros H. unfold shl_align. destruct (ex' - ex) as [|d|d] eqn:E; try lia; reflexivity.
Qed.

Lemma rne_exact a n : 0 <= n -> rne (a * 2 ^ n) n = a.
Proof.
  intros Hn. assert (0 < 2 ^ n) by (apply Z.pow_pos_nonneg; lia).
  unfold rne. rewrite Z.div_mul, Z.mod_mul by lia. reflexivity.
Qed.

Lemma digits_scaled (p m : positive) k :
  0 <= k -> Zpos m = Zpos p * 2 ^ k -> Zpos (digits2_pos m) = Zpos (digits2_pos p) + k.
Proof.
  intros Hk Hm. apply digits2_pos_unique. rewrite Hm.
  pose proof (digits2_pos_bounds p) as [Blo Bhi].
  assert (0 < 2 ^ k) by (apply Z.pow_pos_nonneg; lia).
  replace (Zpos (digits2_pos p) + k - 1) with (Zpos (digits2_pos p) - 1 + k) by lia.
  rewrite !Z.pow_add_r by lia. nia.
Qed.

(** normalising [p * 2^k] at exponent [-k] gives the canonical form of the integer [p] *)
Lemma normalize_scaled (p : positive) (k : Z) :
  let d := Zpos (digits2_pos p) in
  d <= 53 -> 0 <= k <= 900 ->
  exists m, binary_normalize 53 1024 (Zpos p * 2 ^ k) (- k) false = S754_finite false m (d - 53)
            /\ Zpos m = Zpos p * 2 ^ (53 - d).
Proof.
  intros d Hd Hk.
  assert (Hpk : 0 < 2 ^ k) by (apply Z.pow_pos_nonneg; lia).
  destruct (Zpos p * 2 ^ k) as [|PM|PM] eqn:EM; try lia.
  symmetry in EM. pose proof (digits_scaled p PM k ltac:(lia) EM) as HD. fold d in HD.
  cbn [binary_normalize]. unfold binary_round. rewrite HD, fexp_normal by lia.
  destruct (Z_le_gt_dec (d + k + - k - 53) (- k)) as [Hle|Hgt].
  - destruct (shl_align_le PM (- k) (d + k + - k - 53) Hle) as (m & -> & Hm).
    assert (Hm' : Zpos m = Zpos p * 2 ^ (53 - d)).
    { rewrite Hm, EM, <- Z.mul_assoc, <- Z.pow_add_r by lia. f_equal. f_equal. lia. }
    exists m. split; [|exact Hm'].
    assert (Zpos (digits2_pos m) = 53).
    { rewrite (digits_scaled p m (53 - d)); [fold d; lia | lia | exact Hm']. }
    rewrite binary_round_aux_fits by lia. f_equal. lia.
  - rewrite shl_align_gt by lia.
    rewrite binary_round_aux_shift by lia. rewrite HD.
    replace (d + k - 53) with (k - (53 - d)) by lia.
    assert (HPM : Zpos PM = (Zpos p * 2 ^ (53 - d)) * 2 ^ (k - (53 - d))).
    { rewrite EM, <- Z.mul_assoc, <- Z.pow_add_r by lia. f_equal. f_equal. lia. }
    rewrite HPM, rne_exact by lia.
    pose proof (digits2_pos_bounds p) as [Blo Bhi]. fold d in Blo, Bhi.
    assert (Hlt : Zpos p * 2 ^ (53 - d) < 2 ^ 53).
    { replace 53 with (d + (53 - d)) at 2 by lia. rewrite Z.pow_add_r by lia.
      assert (0 < 2 ^ (53 - d)) by (apply Z.pow_pos_nonneg; lia). nia. }
    apply Z.ltb_lt in Hlt. rewrite Hlt.
    assert (Hpos : 0 < Zpos p * 2 ^ (53 - d)).
    { apply Z.mul_pos_pos; [lia | apply Z.pow_pos_nonneg; lia]. }
    destruct (Zpos p * 2 ^ (53 - d)) as [|m|m] eqn:Em; try lia.
    exists m. split; [|reflexivity]. cbn [Z.to_pos]. f_equal. lia.
Qed.

Lemma digits_le_53 (p : positive) : Zpos p < 2 ^ 53 -> Zpos (digits2_pos p) <= 53.
Proof.
  intros H. pose proof (digits2_pos_bounds p) as [Blo _].
  destruct (Z_le_gt_dec (Zpos (digits2_pos p)) 53); [assumption|].
  assert (2 ^ 53 <= 2 ^ (Zpos (digits2_pos p) - 1)) by (apply Z.pow_le_mono_r; lia). lia.
Qed.

(** the number of a positive integer below 2^53: the integer itself, with the
    mantissa shifted left to 53 bits *)
Lemma Number_of_Z_pos (p : positive) :
  let d := Zpos (digits2_pos p) in
  Zpos p < 2 ^ 53 ->
  exists m, Number_of_Z (Zpos p) = S754_finite false m (d - 53)
            /\ Zpos m = Zpos p * 2 ^ (53 - d).
Proof.
  intros d H. pose proof (normalize_scaled p 0 (digits_le_53 p H) ltac:(lia)) as Hn.
  cbn [Z.pow Z.opp] in Hn. rewrite Z.mul_1_r in Hn. exact Hn.
Qed.


Lemma finite_inj_pos s (m m' : positive) e e' :
  Zpos m = Zpos m' -> e = e' -> S754_finite s m e = S754_finite s m' e'.
Proof. intros H ->. injection H as ->. reflexivity. Qed.

Lemma normalize_sum (a b c : positive) :
  let da := Zpos (digits2_pos a) in
  let db := Zpos (digits2_pos b) in
  let ez := Z.min (da - 53) (db - 53) in
  Zpos a < 2 ^ 53 -> Zpos b < 2 ^ 53 -> Zpos c < 2 ^ 53 ->
  forall z, z = Zpos c * 2 ^ (- ez) ->
  binary_normalize 53 1024 z ez false = Number_of_Z (Zpos c).
Proof.
  intros da db ez Ha Hb Hc z ->.
  pose proof (digits_le_53 a Ha). pose proof (digits_le_53 b Hb).
  assert (0 < da) by (subst da; lia). assert (0 < db) by (subst db; lia).
  destruct (normalize_scaled c (- ez) (digits_le_53 c Hc)) as (m & Hn & Hm); [lia|].
  rewrite Z.opp_involutive in Hn. rewrite Hn.
  destruct (Number_of_Z_pos c Hc) as (m' & -> & Hm').
  apply finite_inj_pos; congruence.
Qed.

(** sums and differences that stay below 2^53 are exact *)
Lemma Number_add_exact (a b : Z) :
  0 <= a -> 0 <= b -> a + b < 2 ^ 53 ->
  Number_add (Number_of_Z a) (Number_of_Z b) = Number_of_Z (a + b).
Proof.
  intros Ha Hb Hab.
  destruct a as [|a|a]; try lia; destruct b as [|b|b]; try lia.
  - reflexivity.
  - rewrite Z.add_0_l. destruct (Number_of_Z_pos b ltac:(lia)) as (m & -> & _). reflexivity.
  - rewrite Z.add_0_r. destruct (Number_of_Z_pos a ltac:(lia)) as (m & -> & _). reflexivity.
  - destruct (Number_of_Z_pos a ltac:(lia)) as (ma & -> & Hma).
    destruct (Number_of_Z_pos b ltac:(lia)) as (mb & -> & Hmb).
    unfold Number_add, SFadd.
    set (da := Zpos (digits2_pos a)) in *. set (db := Zpos (digits2_pos b)) in *.
    set (ez := Z.min (da - 53) (db - 53)).
    destruct (shl_align_le ma (da - 53) ez ltac:(lia)) as (sa & -> & Hsa).
    destruct (shl_align_le mb (db - 53) ez ltac:(lia)) as (sb & -> & Hsb).
    cbn [fst cond_Zopp].
    change (Zpos a + Zpos b) with (Zpos (a + b)) in *.
    apply (normalize_sum a b (a + b)); try lia.
    fold da db ez. rewrite Hsa, Hsb, Hma, Hmb, Pos2Z.inj_add.
    pose proof (digits_le_53 a ltac:(lia)). pose proof (digits_le_53 b ltac:(lia)).
    assert (0 < da) by (subst da; lia). assert (0 < db) by (subst db; lia).
    rewrite <- !Z.mul_assoc, <- !Z.pow_add_r by lia.
    replace (53 - da + (da - 53 - ez)) with (- ez) by lia.
    replace (53 - db + (db - 53 - ez)) with (- ez) by lia. lia.
Qed.

Lemma Number_sub_exact (a b : Z) :
  0 <= b -> b <= a -> a < 2 ^ 53 ->
  Number_sub (Number_of_Z a) (Number_of_Z b) = Number_of_Z (a - b).
Proof.
  intros Hb Hba Ha.
  destruct a as [|a|a]; try lia; destruct b as [|b|b]; try lia.
  - reflexivity.
  - rewrite Z.sub_0_r. destruct (Number_of_Z_pos a ltac:(lia)) as (m & -> & _). reflexivity.
  - destruct (Number_of_Z_pos a ltac:(lia)) as (ma & Ea & Hma).
    destruct (Number_of_Z_pos b ltac:(lia)) as (mb & Eb & Hmb).
    rewrite Ea, Eb.
    unfold Number_sub, SFsub.
    set (da := Zpos (digits2_pos a)) in *. set (db := Zpos (digits2_pos b)) in *.
    set (ez := Z.min (da - 53) (db - 53)).
    destruct (shl_align_le ma (da - 53) ez ltac:(lia)) as (sa & -> & Hsa).
    destruct (shl_align_le mb (db - 53) ez ltac:(lia)) as (sb & -> & Hsb).
    cbn [fst cond_Zopp].
    pose proof (digits_le_53 a ltac:(lia)). pose proof (digits_le_53 b ltac:(lia)).
    assert (0 < da) by (subst da; lia). assert (0 < db) by (subst db; lia).
    assert (Hdiff : Zpos sa - Zpos sb = (Zpos a - Zpos b) * 2 ^ (- ez)).
    { rewrite Hsa, Hsb, Hma, Hmb.
      rewrite <- !Z.mul_assoc, <- !Z.pow_add_r by lia.
      replace (53 - da + (da - 53 - ez)) with (- ez) by lia.
      replace (53 - db + (db - 53 - ez)) with (- ez) by lia. lia. }
    destruct (Zpos a - Zpos b) as [|c|c] eqn:Ec; try lia.
    + rewrite Hdiff. reflexivity.
    + apply (normalize_sum a b c); try lia. exact Hdiff.
Qed.

Lemma rne_cases M n :
  rne M n = M / 2 ^ n \/ (rne M n = M / 2 ^ n + 1 /\ 2 ^ n <= 2 * (M mod 2 ^ n)).
Proof.
  unfold rne, round_nearest_even, loc_of_rest.
  destruct (_ =? 0); [now left|].
  destruct (Z.compare_spec (2 * (M mod 2 ^ n)) (2 ^ n)); [destruct (Z.even _)| |];
    auto; right; split; lia.
Qed.

(** The arithmetic of [floor (n * 0.02)]. [N = p * C] is the 53-bit mantissa
    of the integer [p], [P] its product with the mantissa of [0.02], which
    is [(2^58 + 6) / 50], [m1] the product rounded to 53 bits after a shift by
    [s], and [B] the power of two that [Math.floor] divides by. The rounding
    error, at most half a unit, and the excess [6 * N / 50] of the literal are
    together too small to reach the next multiple of [B]. *)
Lemma penalty_core (p C N P s B m1 : Z) :
  1 <= C -> N = p * C -> 2 ^ 52 <= N < 2 ^ 53 -> P = N * 5764607523034235 ->
  (s = 52 /\ B = 64 * C \/ s = 53 /\ B = 32 * C /\ 2 ^ 105 <= P) ->
  (m1 = P / 2 ^ s \/ (m1 = P / 2 ^ s + 1 /\ 2 ^ s <= 2 * (P mod 2 ^ s))) ->
  m1 / B = p / 50.
Proof.
  intros HC HN HNb HP Hs Hm.
  pose proof (Z.div_mod p 50 ltac:(lia)) as Hp.
  pose proof (Z.mod_pos_bound p 50 ltac:(lia)) as Hr.
  set (k := p / 50) in *. set (r := p mod 50) in *.
  assert (Hk : N = 50 * (k * C) + r * C) by (rewrite HN, Hp; ring).
  assert (HrC : 0 <= r * C <= 49 * C) by nia.
  assert (H0p : 0 <= p) by nia.
  assert (H0k : 0 <= k) by (subst k; apply Z.div_pos; lia).
  assert (HkC : 0 <= k * C) by nia.
  set (kC := k * C) in *. set (rC := r * C) in *.
  destruct Hs as [(-> & ->) | (-> & -> & HPlo)].
  - pose proof (Z.div_mod P (2 ^ 52) ltac:(lia)) as HPd.
    pose proof (Z.mod_pos_bound P (2 ^ 52) ltac:(lia)) as HPr.
    set (q0 := P / 2 ^ 52) in *. set (r0 := P mod 2 ^ 52) in *.
    symmetry. apply Z.div_unique with (m1 - 64 * kC).
    + left. lia.
    + unfold kC. ring.
  - pose proof (Z.div_mod P (2 ^ 53) ltac:(lia)) as HPd.
    pose proof (Z.mod_pos_bound P (2 ^ 53) ltac:(lia)) as HPr.
    set (q0 := P / 2 ^ 53) in *. set (r0 := P mod 2 ^ 53) in *.
    symmetry. apply Z.div_unique with (m1 - 32 * kC).
    + left. lia.
    + unfold kC. ring.
Qed.


(** [Math.floor(n * 0.02)] is [n / 50] for every integer [n] below 2^53 *)
Lemma floor_two_percent (n : Z) :
  0 <= n < 2 ^ 53 ->
  Math_floor (Number_mul (Number_of_Z n) lit_0_02) = Number_of_Z (n / 50).
Proof.
  intros [Hn0 Hn]. destruct n as [|p|p]; try lia; [reflexivity|].
  destruct (Number_of_Z_pos p Hn) as (m & -> & Hm).
  pose proof (digits_le_53 p Hn) as Hd.
  set (d := Zpos (digits2_pos p)) in *.
  assert (Hd0 : 0 < d) by (subst d; lia).
  assert (HC : 0 < 2 ^ (53 - d)) by (apply Z.pow_pos_nonneg; lia).
  assert (HN : 2 ^ 52 <= Zpos m < 2 ^ 53).
  { pose proof (digits2_pos_bounds p) as [Blo Bhi]. fold d in Blo, Bhi.
    assert (E52 : 2 ^ (d - 1) * 2 ^ (53 - d) = 2 ^ 52)
      by (rewrite <- Z.pow_add_r by lia; f_equal; lia).
    assert (E53 : 2 ^ d * 2 ^ (53 - d) = 2 ^ 53)
      by (rewrite <- Z.pow_add_r by lia; f_equal; lia).
    rewrite Hm, <- E52, <- E53. split.
    - apply Z.mul_le_mono_nonneg_r; lia.
    - apply Z.mul_lt_mono_pos_r; lia. }
  unfold Number_mul, SFmul, lit_0_02. cbn [xorb].
  set (PM := (m * 5764607523034235)%positive).
  assert (HP : Zpos PM = Zpos m * 5764607523034235) by (subst PM; lia).
  assert (HPb : 2 ^ 104 <= Zpos PM < 2 ^ 106) by lia.
  assert (HD : Zpos (digits2_pos PM) = 105 /\ Zpos PM < 2 ^ 105 \/
               Zpos (digits2_pos PM) = 106 /\ 2 ^ 105 <= Zpos PM).
  { destruct (Z_lt_le_dec (Zpos PM) (2 ^ 105)).
    - left. split; [apply digits2_pos_unique|]; lia.
    - right. split; [apply digits2_pos_unique|]; lia. }
  rewrite binary_round_aux_shift by lia.
  set (D := Zpos (digits2_pos PM)) in *.
  set (m1 := rne (Zpos PM) (D - 53)).
  set (B := 2 ^ (164 - d - D)).
  assert (Hcore : m1 / B = Zpos p / 50).
  { apply (penalty_core (Zpos p) (2 ^ (53 - d)) (Zpos m) (Zpos PM) (D - 53)); try lia.
    - destruct HD as [(-> & _) | (-> & ?)]; [left | right]; subst B.
      + split; [lia|]. replace (164 - d - 105) with (6 + (53 - d)) by lia.
        rewrite Z.pow_add_r by lia. lia.
      + split; [lia|]. split; [|lia]. replace (164 - d - 106) with (5 + (53 - d)) by lia.
        rewrite Z.pow_add_r by lia. lia.
    - apply rne_cases. }
  assert (HB : 0 < B) by (apply Z.pow_pos_nonneg; lia).
  assert (Hq : 2 ^ 52 <= m1).
  { pose proof (rne_cases (Zpos PM) (D - 53)) as Hc. fold m1 in Hc.
    assert (2 ^ 52 <= Zpos PM / 2 ^ (D - 53)).
    { apply Z.div_le_lower_bound; [apply Z.pow_pos_nonneg; lia|].
      rewrite <- Z.pow_add_r by lia.
      destruct HD as [(-> & _) | (-> & ?)]; cbn; lia. }
    lia. }
  destruct (Z.ltb_spec m1 (2 ^ 53)) as [Hlt|Hge].
  - destruct m1 as [|pm|pm] eqn:E1; try lia. cbn [Z.to_pos Math_floor].
    replace (0 <=? d - 53 + -58 + (D - 53)) with false by (symmetry; apply Z.leb_gt; lia).
    cbn [cond_Zopp].
    replace (- (d - 53 + -58 + (D - 53))) with (164 - d - D) by lia. fold B.
    rewrite Hcore. destruct (Z.eqb_spec (Zpos p / 50) 0) as [->|]; reflexivity.
  - cbn [Math_floor].
    replace (0 <=? d - 53 + -58 + (D - 53) + 1) with false by (symmetry; apply Z.leb_gt; lia).
    cbn [cond_Zopp].
    assert (Hsame : Zpos (Z.to_pos (2 ^ 52)) / 2 ^ (- (d - 53 + -58 + (D - 53) + 1)) = m1 / B).
    { pose proof (rne_cases (Zpos PM) (D - 53)) as Hc. fold m1 in Hc.
      assert (Zpos PM / 2 ^ (D - 53) < 2 ^ 53).
      { apply Z.div_lt_upper_bound; [apply Z.pow_pos_nonneg; lia|].
        rewrite <- Z.pow_add_r by lia.
        destruct HD as [(-> & ?) | (-> & ?)]; cbn; lia. }
      assert (Hm1 : m1 = 2 ^ 53) by lia. rewrite Hm1. subst B.
      replace (164 - d - D) with (1 + (- (d - 53 + -58 + (D - 53) + 1))) by lia.
      rewrite Z.pow_add_r by lia.
      rewrite <- Z.div_div by (try apply Z.pow_pos_nonneg; lia).
      reflexivity. }
    rewrite Hsame, Hcore. destruct (Z.eqb_spec (Zpos p / 50) 0) as [->|]; reflexivity.
Qed.

(** the numbers of the integers below 2^53 denote them exactly *)
Lemma Number_to_Z_of_Z (z : Z) :
  0 <= z < 2 ^ 53 -> Number_to_Z (Number_of_Z z) = Some z.
Proof.
  intros [Hz0 Hz]. destruct z as [|p|p]; try lia; [reflexivity|].
  destruct (Number_of_Z_pos p Hz) as (m & -> & Hm).
  pose proof (digits_le_53 p Hz) as Hd.
  set (d := Zpos (digits2_pos p)) in *.
  assert (Hd0 : 0 < d) by (subst d; lia).
  assert (HC : 0 < 2 ^ (53 - d)) by (apply Z.pow_pos_nonneg; lia).
  cbn [Number_to_Z cond_Zopp]. destruct (Z.leb_spec 0 (d - 53)) as [He|He].
  - assert (Ed : d = 53) by lia. rewrite Ed in Hm |- *.
    rewrite Hm. change (53 - 53) with 0. f_equal. change (2 ^ 0) with 1. lia.
  - replace (- (d - 53)) with (53 - d) by lia. rewrite Hm.
    rewrite Z.mod_mul, Z.div_mul by lia. reflexivity.
Qed.

(** [lit_0_02] is a valid binary64 value, the nearest one to 1/50: its
    mantissa is [(2^58 + 6) / 50], off by 6/50 of a unit in the last place *)
Lemma lit_0_02_nearest :
  valid_binary 53 1024 lit_0_02 = true /\ 50 * 5764607523034235 - 2 ^ 58 = 6.
Proof. split; reflexivity. Qed.

(** ** Sequencing and exceptions *)

Lemma bind_Ok_inv {A B : Type} (m : result A) (f : A -> result B) (b : B) :
  m ≫= f = Ok b -> exists a, m = Ok a /\ f a = Ok b.
Proof. destruct m as [a|msg]; cbn; [eauto | discriminate]. Qed.

Lemma rethrow_id {A : Type} (r : result A) : rethrow r = r.
Proof. now destruct r. Qed.

(** peel the successful steps off a computation known to return *)
Ltac ok_steps H :=
  repeat
    (let a := fresh "x" in
     let E := fresh "E" in
     apply bind_Ok_inv in H; destruct H as (a & E & H); cbv beta in H).

Lemma stamp_method `{Platform} (tx : Transaction) blockhash payer :
  method (stamp tx blockhash payer) = method tx.
Proof. reflexivity. Qed.

Lemma program_methods_method `{Platform} m a accts tx :
  program_methods m a accts = Ok tx -> method tx = m.
Proof.
  unfold program_methods. intros Hb. ok_steps Hb. injection Hb as <-. reflexivity.
Qed.

(** what a successful early-withdrawal build returns *)
Lemma buildWithdrawEarlyTx_Ok `{Platform} svc (userWallet goalIndex : jsval) r :
  buildWithdrawEarlyTx svc userWallet goalIndex = Ok r ->
  exists goal,
    getGoalAccount svc userWallet goalIndex = Ok (Some goal) /\
    method (wd_transaction r) = "withdrawEarly" /\
    let total := Number_add (Number_of_Z (currentAmount goal))
                            (Number_of_Z (accruedInterest goal)) in
    totalAmount r = None /\
    totalBeforePenalty r = Some total /\
    penalty r = Some (Math_floor (Number_mul total lit_0_02)) /\
    totalAfterPenalty r
      = Some (Number_sub total (Math_floor (Number_mul total lit_0_02))).
Proof.
  unfold buildWithdrawEarlyTx. rewrite rethrow_id. intros Hb.
  apply bind_Ok_inv in Hb. destruct Hb as (userPubkey & _ & Hb).
  apply bind_Ok_inv in Hb. destruct Hb as ([goal|] & Hgoal & Hb); [|discriminate].
  exists goal. split; [exact Hgoal|].
  ok_steps Hb. injection Hb as <-. cbn [wd_transaction totalAmount totalBeforePenalty
    penalty totalAfterPenalty]. rewrite stamp_method.
  repeat split. eapply program_methods_method; eassumption.
Qed.

(** what a successful completed-withdrawal build returns *)
Lemma buildWithdrawCompletedTx_Ok `{Platform} svc (userWallet goalIndex : jsval) r :
  buildWithdrawCompletedTx svc userWallet goalIndex = Ok r ->
  exists goal,
    getGoalAccount svc userWallet goalIndex = Ok (Some goal) /\
    method (wd_transaction r) = "withdrawCompleted" /\
    totalAmount r = Some (Number_add (Number_of_Z (currentAmount goal))
                                     (Number_of_Z (accruedInterest goal))) /\
    totalBeforePenalty r = None /\ penalty r = None /\ totalAfterPenalty r = None.
Proof.
  unfold buildWithdrawCompletedTx. rewrite rethrow_id. intros Hb.
  apply bind_Ok_inv in Hb. destruct Hb as (userPubkey & _ & Hb).
  apply bind_Ok_inv in Hb. destruct Hb as ([goal|] & Hgoal & Hb); [|discriminate].
  exists goal. split; [exact Hgoal|].
  ok_steps Hb. injection Hb as <-. cbn [wd_transaction totalAmount totalBeforePenalty
    penalty totalAfterPenalty]. rewrite stamp_method.
  repeat split. eapply program_methods_method; eassumption.
Qed.

(** ** Withdrawal: early or completed *)

(** C1 as stated fails: with [early: true] in the request body the handler
    builds the early withdrawal although the deadline, one second ago, has
    passed. *)
Lemma withdraw_early_flag_counterexample :
  deadline Devnet.due_goal = 1700000001000 / 1000 - 1 /\
  match post_withdraw (Devnet.ledger None (Some Devnet.due_goal) None) 1700000001000
          (Devnet.withdraw_request (JBool true)) with
  | Json reply =>
      method (wr_built reply) = "withdrawEarly" /\ withdrawalType reply = "early"
  | Fail _ _ => False
  end.
Proof. split; vm_compute; auto. Qed.

(** C1 (amended): for a withdrawal request on an existing goal with nonzero
    current amount, the handler answers with a built transaction or with
    status 500; the transaction built is WithdrawEarly exactly when the
    deadline is after the current time or the request's [early] flag is
    truthy, and WithdrawCompleted exactly when the deadline is at or before
    the current time and the flag is not truthy. *)
Theorem withdrawal_variant `{Platform} svc (now_ms : Z) (body : gmap string jsval) goal :
  truthy (field body "walletAddress") = true ->
  field body "goalIndex" <> JUndefined ->
  getGoalAccount svc (field body "walletAddress") (field body "goalIndex")
    = Ok (Some goal) ->
  currentAmount goal <> 0 ->
  let early := now_ms / 1000 < deadline goal \/ truthy (field body "early") = true in
  match post_withdraw svc now_ms body with
  | Json reply =>
      (method (wr_built reply) = "withdrawEarly" <-> early) /\
      (method (wr_built reply) = "withdrawCompleted" <-> ~ early) /\
      (withdrawalType reply = "early" <-> early)
  | Fail status _ => status = 500
  end.
Proof.
  intros Hw Hgi Hgoal Hfunds early.
  unfold post_withdraw, handle, strict_eq.
  rewrite Hw, (bool_decide_eq_false_2 _ Hgi), Hgoal. cbn [negb orb mbind result_bind].
  destruct (Z.eqb_spec (currentAmount goal) 0) as [|_]; [contradiction|].
  destruct ((now_ms / 1000 <? deadline goal) || truthy (field body "early")) eqn:Hc.
  - assert (He : early).
    { apply orb_true_iff in Hc as [Hc|Hc]; [left; now apply Z.ltb_lt | now right]. }
    destruct (buildWithdrawEarlyTx _ _ _) as [r|msg] eqn:Hb; [|reflexivity].
    destruct (buildWithdrawEarlyTx_Ok _ _ _ _ Hb) as (_ & _ & Hm & _).
    cbn [mbind result_bind]. destruct (serialize_base64 _) as [tx|msg]; [|reflexivity].
    cbn [mbind result_bind wr_built withdrawalType]. rewrite Hm.
    repeat split; try tauto; intros; try discriminate; tauto.
  - assert (He : ~ early).
    { apply orb_false_iff in Hc as [Hc1 Hc2]. apply Z.ltb_ge in Hc1.
      intros [Hlt|Ht]; [lia | congruence]. }
    destruct (buildWithdrawCompletedTx _ _ _) as [r|msg] eqn:Hb; [|reflexivity].
    destruct (buildWithdrawCompletedTx_Ok _ _ _ _ Hb) as (_ & _ & Hm & _).
    cbn [mbind result_bind]. destruct (serialize_base64 _) as [tx|msg]; [|reflexivity].
    cbn [mbind result_bind wr_built withdrawalType]. rewrite Hm.
    repeat split; try tauto; intros; try discriminate; tauto.
Qed.

(** the amended C1 at a request without the flag, one second past the
    deadline *)
Lemma withdrawal_variant_witness :
  (truthy (field (Devnet.withdraw_request JUndefined) "walletAddress") = true /\
   field (Devnet.withdraw_request JUndefined) "goalIndex" <> JUndefined /\
   getGoalAccount Devnet.due_ledger
     (field (Devnet.withdraw_request JUndefined) "walletAddress")
     (field (Devnet.withdraw_request JUndefined) "goalIndex")
     = Ok (Some (decodeGoalAccount Devnet.due_goal)) /\
   currentAmount (decodeGoalAccount Devnet.due_goal) <> 0) /\
  match post_withdraw Devnet.due_ledger 1700000001000 (Devnet.withdraw_request JUndefined) with
  | Json reply => method (wr_built reply) = "withdrawCompleted"
  | Fail status _ => status = 500
  end.
Proof.
  assert (H1 : truthy (field (Devnet.withdraw_request JUndefined) "walletAddress") = true)
    by (vm_compute; reflexivity).
  assert (H2 : field (Devnet.withdraw_request JUndefined) "goalIndex" <> JUndefined)
    by (vm_compute; discriminate).
  assert (H3 : getGoalAccount Devnet.due_ledger
                 (field (Devnet.withdraw_request JUndefined) "walletAddress")
                 (field (Devnet.withdraw_request JUndefined) "goalIndex")
               = Ok (Some (decodeGoalAccount Devnet.due_goal)))
    by (vm_compute; reflexivity).
  assert (H4 : currentAmount (decodeGoalAccount Devnet.due_goal) <> 0)
    by (vm_compute; discriminate).
  split; [auto|].
  pose proof (withdrawal_variant Devnet.due_ledger 1700000001000
                (Devnet.withdraw_request JUndefined) _ H1 H2 H3 H4) as Hv.
  cbv zeta in Hv.
  destruct (post_withdraw _ _ _) as [status err|reply]; [exact Hv|].
  apply Hv. intros [Hlt|Ht]; [vm_compute in Hlt | vm_compute in Ht]; discriminate.
Defined.

(** ** The early-withdrawal penalty *)

(** C2 as stated fails beyond the exactly representable integers: with
    2^53 + 1 units in the goal the builder reports 8827055269646173 as the
    amount after penalty, one less than the total minus the penalty. *)
Lemma early_penalty_counterexample :
  currentAmount Devnet.large_goal + accruedInterest Devnet.large_goal = 9007199254740993 /\
  9007199254740993 * 2 / 100 = 180143985094819 /\
  9007199254740993 - 180143985094819 = 8827055269646174 /\
  match buildWithdrawEarlyTx Devnet.large_ledger (JStr Devnet.alice) (JNum 0) with
  | Ok r =>
      option_map Number_to_Z (totalBeforePenalty r) = Some (Some 9007199254740992) /\
      option_map Number_to_Z (penalty r) = Some (Some 180143985094819) /\
      option_map Number_to_Z (totalAfterPenalty r) = Some (Some 8827055269646173)
  | Throw _ => False
  end.
Proof. split; [|split; [|split]]; vm_compute; auto. Qed.

(** C2 (amended): when the goal's current amount and accrued interest are
    non-negative and their sum [totalValue] is below 2^53, an early
    withdrawal reports [totalValue] as the total, [floor(totalValue * 0.02)]
    as the penalty and [totalValue - penalty] as the amount delivered; so
    10000 gives penalty 200 and 9800 delivered, and 1 gives penalty 0 and 1
    delivered. *)
Theorem early_withdrawal_penalty `{Platform} svc (userWallet goalIndex : jsval) goal r :
  getGoalAccount svc userWallet goalIndex = Ok (Some goal) ->
  buildWithdrawEarlyTx svc userWallet goalIndex = Ok r ->
  0 <= currentAmount goal -> 0 <= accruedInterest goal ->
  currentAmount goal + accruedInterest goal < 2 ^ 53 ->
  let totalValue := currentAmount goal + accruedInterest goal in
  (totalBeforePenalty r = Some (Number_of_Z totalValue) /\
   penalty r = Some (Number_of_Z (totalValue * 2 / 100)) /\
   totalAfterPenalty r = Some (Number_of_Z (totalValue - totalValue * 2 / 100))) /\
  (totalValue = 10000 ->
   penalty r = Some (Number_of_Z 200) /\ totalAfterPenalty r = Some (Number_of_Z 9800)) /\
  (totalValue = 1 ->
   penalty r = Some (Number_of_Z 0) /\ totalAfterPenalty r = Some (Number_of_Z 1)).
Proof.
  intros Hgoal Hb Hca Hai Hsum totalValue.
  destruct (buildWithdrawEarlyTx_Ok _ _ _ _ Hb) as (goal' & Hgoal' & _ & Hr).
  rewrite Hgoal in Hgoal'. injection Hgoal' as <-.
  cbv zeta in Hr. destruct Hr as (_ & Ht & Hp & Ha).
  rewrite Number_add_exact in Ht, Hp, Ha by assumption. fold totalValue in Ht, Hp, Ha.
  assert (Hdiv : totalValue * 2 / 100 = totalValue / 50).
  { change 100 with (50 * 2). apply Z.div_mul_cancel_r; lia. }
  assert (Hq : 0 <= totalValue / 50 <= totalValue).
  { split; [apply Z.div_pos; lia|]. apply Z.div_le_upper_bound; lia. }
  rewrite floor_two_percent in Hp, Ha by (unfold totalValue; lia).
  rewrite Number_sub_exact in Ha by (unfold totalValue in *; lia).
  rewrite Hdiv.
  assert (Hall : totalBeforePenalty r = Some (Number_of_Z totalValue) /\
                 penalty r = Some (Number_of_Z (totalValue / 50)) /\
                 totalAfterPenalty r = Some (Number_of_Z (totalValue - totalValue / 50)))
    by auto.
  split; [exact Hall|].
  destruct Hall as (_ & Hp' & Ha'). split; intros Hv; rewrite Hv in Hp', Ha'; auto.
Qed.

(** the amended C2 on a goal holding 10000 units *)
Lemma early_withdrawal_penalty_witness :
  (getGoalAccount Devnet.due_ledger (JStr Devnet.alice) (JNum 0)
     = Ok (Some (decodeGoalAccount Devnet.due_goal)) /\
   0 <= currentAmount (decodeGoalAccount Devnet.due_goal) /\
   0 <= accruedInterest (decodeGoalAccount Devnet.due_goal) /\
   currentAmount (decodeGoalAccount Devnet.due_goal)
     + accruedInterest (decodeGoalAccount Devnet.due_goal) < 2 ^ 53) /\
  match buildWithdrawEarlyTx Devnet.due_ledger (JStr Devnet.alice) (JNum 0) with
  | Ok r => penalty r = Some (Number_of_Z 200) /\ totalAfterPenalty r = Some (Number_of_Z 9800)
  | Throw _ => False
  end.
Proof.
  assert (H1 : getGoalAccount Devnet.due_ledger (JStr Devnet.alice) (JNum 0)
               = Ok (Some (decodeGoalAccount Devnet.due_goal))) by (vm_compute; reflexivity).
  assert (H2 : 0 <= currentAmount (decodeGoalAccount Devnet.due_goal))
    by (vm_compute; discriminate).
  assert (H3 : 0 <= accruedInterest (decodeGoalAccount Devnet.due_goal))
    by (vm_compute; discriminate).
  assert (H4 : currentAmount (decodeGoalAccount Devnet.due_goal)
               + accruedInterest (decodeGoalAccount Devnet.due_goal) < 2 ^ 53)
    by (vm_compute; reflexivity).
  split; [auto|].
  destruct (buildWithdrawEarlyTx _ _ _) as [r|msg] eqn:Hb.
  - pose proof (early_withdrawal_penalty _ _ _ _ r H1 Hb H2 H3 H4) as (_ & H10000 & _).
    apply H10000. vm_compute. reflexivity.
  - exfalso. revert Hb. vm_compute. discriminate.
Defined.

(** ** Derived addresses *)



(** ** Reading accounts that do not exist *)

Lemma missing_message (address : string) :
  includes ("Account does not exist or has no data " +:+ address) "Account does not exist"
  = true.
Proof. reflexivity. Qed.

(** C8 as stated fails for the global state and the currency configuration:
    on a ledger without accounts both readers raise the fetch error. *)
Lemma absent_global_state_counterexample :
  match getGlobalState Devnet.empty_ledger with
  | Throw msg => includes msg "Account does not exist" = true
  | Ok _ => False
  end /\
  match getCurrencyConfig Devnet.empty_ledger (JNum 0) with
  | Throw msg => includes msg "Account does not exist" = true
  | Ok _ => False
  end.
Proof. split; vm_compute; reflexivity. Qed.

(** C8 (amended): fetching a UserAccount, GoalAccount, FaucetConfig or
    FaucetAccount that does not exist returns the absent result; fetching a
    GlobalState or CurrencyConfig that does not exist raises the fetch error
    "Account does not exist or has no data <address>". *)
Theorem absent_account_outcomes `{Platform} svc (userWallet goalIndex currencyId : jsval) :
  (no_account_at (rpc_userAccount svc) (getUserAccountPDA svc (WVal userWallet)) ->
   getUserAccount svc userWallet = Ok None) /\
  (no_account_at (rpc_goalAccount svc) (getGoalAccountPDA svc (WVal userWallet) goalIndex) ->
   getGoalAccount svc userWallet goalIndex = Ok None) /\
  (no_account_at (rpc_faucetConfig svc) (getFaucetConfigPDA svc) ->
   getFaucetConfig svc = Ok None) /\
  (no_account_at (rpc_userFaucetAccount svc) (getUserFaucetAccountPDA svc (WVal userWallet)) ->
   getUserFaucetAccount svc userWallet = Ok None) /\
  (forall pda, getGlobalStatePDA svc = Ok pda -> rpc_globalState svc pda = Ok None ->
   getGlobalState svc
   = Throw ("Account does not exist or has no data " +:+ pk_toString pda)) /\
  (forall pda, getCurrencyConfigPDA svc currencyId = Ok pda ->
   rpc_currencyConfig svc pda = Ok None ->
   getCurrencyConfig svc currencyId
   = Throw ("Account does not exist or has no data " +:+ pk_toString pda)).
Proof.
  repeat split.
  - intros (pda & Hpda & Hrpc). unfold getUserAccount, fetch. rewrite Hpda.
    cbn [mbind result_bind]. rewrite Hrpc. cbn [mbind result_bind null_if_missing].
    now rewrite missing_message.
  - intros (pda & Hpda & Hrpc). unfold getGoalAccount, fetch. rewrite Hpda.
    cbn [mbind result_bind]. rewrite Hrpc. cbn [mbind result_bind null_if_missing].
    now rewrite missing_message.
  - intros (pda & Hpda & Hrpc). unfold getFaucetConfig, fetch. rewrite Hpda.
    cbn [mbind result_bind]. rewrite Hrpc. cbn [mbind result_bind null_if_missing].
    now rewrite missing_message.
  - intros (pda & Hpda & Hrpc). unfold getUserFaucetAccount, fetch. rewrite Hpda.
    cbn [mbind result_bind]. rewrite Hrpc. cbn [mbind result_bind null_if_missing].
    now rewrite missing_message.
  - intros pda Hpda Hrpc. unfold getGlobalState, fetch. rewrite Hpda.
    cbn [mbind result_bind]. rewrite Hrpc. reflexivity.
  - intros pda Hpda Hrpc. unfold getCurrencyConfig, fetch. rewrite Hpda.
    cbn [mbind result_bind]. rewrite Hrpc. reflexivity.
Qed.

(** the amended C8 on the ledger without accounts *)
Lemma absent_account_outcomes_witness :
  no_account_at (rpc_userAccount Devnet.empty_ledger)
    (getUserAccountPDA Devnet.empty_ledger (WVal (JStr Devnet.alice))) /\
  getUserAccount Devnet.empty_ledger (JStr Devnet.alice) = Ok None.
Proof.
  assert (Hno : no_account_at (rpc_userAccount Devnet.empty_ledger)
                  (getUserAccountPDA Devnet.empty_ledger (WVal (JStr Devnet.alice)))).
  { eexists. split; [vm_compute; reflexivity | reflexivity]. }
  split; [exact Hno|].
  exact (proj1 (absent_account_outcomes Devnet.empty_ledger (JStr Devnet.alice)
                  (JNum 0) (JNum 0)) Hno).
Defined.

(** ** Authentication *)

Lemma str_truthy_Some (s : string) : s <> "" -> str_truthy (Some s) = true.
Proof. intros Hs. cbn. now apply negb_true_iff, String.eqb_neq. Qed.

Lemma parseInt_nonempty (ts : string) (t : Z) : parseInt ts = Some t -> ts <> "".
Proof. intros Hp ->. discriminate Hp. Qed.

(** full mode, past the header, time-stamp, address and signature checks:
    what remains is the comparison with the wallet named by the request *)
Lemma full_mode_signed `{Platform} env (now_ms : Z) req w pk ts t :
  env !! "SIMPLE_AUTH" <> Some "true" ->
  signed_by req w pk ->
  headers req !! "x-timestamp" = Some ts -> parseInt ts = Some t ->
  Z.abs (now_ms - t) <= 300000 ->
  verifyWalletSignature env now_ms req
  = if str_truthy (params req !! "address")
       && negb (bool_decide (params req !! "address" = Some w))
    then Rejected 403 "Forbidden"
    else if truthy (field (body req) "walletAddress")
            && negb (strict_eq (field (body req) "walletAddress") (JStr w))
    then Rejected 403 "Forbidden"
    else Authenticated w pk.
Proof.
  intros Hmode (Hw & Hw0 & Hpk & sig & msg & sigBytes & Hs & Hs0 & Hm & Hm0 & Hdec & Hver)
    Hts Hparse Hwin.
  unfold verifyWalletSignature.
  rewrite (bool_decide_eq_false_2 _ Hmode), Hw, Hs, Hm, Hts.
  rewrite !str_truthy_Some by eauto using parseInt_nonempty.
  cbn [negb orb default from_option id]. rewrite Hparse.
  replace (5 * 60 * 1000 <? Z.abs (now_ms - t)) with false by (symmetry; apply Z.ltb_ge; lia).
  rewrite Hpk, Hdec, Hver. cbn [mbind result_bind negb].
  destruct (_ && _); [reflexivity|]. destruct (_ && _); reflexivity.
Qed.

(** the comparison of the middleware, on a request whose [params] carry the
    address of the route, as a middleware attached to the route itself would
    read them: a request that passes the header, time-stamp, address and
    signature checks and names another wallet in the route or in the body is
    rejected with 403 *)
Lemma cross_account_forbidden `{Platform} env (now_ms : Z) req w pk ts t :
  env !! "SIMPLE_AUTH" <> Some "true" ->
  signed_by req w pk ->
  headers req !! "x-timestamp" = Some ts -> parseInt ts = Some t ->
  Z.abs (now_ms - t) <= 300000 ->
  names_other_wallet req w ->
  verifyWalletSignature env now_ms req = Rejected 403 "Forbidden".
Proof.
  intros Hmode Hsigned Hts Hparse Hwin Hother.
  rewrite (full_mode_signed env now_ms req w pk ts t) by assumption.
  destruct Hother as [(a & Ha & Ha0 & Hne) | (Ht & Hne)].
  - rewrite Ha, str_truthy_Some by assumption.
    rewrite bool_decide_eq_false_2 by congruence. reflexivity.
  - destruct (_ && _); [reflexivity|].
    rewrite Ht. unfold strict_eq. rewrite bool_decide_eq_false_2 by assumption. reflexivity.
Qed.

(** behind the mounted middleware, in full mode, a signed request is
    answered by the handler unless its body names another wallet: the
    address in the path is not among the things compared *)
Lemma mounted_full_mode `{Platform} {A : Type} env (now_ms : Z)
    (req_headers : gmap string string) (req_body : gmap string jsval) w pk
    (handler : response A) :
  env !! "SIMPLE_AUTH" <> Some "true" ->
  signed_by (at_mount_point req_headers req_body) w pk ->
  fresh now_ms (at_mount_point req_headers req_body) ->
  mounted env now_ms req_headers req_body handler
  = if truthy (field req_body "walletAddress")
       && negb (strict_eq (field req_body "walletAddress") (JStr w))
    then Fail 403 "Forbidden"
    else handler.
Proof.
  intros Hmode Hsigned (ts & t & Hts & Hparse & Hwin). unfold mounted.
  rewrite (full_mode_signed env now_ms _ w pk ts t) by assumption.
  cbn [at_mount_point params body]. rewrite lookup_empty. cbn [str_truthy andb].
  destruct (_ && _); reflexivity.
Qed.

(** C3 fails of the code for the wallet named in the path. In full
    authentication mode, a correctly signed request for
    [GET /api/users/:address] whose body names another wallet than the
    authenticated one is rejected with 403; but when the body names no
    wallet, or the authenticated one, the request is answered by the handler
    whatever the address in the path, the authenticated wallet's or
    another's: with the account of that address if it has one, with 404 if
    it has none. The middleware is mounted where
    [req.params] is empty, so that its comparison of [req.params.address]
    with the authenticated wallet never rejects. *)
Theorem cross_account_path_served `{Platform} svc env (now_ms : Z)
    (req_headers : gmap string string) (req_body : gmap string jsval) w pk
    (address : string) :
  env !! "SIMPLE_AUTH" <> Some "true" ->
  signed_by (at_mount_point req_headers req_body) w pk ->
  fresh now_ms (at_mount_point req_headers req_body) ->
  (truthy (field req_body "walletAddress") = true /\
   field req_body "walletAddress" <> JStr w ->
   api_get_user svc env now_ms req_headers req_body address = Fail 403 "Forbidden") /\
  (truthy (field req_body "walletAddress") = false \/
   field req_body "walletAddress" = JStr w ->
   match getUserAccount svc (JStr address) with
   | Ok (Some userAccount) =>
       api_get_user svc env now_ms req_headers req_body address = Json userAccount
   | Ok None =>
       api_get_user svc env now_ms req_headers req_body address = Fail 404 "User not found"
   | Throw _ =>
       api_get_user svc env now_ms req_headers req_body address
       = Fail 500 "Internal server error"
   end).
Proof.
  intros Hmode Hsigned Hfresh. unfold api_get_user.
  rewrite (mounted_full_mode env now_ms req_headers req_body w pk) by assumption.
  split.
  - intros [Ht Hne]. rewrite Ht. unfold strict_eq.
    rewrite bool_decide_eq_false_2 by assumption. reflexivity.
  - intros Hbody.
    assert (Hpass : truthy (field req_body "walletAddress")
                    && negb (strict_eq (field req_body "walletAddress") (JStr w)) = false).
    { destruct Hbody as [-> | ->]; [reflexivity|].
      unfold strict_eq. rewrite bool_decide_eq_true_2 by reflexivity. apply andb_false_r. }
    rewrite Hpass. unfold get_user, handle.
    destruct (getUserAccount svc (JStr address)) as [[userAccount|]|msg]; reflexivity.
Qed.

(** C3 on alice's signed request for [GET /api/users/<bob>], without a body:
    she is served bob's account *)
Lemma cross_account_path_served_witness :
  (Devnet.full_env !! "SIMPLE_AUTH" <> Some "true" /\
   signed_by (at_mount_point (Devnet.signed_headers "1700000000000") ∅) Devnet.alice
     (Devnet.key Devnet.alice) /\
   fresh 1700000000000 (at_mount_point (Devnet.signed_headers "1700000000000") ∅) /\
   truthy (field (∅ : gmap string jsval) "walletAddress") = false /\
   Devnet.bob <> Devnet.alice) /\
  api_get_user Devnet.bob_ledger Devnet.full_env 1700000000000
    (Devnet.signed_headers "1700000000000") ∅ Devnet.bob
  = Json (decodeUserAccount Devnet.bob_account).
Proof.
  assert (H1 : Devnet.full_env !! "SIMPLE_AUTH" <> Some "true")
    by (vm_compute; discriminate).
  assert (H2 : signed_by (at_mount_point (Devnet.signed_headers "1700000000000") ∅)
                 Devnet.alice (Devnet.key Devnet.alice)).
  { split; [vm_compute; reflexivity|]. split; [discriminate|].
    split; [vm_compute; reflexivity|].
    exists Devnet.alice_signature, Devnet.login_message,
      (app (Devnet.key Devnet.alice)
           (Devnet.digest (Buffer_from_string Devnet.login_message))).
    split; [vm_compute; reflexivity|]. split; [discriminate|].
    split; [vm_compute; reflexivity|]. split; [discriminate|].
    split; vm_compute; reflexivity. }
  assert (H3 : fresh 1700000000000
                 (at_mount_point (Devnet.signed_headers "1700000000000") ∅)).
  { exists "1700000000000", 1700000000000.
    split; [vm_compute; reflexivity|]. split; [vm_compute; reflexivity|].
    vm_compute; discriminate. }
  assert (H4 : truthy (field (∅ : gmap string jsval) "walletAddress") = false)
    by (vm_compute; reflexivity).
  assert (H5 : Devnet.bob <> Devnet.alice) by discriminate.
  split; [auto 10|].
  pose proof (proj2 (cross_account_path_served Devnet.bob_ledger Devnet.full_env
                       1700000000000 _ ∅ _ _ Devnet.bob H1 H2 H3) (or_introl H4))
    as Hserved.
  assert (Hbob : getUserAccount Devnet.bob_ledger (JStr Devnet.bob)
                 = Ok (Some (decodeUserAccount Devnet.bob_account)))
    by (vm_compute; reflexivity).
  rewrite Hbob in Hserved. exact Hserved.
Defined.

(** the same request with a body that names bob, and alice's request for a
    wallet without an account: the first is rejected by the comparison with
    the body, the second is answered with 404 *)
Lemma cross_account_examples :
  api_get_user Devnet.bob_ledger Devnet.full_env 1700000000000
    (Devnet.signed_headers "1700000000000") {[ "walletAddress" := JStr Devnet.bob ]}
    Devnet.bob
  = Fail 403 "Forbidden" /\
  api_get_user Devnet.empty_ledger Devnet.full_env 1700000000000
    (Devnet.signed_headers "1700000000000") ∅ Devnet.bob
  = Fail 404 "User not found".
Proof. split; vm_compute; reflexivity. Qed.

(** C4: in full authentication mode a request whose time stamp is more than
    five minutes from the current time, in either direction, is rejected with
    401; one stamped 5 minutes 1 second ago is rejected; one stamped 4 minutes
    59 seconds ago is not rejected as expired, and is authenticated when its
    signature is valid and it names no other wallet. *)
Theorem replay_window `{Platform} env (now_ms : Z) req ts t :
  env !! "SIMPLE_AUTH" <> Some "true" ->
  headers req !! "x-timestamp" = Some ts -> parseInt ts = Some t ->
  (5 * 60 * 1000 < Z.abs (now_ms - t) ->
   exists e, verifyWalletSignature env now_ms req = Rejected 401 e) /\
  (t = now_ms - (5 * 60 + 1) * 1000 ->
   exists e, verifyWalletSignature env now_ms req = Rejected 401 e) /\
  (t = now_ms - (4 * 60 + 59) * 1000 ->
   verifyWalletSignature env now_ms req <> Rejected 401 "Timestamp expired" /\
   forall w pk, signed_by req w pk -> ~ names_other_wallet req w ->
                verifyWalletSignature env now_ms req = Authenticated w pk).
Proof.
  intros Hmode Hts Hparse.
  assert (Hout : 5 * 60 * 1000 < Z.abs (now_ms - t) ->
                 exists e, verifyWalletSignature env now_ms req = Rejected 401 e).
  { intros Hfar. unfold verifyWalletSignature.
    rewrite (bool_decide_eq_false_2 _ Hmode), Hts.
    destruct (_ || _); [eauto|]. cbn [default from_option id]. rewrite Hparse.
    replace (5 * 60 * 1000 <? Z.abs (now_ms - t)) with true
      by (symmetry; apply Z.ltb_lt; lia).
    eauto. }
  split; [exact Hout|]. split; [intros ->; apply Hout; lia|].
  intros ->. split.
  - unfold verifyWalletSignature.
    rewrite (bool_decide_eq_false_2 _ Hmode), Hts.
    destruct (_ || _); [discriminate|]. cbn [default from_option id]. rewrite Hparse.
    replace (5 * 60 * 1000 <? _) with false by (symmetry; apply Z.ltb_ge; lia).
    destruct (PublicKey_new _); [|discriminate].
    destruct (bs58_decode _); [|discriminate].
    destruct (nacl_sign_detached_verify _ _ _) as [[|]|]; cbn [mbind result_bind negb];
      try discriminate.
    destruct (_ && _); [discriminate|]. destruct (_ && _); discriminate.
  - intros w pk Hsigned Hnone.
    rewrite (full_mode_signed env now_ms req w pk ts (now_ms - (4 * 60 + 59) * 1000))
      by (assumption || lia).
    destruct (str_truthy (params req !! "address")
              && negb (bool_decide (params req !! "address" = Some w))) eqn:Hp.
    + exfalso. apply Hnone. left.
      apply andb_true_iff in Hp as [Hp1 Hp2].
      destruct (params req !! "address") as [a|]; [|discriminate].
      exists a. split; [reflexivity|]. cbn in Hp1.
      apply negb_true_iff, String.eqb_neq in Hp1.
      apply negb_true_iff, bool_decide_eq_false in Hp2.
      split; [assumption | congruence].
    + destruct (truthy (field (body req) "walletAddress")
                && negb (strict_eq (field (body req) "walletAddress") (JStr w))) eqn:Hb;
        [|reflexivity].
      exfalso. apply Hnone. right.
      apply andb_true_iff in Hb as [Hb1 Hb2].
      apply negb_true_iff, bool_decide_eq_false in Hb2. auto.
Qed.

(** C4 on alice's signed requests for her own wallet, stamped 301 and 299
    seconds before the current time *)
Lemma replay_window_witness :
  (Devnet.full_env !! "SIMPLE_AUTH" <> Some "true" /\
   headers (Devnet.signed_request "1699999699000" Devnet.alice) !! "x-timestamp"
     = Some "1699999699000" /\
   parseInt "1699999699000" = Some 1699999699000 /\
   1699999699000 = 1700000000000 - (5 * 60 + 1) * 1000) /\
  exists e, verifyWalletSignature Devnet.full_env 1700000000000
              (Devnet.signed_request "1699999699000" Devnet.alice)
            = Rejected 401 e.
Proof.
  assert (H1 : Devnet.full_env !! "SIMPLE_AUTH" <> Some "true")
    by (vm_compute; discriminate).
  assert (H2 : headers (Devnet.signed_request "1699999699000" Devnet.alice) !! "x-timestamp"
               = Some "1699999699000") by (vm_compute; reflexivity).
  assert (H3 : parseInt "1699999699000" = Some 1699999699000) by (vm_compute; reflexivity).
  assert (H4 : 1699999699000 = 1700000000000 - (5 * 60 + 1) * 1000) by reflexivity.
  split; [auto|].
  exact (proj1 (proj2 (replay_window Devnet.full_env 1700000000000 _ _ _ H1 H2 H3)) H4).
Defined.

(** the request stamped 299 seconds ago is authenticated *)
Lemma replay_window_accepts :
  verifyWalletSignature Devnet.full_env 1700000000000
    (Devnet.signed_request "1699999701000" Devnet.alice)
  = Authenticated Devnet.alice (Devnet.key Devnet.alice).
Proof. vm_compute. reflexivity. Qed.

(** C9: in simplified mode a request with a well-formed wallet address header
    and a numerically parseable time-stamp header is authenticated as that
    wallet whatever wallet its route or body names; it is never answered
    with 403. *)
Theorem simplified_mode_skips_ownership `{Platform} env (now_ms : Z) req w pk ts t :
  env !! "SIMPLE_AUTH" = Some "true" ->
  headers req !! "x-wallet-address" = Some w -> w <> "" ->
  PublicKey_new (JStr w) = Ok pk ->
  headers req !! "x-timestamp" = Some ts -> parseInt ts = Some t ->
  verifyWalletSignature env now_ms req = Authenticated w pk /\
  forall e, verifyWalletSignature env now_ms req <> Rejected 403 e.
Proof.
  intros Hmode Hw Hw0 Hpk Hts Hparse.
  assert (Hv : verifyWalletSignature env now_ms req = Authenticated w pk).
  { unfold verifyWalletSignature.
    rewrite (bool_decide_eq_true_2 _ Hmode), Hw, Hts.
    rewrite !str_truthy_Some by eauto using parseInt_nonempty.
    cbn [negb orb default from_option id]. now rewrite Hpk, Hparse. }
  split; [exact Hv|]. intros e. rewrite Hv. discriminate.
Qed.

(** C9 on alice's unsigned request naming bob's wallet *)
Lemma simplified_mode_skips_ownership_witness :
  (Devnet.simple_env !! "SIMPLE_AUTH" = Some "true" /\
   headers (Devnet.simple_request "1700000000000" Devnet.bob) !! "x-wallet-address"
     = Some Devnet.alice /\
   Devnet.alice <> "" /\
   PublicKey_new (JStr Devnet.alice) = Ok (Devnet.key Devnet.alice) /\
   headers (Devnet.simple_request "1700000000000" Devnet.bob) !! "x-timestamp"
     = Some "1700000000000" /\
   parseInt "1700000000000" = Some 1700000000000) /\
  names_other_wallet (Devnet.simple_request "1700000000000" Devnet.bob) Devnet.alice /\
  verifyWalletSignature Devnet.simple_env 0
    (Devnet.simple_request "1700000000000" Devnet.bob)
  = Authenticated Devnet.alice (Devnet.key Devnet.alice).
Proof.
  assert (H1 : Devnet.simple_env !! "SIMPLE_AUTH" = Some "true") by (vm_compute; reflexivity).
  assert (H2 : headers (Devnet.simple_request "1700000000000" Devnet.bob)
                 !! "x-wallet-address" = Some Devnet.alice) by (vm_compute; reflexivity).
  assert (H3 : Devnet.alice <> "") by discriminate.
  assert (H4 : PublicKey_new (JStr Devnet.alice) = Ok (Devnet.key Devnet.alice))
    by (vm_compute; reflexivity).
  assert (H5 : headers (Devnet.simple_request "1700000000000" Devnet.bob) !! "x-timestamp"
               = Some "1700000000000") by (vm_compute; reflexivity).
  assert (H6 : parseInt "1700000000000" = Some 1700000000000) by (vm_compute; reflexivity).
  split; [auto 10|]. split.
  - left. exists Devnet.bob. split; [vm_compute; reflexivity|]. split; discriminate.
  - exact (proj1 (simplified_mode_skips_ownership _ 0 _ _ _ _ _ H1 H2 H3 H4 H5 H6)).
Defined.

(** ** Goal creation: mode and risk tier *)

Lemma field_insert (body : gmap string jsval) (key : string) (v : jsval) :
  field (<[key := v]> body) key = v.
Proof. unfold field. now rewrite lookup_insert_eq. Qed.

Lemma field_insert_ne (body : gmap string jsval) (key key' : string) (v : jsval) :
  key <> key' -> field (<[key := v]> body) key' = field body key'.
Proof. intros Hne. unfold field. now rewrite lookup_insert_ne. Qed.

(** a lite goal is built without looking at the risk tier *)
Lemma buildCreateGoalTx_lite `{Platform} svc
    (userWallet name targetAmount riskTier riskTier' currencyId deadline : jsval) :
  buildCreateGoalTx svc userWallet name targetAmount (JStr "lite") riskTier currencyId deadline
  = buildCreateGoalTx svc userWallet name targetAmount (JStr "lite") riskTier' currencyId
      deadline.
Proof. reflexivity. Qed.

(** C5 as stated fails: a lite goal with the risk tier "high" supplied is
    accepted; the transaction is built with no risk tier. *)
Lemma lite_with_risk_tier_counterexample :
  field (Devnet.create_request (JStr "lite") (JStr "high")) "riskTier" = JStr "high" /\
  match post_create Devnet.create_ledger 1700000000000
          (Devnet.create_request (JStr "lite") (JStr "high")) with
  | Json reply =>
      method (cr_built reply) = "createGoal" /\
      args (cr_built reply)
      = [ArgVal (JStr "Car"); ArgBN 5000; ArgEnum "lite"; ArgNull; ArgVal (JNum 0);
         ArgBN 1710000000]
  | Fail _ _ => False
  end.
Proof. split; vm_compute; auto. Qed.

(** C5 (amended): a goal-creation request with mode pro and no risk tier, or
    a risk tier other than low, medium and high, is rejected with 400 before
    anything is built; with mode lite the risk tier supplied is ignored: the
    answer is the same whatever it is. *)
Theorem risk_tier_rule `{Platform} svc (now_ms : Z) (body : gmap string jsval) :
  (field body "mode" = JStr "pro" ->
   includes_lit ["low"; "medium"; "high"] (field body "riskTier") = false ->
   exists e, post_create svc now_ms body = Fail 400 e) /\
  (field body "mode" = JStr "lite" ->
   forall v, post_create svc now_ms (<["riskTier" := v]> body) = post_create svc now_ms body).
Proof.
  split.
  - intros Hmode Htier. unfold post_create, handle. rewrite Hmode, Htier.
    destruct (_ || _); [eauto|].
    destruct (strict_eq (JStr "pro") (JStr "pro") && negb (truthy (field body "riskTier")));
      eauto.
  - intros Hmode v. unfold post_create.
    rewrite field_insert, !field_insert_ne by discriminate. rewrite Hmode.
    now rewrite (buildCreateGoalTx_lite svc _ _ _ v (field body "riskTier")).
Qed.

(** the amended C5 on alice's pro request without a risk tier *)
Lemma risk_tier_rule_witness :
  (field (Devnet.create_request (JStr "pro") JUndefined) "mode" = JStr "pro" /\
   includes_lit ["low"; "medium"; "high"]
     (field (Devnet.create_request (JStr "pro") JUndefined) "riskTier") = false) /\
  exists e, post_create Devnet.create_ledger 1700000000000
              (Devnet.create_request (JStr "pro") JUndefined) = Fail 400 e.
Proof.
  assert (H1 : field (Devnet.create_request (JStr "pro") JUndefined) "mode" = JStr "pro")
    by (vm_compute; reflexivity).
  assert (H2 : includes_lit ["low"; "medium"; "high"]
                 (field (Devnet.create_request (JStr "pro") JUndefined) "riskTier") = false)
    by (vm_compute; reflexivity).
  split; [auto|].
  exact (proj1 (risk_tier_rule Devnet.create_ledger 1700000000000 _) H1 H2).
Defined.

(** ** Faucet rate limit *)

(** what [buildClaimFaucetTx] returns when every call of the libraries
    succeeds *)
Lemma buildClaimFaucetTx_runs `{Platform} svc (userWallet tokenMint : jsval)
    userPubkey tokenMintPubkey faucetConfigPDA userFaucetAccountPDA
    userTokenAccount faucetTokenAccount d blockhash :
  PublicKey_new userWallet = Ok userPubkey ->
  PublicKey_new tokenMint = Ok tokenMintPubkey ->
  getFaucetConfigPDA svc = Ok faucetConfigPDA ->
  getUserFaucetAccountPDA svc (WKey userPubkey) = Ok userFaucetAccountPDA ->
  getAssociatedTokenAddressSync tokenMintPubkey userPubkey false = Ok userTokenAccount ->
  getAssociatedTokenAddressSync tokenMintPubkey faucetConfigPDA true = Ok faucetTokenAccount ->
  encodeInstruction "claimTokens" [] = Ok d ->
  getLatestBlockhash svc = Ok blockhash ->
  buildClaimFaucetTx svc userWallet tokenMint
  = Ok {| cf_transaction :=
            {| method := "claimTokens"; args := []; data := d;
               accounts := [("user", userPubkey); ("faucetConfig", faucetConfigPDA);
                            ("userFaucetAccount", userFaucetAccountPDA);
                            ("tokenMint", tokenMintPubkey);
                            ("faucetTokenAccount", faucetTokenAccount);
                            ("userTokenAccount", userTokenAccount);
                            ("tokenProgram", TOKEN_PROGRAM_ID);
                            ("systemProgram", SystemProgram_programId)];
               recentBlockhash := Some blockhash; feePayer := Some userPubkey |};
          cf_userTokenAccount := pk_toString userTokenAccount |}.
Proof.
  intros Hu Hm Hc Hf Hut Hft Hd Hb.
  unfold buildClaimFaucetTx, program_methods. rewrite rethrow_id.
  rewrite Hu, Hm, Hc. cbn [mbind result_bind]. rewrite Hf. cbn [mbind result_bind].
  rewrite Hut. cbn [mbind result_bind]. rewrite Hft. cbn [mbind result_bind].
  rewrite Hd. cbn [mbind result_bind]. rewrite Hb. reflexivity.
Qed.

(** C6 (amended): for a faucet claim by a wallet whose FaucetAccount exists,
    a last claim less than 3600 seconds ago, or 10 or more claims today
    whatever the time elapsed, means that no transaction is returned, and,
    once the faucet is enabled and the token is known, that the answer is
    429, "Cooldown active" in the first case and "Daily limit reached"
    otherwise. With 3600 seconds or more elapsed and fewer than 10 claims,
    the faucet enabled and the token known, the claim is accepted: when the
    calls of the libraries succeed, the answer is the claimTokens
    transaction on the eight accounts of the wallet and the mint, paid by
    the wallet and carrying the latest blockhash, with the wallet's token
    account and the amount per claim. So a last claim 61 minutes ago with 9
    claims today is accepted. With the faucet not enabled every claim is
    rejected with another status than 429. *)
Theorem faucet_rate_limit `{Platform} svc env (now_ms : Z) (body : gmap string jsval) acct :
  truthy (field body "walletAddress") = true ->
  getUserFaucetAccount svc (field body "walletAddress") = Ok (Some acct) ->
  let elapsed := now_ms / 1000 - lastClaimTime acct in
  (elapsed < 3600 \/ 10 <= claimsToday acct ->
   (forall reply, post_faucet_claim svc env now_ms body <> Json reply) /\
   (forall mint,
      env !! "FAUCET_ENABLED" = Some "true" ->
      mintAddress_of svc (field body "tokenMint") (field body "currencyId") = Ok mint ->
      truthy mint = true ->
      post_faucet_claim svc env now_ms body
      = Fail 429 (if elapsed <? 3600 then "Cooldown active" else "Daily limit reached"))) /\
  (3600 <= elapsed -> claimsToday acct < 10 ->
   forall mint userPubkey tokenMintPubkey faucetConfigPDA userFaucetAccountPDA
          userTokenAccount faucetTokenAccount d blockhash serializedTx faucetConfig,
     env !! "FAUCET_ENABLED" = Some "true" ->
     mintAddress_of svc (field body "tokenMint") (field body "currencyId") = Ok mint ->
     truthy mint = true ->
     PublicKey_new (field body "walletAddress") = Ok userPubkey ->
     PublicKey_new mint = Ok tokenMintPubkey ->
     getFaucetConfigPDA svc = Ok faucetConfigPDA ->
     getUserFaucetAccountPDA svc (WKey userPubkey) = Ok userFaucetAccountPDA ->
     getAssociatedTokenAddressSync tokenMintPubkey userPubkey false = Ok userTokenAccount ->
     getAssociatedTokenAddressSync tokenMintPubkey faucetConfigPDA true
       = Ok faucetTokenAccount ->
     encodeInstruction "claimTokens" [] = Ok d ->
     getLatestBlockhash svc = Ok blockhash ->
     let tx :=
       {| method := "claimTokens"; args := []; data := d;
          accounts := [("user", userPubkey); ("faucetConfig", faucetConfigPDA);
                       ("userFaucetAccount", userFaucetAccountPDA);
                       ("tokenMint", tokenMintPubkey);
                       ("faucetTokenAccount", faucetTokenAccount);
                       ("userTokenAccount", userTokenAccount);
                       ("tokenProgram", TOKEN_PROGRAM_ID);
                       ("systemProgram", SystemProgram_programId)];
          recentBlockhash := Some blockhash; feePayer := Some userPubkey |} in
     serialize_base64 tx = Ok serializedTx ->
     getFaucetConfig svc = Ok faucetConfig ->
     post_faucet_claim svc env now_ms body
     = Json {| fr_transaction := serializedTx; fr_built := tx;
               fr_userTokenAccount := pk_toString userTokenAccount;
               fr_amount := option_map amountPerClaim faucetConfig |}) /\
  (env !! "FAUCET_ENABLED" <> Some "true" ->
   exists status e, post_faucet_claim svc env now_ms body = Fail status e /\ status <> 429).
Proof.
  intros Hw Hacct elapsed. split; [|split].
  - intros Hlim. split.
    + intros reply. unfold post_faucet_claim, handle. rewrite Hw. cbn [negb].
      destruct (mintAddress_of _ _ _) as [mint|msg]; [|discriminate].
      cbn [mbind result_bind]. destruct (negb (truthy mint)); [discriminate|].
      destruct (negb (bool_decide _)); [discriminate|].
      rewrite Hacct. cbn [mbind result_bind]. fold elapsed.
      destruct (Z.ltb_spec elapsed 3600); [discriminate|].
      destruct (Z.leb_spec 10 (claimsToday acct)); [discriminate|lia].
    + intros mint Hen Hmint Htm. unfold post_faucet_claim, handle.
      rewrite Hw, Hmint. cbn [negb mbind result_bind]. rewrite Htm.
      rewrite (bool_decide_eq_true_2 _ Hen), Hacct. cbn [negb mbind result_bind].
      fold elapsed. destruct (Z.ltb_spec elapsed 3600); [reflexivity|].
      destruct (Z.leb_spec 10 (claimsToday acct)); [reflexivity|lia].
  - intros Hel Hcl mint userPubkey tokenMintPubkey faucetConfigPDA userFaucetAccountPDA
      userTokenAccount faucetTokenAccount d blockhash serializedTx faucetConfig
      Hen Hmint Htm Hu Hm Hc Hf Hut Hft Hd Hb tx Hs Hfc.
    unfold post_faucet_claim, handle.
    rewrite Hw, Hmint. cbn [negb mbind result_bind]. rewrite Htm.
    rewrite (bool_decide_eq_true_2 _ Hen), Hacct. cbn [negb mbind result_bind].
    fold elapsed. destruct (Z.ltb_spec elapsed 3600); [lia|].
    destruct (Z.leb_spec 10 (claimsToday acct)); [lia|].
    rewrite (buildClaimFaucetTx_runs svc _ _ _ _ _ _ _ _ _ _ Hu Hm Hc Hf Hut Hft Hd Hb).
    cbn [mbind result_bind cf_transaction cf_userTokenAccount]. fold tx.
    rewrite Hs. cbn [mbind result_bind]. rewrite Hfc. reflexivity.
  - intros Hoff. unfold post_faucet_claim, handle. rewrite Hw. cbn [negb].
    destruct (mintAddress_of _ _ _) as [mint|msg]; [|exists 500; eexists; split; [reflexivity|lia]].
    cbn [mbind result_bind].
    destruct (negb (truthy mint)); [exists 400; eexists; split; [reflexivity|lia]|].
    rewrite (bool_decide_eq_false_2 _ Hoff). cbn [negb].
    exists 403; eexists; split; [reflexivity|lia].
Qed.

(** C6 on alice's claim 61 minutes after her last one, the ninth of the day *)
Lemma faucet_rate_limit_witness :
  (truthy (field Devnet.faucet_request "walletAddress") = true /\
   getUserFaucetAccount (Devnet.faucet_ledger (1700000000 - 61 * 60) 9)
     (field Devnet.faucet_request "walletAddress")
   = Ok (Some (decodeUserFaucetAccount (Devnet.faucet_account (1700000000 - 61 * 60) 9)))) /\
  1700000000000 / 1000 - (1700000000 - 61 * 60) = 61 * 60 /\
  exists reply,
    post_faucet_claim (Devnet.faucet_ledger (1700000000 - 61 * 60) 9) Devnet.faucet_env
      1700000000000 Devnet.faucet_request
    = Json reply /\
    method (fr_built reply) = "claimTokens" /\
    feePayer (fr_built reply) = Some (Devnet.key Devnet.alice) /\
    fr_amount reply = Some 1000000000.
Proof.
  assert (H1 : truthy (field Devnet.faucet_request "walletAddress") = true)
    by (vm_compute; reflexivity).
  assert (H2 : getUserFaucetAccount (Devnet.faucet_ledger (1700000000 - 61 * 60) 9)
                 (field Devnet.faucet_request "walletAddress")
               = Ok (Some (decodeUserFaucetAccount
                             (Devnet.faucet_account (1700000000 - 61 * 60) 9))))
    by (vm_compute; reflexivity).
  split; [auto|]. split; [vm_compute; reflexivity|].
  eexists. split.
  - eapply (proj1 (proj2 (faucet_rate_limit _ Devnet.faucet_env 1700000000000 _ _ H1 H2)));
      [vm_compute; discriminate | vm_compute; reflexivity | vm_compute; reflexivity ..].
  - split; [reflexivity|]. split; vm_compute; reflexivity.
Defined.

(** C6 as stated fails where the faucet is not enabled or the token is not
    known: alice claimed 30 minutes ago, and her claim is rejected with 403,
    or with 400, not with the rate-limit status; and her claim 61 minutes
    after the last one, the ninth of the day, is not accepted where the
    faucet is not enabled. *)
Lemma faucet_gates_counterexample :
  getUserFaucetAccount (Devnet.faucet_ledger (1700000000 - 30 * 60) 1)
    (field Devnet.faucet_request "walletAddress")
  = Ok (Some (decodeUserFaucetAccount (Devnet.faucet_account (1700000000 - 30 * 60) 1))) /\
  1700000000000 / 1000 - (1700000000 - 30 * 60) < 3600 /\
  post_faucet_claim (Devnet.faucet_ledger (1700000000 - 30 * 60) 1) ∅
    1700000000000 Devnet.faucet_request
  = Fail 403 "Faucet disabled" /\
  post_faucet_claim (Devnet.faucet_ledger (1700000000 - 30 * 60) 1) Devnet.faucet_env
    1700000000000 {[ "walletAddress" := JStr Devnet.alice ]}
  = Fail 400 "Missing token information" /\
  post_faucet_claim (Devnet.faucet_ledger (1700000000 - 61 * 60) 9) ∅
    1700000000000 Devnet.faucet_request
  = Fail 403 "Faucet disabled".
Proof.
  split; [vm_compute; reflexivity|]. split; [vm_compute; reflexivity|].
  split; [vm_compute; reflexivity|]. split; vm_compute; reflexivity.
Qed.

(** the three cases of the specification, run: last claim 30 minutes ago,
    last claim 61 minutes ago with 9 claims, and 10 claims two hours after
    the last one *)
Lemma faucet_rate_limit_examples :
  post_faucet_claim (Devnet.faucet_ledger (1700000000 - 30 * 60) 1) Devnet.faucet_env
    1700000000000 Devnet.faucet_request
  = Fail 429 "Cooldown active" /\
  match post_faucet_claim (Devnet.faucet_ledger (1700000000 - 61 * 60) 9) Devnet.faucet_env
          1700000000000 Devnet.faucet_request with
  | Json reply => method (fr_built reply) = "claimTokens"
  | Fail _ _ => False
  end /\
  post_faucet_claim (Devnet.faucet_ledger (1700000000 - 120 * 60) 10) Devnet.faucet_env
    1700000000000 Devnet.faucet_request
  = Fail 429 "Daily limit reached".
Proof. split; [|split]; vm_compute; reflexivity. Qed.

(** ** Deposit amounts *)

Lemma validateAmount_string (s : string) :
  valid (validateAmount (JStr s)) = true <->
  test_digits_only s = true /\ BigInt_digits s 0 <= MAX_U64.
Proof.
  unfold validateAmount, strict_eq, test_digits_only.
  rewrite !bool_decide_eq_false_2 by discriminate. cbn [orb toString].
  destruct (bool_decide (JStr s = JStr "")) eqn:He.
  - apply bool_decide_eq_true_1 in He. injection He as ->. cbn. split; [discriminate|].
    intros [Hd _]. discriminate Hd.
  - assert (Hs : String.eqb s "" = false).
    { apply String.eqb_neq. intros ->. now apply bool_decide_eq_false_1 in He. }
    rewrite Hs. cbn [negb andb].
    destruct (all_digits s) eqn:Hd; cbn [negb valid].
    + destruct (Z.ltb_spec (BigInt_digits s 0) 0) as [Hneg|_]; cbn [valid].
      * split; [discriminate|]. intros [_ Hle].
        exfalso. revert Hneg. clear -Hd. 
        assert (Hnn : forall t acc, all_digits t = true -> 0 <= acc -> 0 <= BigInt_digits t acc).
        { induction t as [|a t IH]; cbn; intros acc Ht Hacc; [exact Hacc|].
          apply andb_true_iff in Ht as [Ha Ht]. apply IH; [exact Ht|].
          unfold is_digit in Ha. apply andb_true_iff in Ha as [Ha1 Ha2].
          apply Z.leb_le in Ha1. lia. }
        specialize (Hnn s 0 Hd ltac:(lia)). lia.
      * destruct (Z.ltb_spec MAX_U64 (BigInt_digits s 0)); cbn [valid];
          split; try discriminate; try tauto; intros [_ ?]; lia.
    + split; [discriminate|]. intros [Hf _]. discriminate Hf.
Qed.

(** an amount that does not validate is answered with 400 and nothing is
    built *)
Lemma deposit_rejects_invalid_amount `{Platform} svc (body : gmap string jsval) :
  valid (validateAmount (field body "amount")) = false ->
  exists e, post_deposit svc body = Fail 400 e.
Proof.
  intros Hv. unfold post_deposit, handle. rewrite Hv.
  destruct (_ || _); eauto.
Qed.

(** C7 fails on the code for the amount "0": [validateAmount] accepts the
    string, and the deposit handler builds a deposit of 0 units. *)
Theorem deposit_zero_amount_accepted :
  valid (validateAmount (JStr "0")) = true /\
  match post_deposit Devnet.due_ledger (Devnet.deposit_request (JStr "0")) with
  | Json reply =>
      method (dr_built reply) = "deposit" /\ args (dr_built reply) = [ArgBN 0]
  | Fail _ _ => False
  end.
Proof. split; vm_compute; auto. Qed.

(** * Further properties of the code *)

(** ** Listing accounts *)

Lemma goals_loop_spec `{Platform} svc (userWallet : jsval) (n : nat) :
  forall (i : Z) (acc goals : list (GoalAccount string)),
    goals_loop svc userWallet n i acc = Ok goals <->
    exists reads : list (option (GoalAccount string)),
      length reads = n /\
      (forall (k : nat) r, reads !! k = Some r ->
         getGoalAccount svc userWallet (JNum (i + Z.of_nat k)) = Ok r) /\
      goals = app acc (omap id reads).
Proof.
  induction n as [|n IH]; intros i acc goals; cbn [goals_loop].
  - split.
    + intros [= <-]. exists []. cbn. rewrite app_nil_r. repeat split. intros k r Hk.
      destruct k; discriminate.
    + intros (reads & Hlen & _ & ->). destruct reads; [|discriminate]. cbn.
      now rewrite app_nil_r.
  - split.
    + intros Hb. apply bind_Ok_inv in Hb. destruct Hb as (goal & Hgoal & Hb).
      apply IH in Hb. destruct Hb as (reads & Hlen & Hreads & ->).
      exists (goal :: reads). split; [cbn; congruence|]. split.
      * intros [|k] r Hk.
        -- cbn in Hk. injection Hk as <-. now rewrite Z.add_0_r.
        -- cbn in Hk. apply Hreads in Hk. rewrite <- Hk. do 2 f_equal. lia.
      * destruct goal as [g|]; cbn; [now rewrite <- app_assoc | reflexivity].
    + intros (reads & Hlen & Hreads & ->). destruct reads as [|goal reads]; [discriminate|].
      pose proof (Hreads 0%nat goal eq_refl) as H0. rewrite Z.add_0_r in H0. rewrite H0.
      cbn [mbind result_bind]. apply IH. exists reads. split; [cbn in Hlen; lia|]. split.
      * intros k r Hk. rewrite <- (Hreads (S k) r Hk). do 2 f_equal. lia.
      * destruct goal as [g|]; cbn; [now rewrite <- app_assoc | reflexivity].
Qed.

(** X1: [getUserGoals] returns the empty list for a wallet without user
    account, fails when the user account cannot be read, and otherwise
    returns a list exactly when every goal index from 0 up to
    [totalGoalsCreated] is read without error: the list then holds the goals
    that exist at those indices, in index order, the gaps skipped. One
    failing read makes the whole listing fail. *)
Theorem user_goals_listing `{Platform} svc (userWallet : jsval) :
  match getUserAccount svc userWallet with
  | Throw error => getUserGoals svc userWallet = Throw error
  | Ok None => getUserGoals svc userWallet = Ok []
  | Ok (Some userAccount) =>
      forall goals,
        getUserGoals svc userWallet = Ok goals <->
        exists reads : list (option (GoalAccount string)),
          Z.of_nat (length reads) = Z.max 0 (totalGoalsCreated userAccount) /\
          (forall (i : nat) r, reads !! i = Some r ->
             getGoalAccount svc userWallet (JNum (Z.of_nat i)) = Ok r) /\
          goals = omap id reads
  end.
Proof.
  unfold getUserGoals. rewrite rethrow_id.
  destruct (getUserAccount svc userWallet) as [[ua|]|error]; cbn [mbind result_bind];
    try reflexivity.
  intros goals. rewrite goals_loop_spec. cbn [app].
  split; intros (reads & Hlen & Hreads & ->); exists reads; (split; [lia|]); split; auto.
Qed.

(** X2: listing the currencies never fails, whatever the ledger and the RPC
    connection do: [getAllCurrencies] returns at most two configurations,
    those of the currencies 0 and 1 that could be read, and the handler of
    [/currencies/all] answers with them. A failing read is indistinguishable
    from a currency that is not configured. *)
Theorem currencies_listing_never_fails `{Platform} svc :
  exists currencies,
    getAllCurrencies svc = Ok currencies /\
    get_currencies svc
      = Json (map (fun c => (c, currencyName (cc_currencyId c))) currencies) /\
    (length currencies <= 2)%nat /\
    forall config,
      In config currencies <->
      getCurrencyConfig svc (JNum 0) = Ok config \/ getCurrencyConfig svc (JNum 1) = Ok config.
Proof.
  unfold get_currencies, getAllCurrencies. rewrite rethrow_id. eexists.
  split; [reflexivity|]. split; [reflexivity|].
  cbn [fold_left]. unfold push_currency.
  destruct (getCurrencyConfig svc (JNum 0)) as [c0|e0];
    destruct (getCurrencyConfig svc (JNum 1)) as [c1|e1]; cbn; (split; [lia|]);
    intros config; split; intros Hin;
    repeat match goal with
           | H : _ \/ _ |- _ => destruct H
           | H : Ok _ = Ok _ |- _ => injection H as ->
           | H : False |- _ => destruct H
           | H : Throw _ = Ok _ |- _ => discriminate H
           | H : ?a = config |- _ => subst
           end; auto.
Qed.

(** ** The transactions that the builders return *)

Lemma program_methods_Ok `{Platform} m a accts tx :
  program_methods m a accts = Ok tx ->
  method tx = m /\ args tx = a /\ accounts tx = accts.
Proof.
  unfold program_methods. intros Hb. ok_steps Hb. injection Hb as <-. auto.
Qed.

Lemma stamped_paid_by `{Platform} svc (userWallet : jsval) userPubkey blockhash m a rest tx :
  PublicKey_new userWallet = Ok userPubkey ->
  getLatestBlockhash svc = Ok blockhash ->
  program_methods m a (("user", userPubkey) :: rest) = Ok tx ->
  paid_by svc userWallet (stamp tx blockhash userPubkey).
Proof.
  intros Hk Hb Htx. exists userPubkey, blockhash.
  destruct (program_methods_Ok _ _ _ _ Htx) as (_ & _ & Hacc).
  cbn [stamp feePayer recentBlockhash accounts]. rewrite Hacc. auto.
Qed.

Ltac paid_by_steps Hb :=
  rewrite rethrow_id in Hb; ok_steps Hb; injection Hb as <-;
  eapply stamped_paid_by; eassumption.

(** X3: every transaction that one of the six builders returns names the key
    of the requesting wallet as its first account and as the payer of its
    fee, and carries the blockhash that the RPC node reported last. *)
Theorem built_transactions_paid_by_user `{Platform} svc (userWallet : jsval) :
  (forall r, buildInitializeUserTx svc userWallet = Ok r ->
             paid_by svc userWallet (iu_transaction r)) /\
  (forall name targetAmount mode riskTier currencyId deadline r,
     buildCreateGoalTx svc userWallet name targetAmount mode riskTier currencyId deadline
       = Ok r ->
     paid_by svc userWallet (cg_transaction r)) /\
  (forall goalIndex amount currencyId r,
     buildDepositTx svc userWallet goalIndex amount currencyId = Ok r ->
     paid_by svc userWallet (dp_transaction r)) /\
  (forall goalIndex r,
     buildWithdrawCompletedTx svc userWallet goalIndex = Ok r ->
     paid_by svc userWallet (wd_transaction r)) /\
  (forall goalIndex r,
     buildWithdrawEarlyTx svc userWallet goalIndex = Ok r ->
     paid_by svc userWallet (wd_transaction r)) /\
  (forall tokenMint r,
     buildClaimFaucetTx svc userWallet tokenMint = Ok r ->
     paid_by svc userWallet (cf_transaction r)).
Proof.
  split; [|split; [|split; [|split; [|split]]]].
  - intros r Hb. unfold buildInitializeUserTx in Hb. paid_by_steps Hb.
  - intros name targetAmount mode riskTier currencyId deadline r Hb.
    unfold buildCreateGoalTx in Hb. rewrite rethrow_id in Hb.
    apply bind_Ok_inv in Hb. destruct Hb as (userPubkey & Hk & Hb).
    apply bind_Ok_inv in Hb. destruct Hb as ([ua|] & _ & Hb); [|discriminate].
    ok_steps Hb. injection Hb as <-. eapply stamped_paid_by; eassumption.
  - intros goalIndex amount currencyId r Hb. unfold buildDepositTx in Hb. paid_by_steps Hb.
  - intros goalIndex r Hb. unfold buildWithdrawCompletedTx in Hb. rewrite rethrow_id in Hb.
    apply bind_Ok_inv in Hb. destruct Hb as (userPubkey & Hk & Hb).
    apply bind_Ok_inv in Hb. destruct Hb as ([goal|] & _ & Hb); [|discriminate].
    ok_steps Hb. injection Hb as <-. eapply stamped_paid_by; eassumption.
  - intros goalIndex r Hb. unfold buildWithdrawEarlyTx in Hb. rewrite rethrow_id in Hb.
    apply bind_Ok_inv in Hb. destruct Hb as (userPubkey & Hk & Hb).
    apply bind_Ok_inv in Hb. destruct Hb as ([goal|] & _ & Hb); [|discriminate].
    ok_steps Hb. injection Hb as <-. eapply stamped_paid_by; eassumption.
  - intros tokenMint r Hb. unfold buildClaimFaucetTx in Hb. paid_by_steps Hb.
Qed.

(** X3 on the deposit of 5 units that alice asks for *)
Lemma built_transactions_paid_by_user_witness :
  (exists r, buildDepositTx Devnet.due_ledger (JStr Devnet.alice) (JNum 0) (JStr "5") (JNum 0)
             = Ok r) /\
  match buildDepositTx Devnet.due_ledger (JStr Devnet.alice) (JNum 0) (JStr "5") (JNum 0) with
  | Ok r => paid_by Devnet.due_ledger (JStr Devnet.alice) (dp_transaction r)
  | Throw _ => False
  end.
Proof.
  destruct (buildDepositTx Devnet.due_ledger (JStr Devnet.alice) (JNum 0) (JStr "5") (JNum 0))
    as [r|e] eqn:Hb.
  - split; [exists r; reflexivity|].
    exact (proj1 (proj2 (proj2 (built_transactions_paid_by_user Devnet.due_ledger
                                  (JStr Devnet.alice)))) _ _ _ r Hb).
  - exfalso. revert Hb. vm_compute. discriminate.
Defined.

(** ** What a successful answer of a route implies *)

Lemma strict_eq_true (a b : jsval) : strict_eq a b = true -> a = b.
Proof. unfold strict_eq. apply bool_decide_eq_true_1. Qed.

Lemma includes_lit_In (l : list string) (v : jsval) :
  includes_lit l v = true -> exists s, In s l /\ v = JStr s.
Proof.
  unfold includes_lit. rewrite existsb_exists. intros (s & Hin & Heq).
  exists s. split; [exact Hin | now apply strict_eq_true].
Qed.

Lemma buildCreateGoalTx_Ok `{Platform} svc
    (userWallet name targetAmount mode riskTier currencyId deadline : jsval) r :
  buildCreateGoalTx svc userWallet name targetAmount mode riskTier currencyId deadline = Ok r ->
  exists userAccount target dl tier,
    getUserAccount svc userWallet = Ok (Some userAccount) /\
    cg_goalIndex r = totalGoalsCreated userAccount /\
    BN_new targetAmount = Ok target /\
    BN_new deadline = Ok dl /\
    (if strict_eq mode (JStr "pro") then
       if negb (truthy riskTier) then Throw "Risk tier is required for Pro mode"
       else Ok (if strict_eq riskTier (JStr "low") then ArgEnum "low"
                else if strict_eq riskTier (JStr "medium") then ArgEnum "medium"
                else ArgEnum "high")
     else Ok ArgNull) = Ok tier /\
    method (cg_transaction r) = "createGoal" /\
    args (cg_transaction r)
      = [ArgVal name; ArgBN target;
         (if strict_eq mode (JStr "lite") then ArgEnum "lite" else ArgEnum "pro");
         tier; ArgVal currencyId; ArgBN dl].
Proof.
  unfold buildCreateGoalTx. rewrite rethrow_id. intros Hb.
  apply bind_Ok_inv in Hb. destruct Hb as (userPubkey & _ & Hb).
  apply bind_Ok_inv in Hb. destruct Hb as ([ua|] & Hua & Hb); [|discriminate].
  apply bind_Ok_inv in Hb. destruct Hb as (userAccountPDA & _ & Hb).
  apply bind_Ok_inv in Hb. destruct Hb as (goalAccountPDA & _ & Hb).
  apply bind_Ok_inv in Hb. destruct Hb as (currencyConfigPDA & _ & Hb).
  apply bind_Ok_inv in Hb. destruct Hb as (tier & Htier & Hb).
  apply bind_Ok_inv in Hb. destruct Hb as (target & Htarget & Hb).
  apply bind_Ok_inv in Hb. destruct Hb as (dl & Hdl & Hb).
  apply bind_Ok_inv in Hb. destruct Hb as (tx & Htx & Hb).
  apply bind_Ok_inv in Hb. destruct Hb as (blockhash & _ & Hb).
  injection Hb as <-. destruct (program_methods_Ok _ _ _ _ Htx) as (Hm & Ha & _).
  exists ua, target, dl, tier. cbn [cg_goalIndex cg_transaction stamp method args].
  rewrite Hm, Ha. auto 10.
Qed.

(** X4: whenever [POST /api/goals/create] answers with a transaction, the
    wallet has a user account with fewer than five active goals, the deadline
    is not below the current time plus 90 days, the currency is configured,
    the goal index is the number of goals the user has created, and the
    transaction is a createGoal instruction whose arguments are the request's
    name, target amount, currency and deadline with a mode and risk tier that
    agree with the request: lite with no tier, or pro with the requested tier
    among low, medium and high. The yield reported is the configured one for
    that mode and tier. *)
Theorem create_reply_sound `{Platform} svc (now_ms : Z) (body : gmap string jsval) reply :
  post_create svc now_ms body = Json reply ->
  exists userAccount currencyConfig target dl (m : string) (tier : arg),
    getUserAccount svc (field body "walletAddress") = Ok (Some userAccount) /\
    activeGoals userAccount < 5 /\
    js_lt (field body "deadline") (now_ms / 1000 + 90 * 24 * 60 * 60) = false /\
    getCurrencyConfig svc (field body "currencyId") = Ok currencyConfig /\
    BN_new (field body "targetAmount") = Ok target /\
    BN_new (field body "deadline") = Ok dl /\
    cr_goalIndex reply = totalGoalsCreated userAccount /\
    method (cr_built reply) = "createGoal" /\
    args (cr_built reply)
      = [ArgVal (field body "name"); ArgBN target; ArgEnum m; tier;
         ArgVal (field body "currencyId"); ArgBN dl] /\
    ((field body "mode" = JStr "lite" /\ m = "lite" /\ tier = ArgNull /\
      cr_apy reply = liteApy currencyConfig) \/
     (field body "mode" = JStr "pro" /\ m = "pro" /\
      exists t, field body "riskTier" = JStr t /\ tier = ArgEnum t /\
        In (t, cr_apy reply)
           [("low", proLowRiskApy currencyConfig);
            ("medium", proMediumRiskApy currencyConfig);
            ("high", proHighRiskApy currencyConfig)])).
Proof.
  unfold post_create, handle. intros Hp.
  destruct (_ || _ || _ || _ || _ || _); [discriminate|].
  destruct (strict_eq (field body "mode") (JStr "pro") && negb (truthy _)); [discriminate|].
  destruct (includes_lit ["lite"; "pro"] (field body "mode")) eqn:Hmode; [|discriminate].
  cbn [negb] in Hp.
  destruct (strict_eq (field body "mode") (JStr "pro")
            && negb (includes_lit ["low"; "medium"; "high"] (field body "riskTier")))
    eqn:Htier; [discriminate|].
  destruct (getUserAccount svc _) as [[ua|]|e] eqn:Hua; cbn [mbind result_bind] in Hp;
    try discriminate.
  destruct (Z.leb_spec 5 (activeGoals ua)) as [|Hcap]; [discriminate|].
  destruct (js_lt _ _) eqn:Hdl; [discriminate|].
  destruct (buildCreateGoalTx _ _ _ _ _ _ _ _) as [r|e] eqn:Hb; cbn [mbind result_bind] in Hp;
    [|discriminate].
  destruct (serialize_base64 _) as [stx|e]; cbn [mbind result_bind] in Hp; [|discriminate].
  destruct (getCurrencyConfig svc _) as [cc|e] eqn:Hcc; cbn [mbind result_bind] in Hp;
    [|discriminate].
  destruct (Date_valid_seconds _); [|discriminate]. cbn [negb] in Hp.
  injection Hp as <-.
  destruct (buildCreateGoalTx_Ok _ _ _ _ _ _ _ _ _ Hb)
    as (ua' & target & dl & tier & Hua' & Hidx & Htarget & Hdl' & Htier' & Hm & Hargs).
  rewrite Hua in Hua'. injection Hua' as <-.
  apply includes_lit_In in Hmode. destruct Hmode as (md & Hin & Hmd).
  exists ua, cc, target, dl, md, tier. cbn [cr_goalIndex cr_built cr_apy].
  rewrite Hmd in *. clear Hmd.
  destruct Hin as [<-|[<-|[]]].
  - change (strict_eq (JStr "lite") (JStr "pro")) with false in Htier'.
    change (strict_eq (JStr "lite") (JStr "lite")) with true in *.
    injection Htier' as <-. auto 15.
  - change (strict_eq (JStr "pro") (JStr "pro")) with true in *.
    change (strict_eq (JStr "pro") (JStr "lite")) with false in *.
    cbn [andb] in Htier. apply negb_false_iff in Htier.
    apply includes_lit_In in Htier. destruct Htier as (t & Ht & Hrt).
    rewrite Hrt in *. clear Hrt.
    assert (Htruthy : truthy (JStr t) = true)
      by (destruct Ht as [<-|[<-|[<-|[]]]]; reflexivity).
    rewrite Htruthy in Htier'. cbn [negb] in Htier'.
    repeat split; auto. right. repeat split; auto. exists t.
    destruct Ht as [<-|[<-|[<-|[]]]]; injection Htier' as <-;
      (split; [reflexivity|]); (split; [reflexivity|]); cbn; auto.
Qed.

(** X4 on alice's request for a pro goal of low risk, her fifth, due in
    2024-03 *)
Lemma create_reply_sound_witness :
  (exists reply,
     post_create Devnet.create_ledger 1700000000000
       (Devnet.create_request (JStr "pro") (JStr "low")) = Json reply) /\
  match post_create Devnet.create_ledger 1700000000000
          (Devnet.create_request (JStr "pro") (JStr "low")) with
  | Json reply =>
      exists userAccount,
        getUserAccount Devnet.create_ledger (JStr Devnet.alice) = Ok (Some userAccount) /\
        activeGoals userAccount < 5 /\
        cr_goalIndex reply = totalGoalsCreated userAccount /\
        method (cr_built reply) = "createGoal"
  | Fail _ _ => False
  end.
Proof.
  destruct (post_create Devnet.create_ledger 1700000000000
              (Devnet.create_request (JStr "pro") (JStr "low"))) as [status e|reply] eqn:Hp.
  - exfalso. revert Hp. vm_compute. discriminate.
  - split; [exists reply; reflexivity|].
    destruct (create_reply_sound _ _ _ _ Hp)
      as (ua & _ & _ & _ & _ & _ & Hua & Hcap & _ & _ & _ & _ & Hidx & Hm & _).
    exists ua. auto.
Defined.

Lemma buildDepositTx_Ok `{Platform} svc (userWallet goalIndex amount currencyId : jsval) r :
  buildDepositTx svc userWallet goalIndex amount currencyId = Ok r ->
  exists amt currencyConfig,
    BN_new amount = Ok amt /\
    getCurrencyConfig svc currencyId = Ok currencyConfig /\
    method (dp_transaction r) = "deposit" /\
    args (dp_transaction r) = [ArgBN amt].
Proof.
  unfold buildDepositTx. rewrite rethrow_id. intros Hb.
  apply bind_Ok_inv in Hb. destruct Hb as (userPubkey & _ & Hb).
  apply bind_Ok_inv in Hb. destruct Hb as (userAccountPDA & _ & Hb).
  apply bind_Ok_inv in Hb. destruct Hb as (goalAccountPDA & _ & Hb).
  apply bind_Ok_inv in Hb. destruct Hb as (currencyConfigPDA & _ & Hb).
  apply bind_Ok_inv in Hb. destruct Hb as (savingsMintPDA & _ & Hb).
  apply bind_Ok_inv in Hb. destruct Hb as (currencyConfig & Hcc & Hb).
  apply bind_Ok_inv in Hb. destruct Hb as (baseTokenMint & _ & Hb).
  apply bind_Ok_inv in Hb. destruct Hb as (userBaseTokenAccount & _ & Hb).
  apply bind_Ok_inv in Hb. destruct Hb as (userSavingsTokenAccount & _ & Hb).
  apply bind_Ok_inv in Hb. destruct Hb as (amt & Hamt & Hb).
  apply bind_Ok_inv in Hb. destruct Hb as (tx & Htx & Hb).
  apply bind_Ok_inv in Hb. destruct Hb as (blockhash & _ & Hb).
  injection Hb as <-. destruct (program_methods_Ok _ _ _ _ Htx) as (Hm & Ha & _).
  exists amt, currencyConfig. cbn [dp_transaction stamp method args]. auto.
Qed.

(** X5: whenever [POST /api/transactions/deposit] answers with a
    transaction, the amount passed [validateAmount], the currency id is the
    number 0 or 1, the goal exists, is active and is held in that currency,
    the currency is configured, and the transaction is a deposit instruction
    whose only argument is the big number made from the request's amount. *)
Theorem deposit_reply_sound `{Platform} svc (body : gmap string jsval) reply :
  post_deposit svc body = Json reply ->
  exists goal currencyConfig amt,
    valid (validateAmount (field body "amount")) = true /\
    (field body "currencyId" = JNum 0 \/ field body "currencyId" = JNum 1) /\
    getGoalAccount svc (field body "walletAddress") (field body "goalIndex") = Ok (Some goal) /\
    status goal = "active" /\
    field body "currencyId" = JNum (Account.currencyId goal) /\
    getCurrencyConfig svc (field body "currencyId") = Ok currencyConfig /\
    BN_new (field body "amount") = Ok amt /\
    method (dr_built reply) = "deposit" /\
    args (dr_built reply) = [ArgBN amt] /\
    dr_depositAmount reply = field body "amount".
Proof.
  unfold post_deposit, handle. intros Hp.
  destruct (_ || _ || _ || _); [discriminate|].
  destruct (valid (validateAmount _)) eqn:Hamount; [|discriminate].
  destruct (valid (validateCurrencyId _)) eqn:Hcur; [|discriminate].
  cbn [negb] in Hp.
  destruct (getGoalAccount svc _ _) as [[goal|]|e] eqn:Hgoal; cbn [mbind result_bind] in Hp;
    try discriminate.
  destruct (String.eqb_spec (status goal) "active") as [Hactive|]; [|discriminate].
  destruct (strict_eq (JNum (Account.currencyId goal)) _) eqn:Hsame; [|discriminate].
  cbn [negb] in Hp.
  destruct (buildDepositTx _ _ _ _ _) as [r|e] eqn:Hb; cbn [mbind result_bind] in Hp;
    [|discriminate].
  destruct (serialize_base64 _) as [stx|e]; cbn [mbind result_bind] in Hp; [|discriminate].
  injection Hp as <-.
  destruct (buildDepositTx_Ok _ _ _ _ _ _ Hb) as (amt & cc & Hamt & Hcc & Hm & Ha).
  exists goal, cc, amt. cbn [dr_built dr_depositAmount].
  apply strict_eq_true in Hsame.
  assert (Hid : field body "currencyId" = JNum 0 \/ field body "currencyId" = JNum 1).
  { revert Hcur. unfold validateCurrencyId, strict_eq.
    destruct (decide (field body "currencyId" = JNum 0)) as [->|H0]; [auto|].
    destruct (decide (field body "currencyId" = JNum 1)) as [->|H1]; [auto|].
    rewrite !bool_decide_eq_false_2 by assumption. discriminate. }
  auto 15.
Qed.

(** X5 on alice's deposit of 250 units into her goal *)
Lemma deposit_reply_sound_witness :
  (exists reply,
     post_deposit Devnet.due_ledger (Devnet.deposit_request (JStr "250")) = Json reply) /\
  match post_deposit Devnet.due_ledger (Devnet.deposit_request (JStr "250")) with
  | Json reply =>
      exists amt, BN_new (JStr "250") = Ok amt /\ args (dr_built reply) = [ArgBN amt]
  | Fail _ _ => False
  end.
Proof.
  destruct (post_deposit Devnet.due_ledger (Devnet.deposit_request (JStr "250")))
    as [status e|reply] eqn:Hp.
  - exfalso. revert Hp. vm_compute. discriminate.
  - split; [exists reply; reflexivity|].
    destruct (deposit_reply_sound _ _ _ Hp)
      as (_ & _ & amt & _ & _ & _ & _ & _ & _ & Hamt & _ & Hargs & _).
    exists amt. auto.
Defined.

(** X6: whenever [POST /api/transactions/withdraw] answers with a
    transaction, the goal exists and holds funds, and the answer is of type
    completed only if the deadline is not after the current time and the
    request does not set [early]. For a goal whose amount and interest are
    not negative and sum to a total below 2^53, the answer reports that
    total, a penalty of the total divided by 50 (rounded down) for an early
    withdrawal and of 0 for a completed one, and a final amount of the total
    minus that penalty. *)
Theorem withdraw_reply_amounts `{Platform} svc (now_ms : Z) (body : gmap string jsval) reply :
  post_withdraw svc now_ms body = Json reply ->
  exists goal,
    getGoalAccount svc (field body "walletAddress") (field body "goalIndex") = Ok (Some goal) /\
    currentAmount goal <> 0 /\
    (withdrawalType reply = "completed" \/ withdrawalType reply = "early") /\
    (withdrawalType reply = "completed" ->
     deadline goal <= now_ms / 1000 /\ truthy (field body "early") = false) /\
    let total := currentAmount goal + accruedInterest goal in
    let fee := if String.eqb (withdrawalType reply) "early" then total / 50 else 0 in
    (0 <= currentAmount goal -> 0 <= accruedInterest goal -> total < 2 ^ 53 ->
     wr_totalBeforePenalty reply = Some (Number_of_Z total) /\
     wr_penalty reply = Number_of_Z fee /\
     wr_finalAmount reply = Some (Number_of_Z (total - fee))).
Proof.
  unfold post_withdraw, handle. intros Hp.
  destruct (_ || _); [discriminate|].
  destruct (getGoalAccount svc _ _) as [[goal|]|e] eqn:Hgoal; cbn [mbind result_bind] in Hp;
    try discriminate.
  destruct (Z.eqb_spec (currentAmount goal) 0) as [|Hfunds]; [discriminate|].
  exists goal. split; [reflexivity|]. split; [exact Hfunds|].
  destruct ((now_ms / 1000 <? deadline goal) || truthy (field body "early")) eqn:Hearly.
  - destruct (buildWithdrawEarlyTx _ _ _) as [r|e] eqn:Hb; cbn [mbind result_bind] in Hp;
      [|discriminate].
    destruct (serialize_base64 _) as [stx|e]; cbn [mbind result_bind] in Hp; [|discriminate].
    injection Hp as <-. cbn [withdrawalType wr_totalBeforePenalty wr_penalty wr_finalAmount].
    split; [auto|]. split; [discriminate|].
    cbv zeta. change (String.eqb "early" "early") with true. cbv iota. intros Hc Hi Ht.
    destruct (buildWithdrawEarlyTx_Ok _ _ _ _ Hb) as (goal' & Hgoal' & _ & Hr).
    rewrite Hgoal in Hgoal'. injection Hgoal' as <-. cbv zeta in Hr.
    destruct Hr as (-> & -> & -> & ->). cbn [or_else default from_option id].
    rewrite Number_add_exact by assumption.
    rewrite floor_two_percent by lia.
    assert (Hq : 0 <= (currentAmount goal + accruedInterest goal) / 50
                 <= currentAmount goal + accruedInterest goal).
    { split; [apply Z.div_pos; lia|]. apply Z.div_le_upper_bound; lia. }
    rewrite Number_sub_exact by lia. auto.
  - apply orb_false_iff in Hearly as [Hlt Hflag]. apply Z.ltb_ge in Hlt.
    destruct (buildWithdrawCompletedTx _ _ _) as [r|e] eqn:Hb; cbn [mbind result_bind] in Hp;
      [|discriminate].
    destruct (serialize_base64 _) as [stx|e]; cbn [mbind result_bind] in Hp; [|discriminate].
    injection Hp as <-. cbn [withdrawalType wr_totalBeforePenalty wr_penalty wr_finalAmount].
    split; [auto|]. split; [auto|].
    cbv zeta. change (String.eqb "completed" "early") with false. cbv iota. intros Hc Hi Ht.
    destruct (buildWithdrawCompletedTx_Ok _ _ _ _ Hb) as (goal' & Hgoal' & _ & Hr).
    rewrite Hgoal in Hgoal'. injection Hgoal' as <-.
    destruct Hr as (-> & -> & -> & ->). cbn [or_else default from_option id].
    rewrite Number_add_exact by assumption. rewrite Z.sub_0_r. auto.
Qed.

(** X6 on alice's early withdrawal of the 10000 units of her goal: 200 units
    of penalty, 9800 delivered *)
Lemma withdraw_reply_amounts_witness :
  (exists reply,
     post_withdraw Devnet.due_ledger 1700000001000 (Devnet.withdraw_request (JBool true))
     = Json reply) /\
  match post_withdraw Devnet.due_ledger 1700000001000
          (Devnet.withdraw_request (JBool true)) with
  | Json reply =>
      wr_penalty reply = Number_of_Z 200 /\ wr_finalAmount reply = Some (Number_of_Z 9800)
  | Fail _ _ => False
  end.
Proof.
  destruct (post_withdraw Devnet.due_ledger 1700000001000
              (Devnet.withdraw_request (JBool true))) as [status e|reply] eqn:Hp.
  - exfalso. revert Hp. vm_compute. discriminate.
  - split; [exists reply; reflexivity|].
    destruct (withdraw_reply_amounts _ _ _ _ Hp) as (goal & Hgoal & _ & [Ht|Ht] & Hc & Hamounts).
    + exfalso. destruct (Hc Ht) as [_ Hflag]. revert Hflag. vm_compute. discriminate.
    + assert (Hg : currentAmount goal = 10000 /\ accruedInterest goal = 0).
      { revert Hgoal. vm_compute. intros [= <-]. split; reflexivity. }
      destruct Hg as [Hcur Hint]. cbv zeta in Hamounts. rewrite Ht, Hcur, Hint in Hamounts.
      destruct Hamounts as (_ & Hpen & Hfin); [lia | lia | reflexivity |].
      split; [exact Hpen | exact Hfin].
Defined.

(** X7: whenever [POST /api/users/initialize] answers with a transaction,
    the wallet address is a non-empty string, no user account was found for
    it, and the transaction is an initializeUser instruction, without
    arguments, on the wallet's key, the system program and the user account
    address derived from that key: the address that was just looked up and
    that the answer reports. The wallet pays the fee. *)
Theorem initialize_reply_sound `{Platform} svc (body : gmap string jsval) reply :
  post_initialize svc body = Json reply ->
  getUserAccount svc (field body "walletAddress") = Ok None /\
  exists (w : string) userPubkey userAccountPDA,
    field body "walletAddress" = JStr w /\ w <> "" /\
    PublicKey_new (JStr w) = Ok userPubkey /\
    getUserAccountPDA svc (WVal (JStr w)) = Ok userAccountPDA /\
    ir_userAccount reply = pk_toString userAccountPDA /\
    method (ir_built reply) = "initializeUser" /\
    args (ir_built reply) = [] /\
    accounts (ir_built reply)
      = [("user", userPubkey); ("userAccount", userAccountPDA);
         ("systemProgram", SystemProgram_programId)] /\
    feePayer (ir_built reply) = Some userPubkey.
Proof.
  unfold post_initialize, handle. intros Hp.
  destruct (truthy (field body "walletAddress")) eqn:Hw; [|discriminate]. cbn [negb] in Hp.
  destruct (getUserAccount svc _) as [[ua|]|e] eqn:Hua; cbn [mbind result_bind] in Hp;
    try discriminate.
  split; [reflexivity|].
  destruct (buildInitializeUserTx _ _) as [r|e] eqn:Hb; cbn [mbind result_bind] in Hp;
    [|discriminate].
  destruct (serialize_base64 _) as [stx|e]; cbn [mbind result_bind] in Hp; [|discriminate].
  injection Hp as <-. cbn [ir_userAccount ir_built].
  unfold buildInitializeUserTx in Hb. rewrite rethrow_id in Hb.
  apply bind_Ok_inv in Hb. destruct Hb as (userPubkey & Hk & Hb).
  apply bind_Ok_inv in Hb. destruct Hb as (userAccountPDA & Hpda & Hb).
  apply bind_Ok_inv in Hb. destruct Hb as (tx & Htx & Hb).
  apply bind_Ok_inv in Hb. destruct Hb as (blockhash & _ & Hb).
  injection Hb as <-. destruct (program_methods_Ok _ _ _ _ Htx) as (Hm & Ha & Hacc).
  cbn [iu_userAccount iu_transaction stamp method args accounts feePayer].
  destruct (field body "walletAddress") as [| |b|n|w] eqn:Hfield.
  1-4: exfalso; revert Hua; unfold getUserAccount, getUserAccountPDA, walletPubkey;
       cbn [mbind result_bind null_if_missing includes String.prefix orb]; discriminate.
  exists w, userPubkey, userAccountPDA. split; [reflexivity|]. split.
  { intros ->. discriminate Hw. }
  split; [exact Hk|]. split; [|auto 10].
  unfold getUserAccountPDA, walletPubkey in *. rewrite Hk. exact Hpda.
Qed.

(** X7 on alice, who has no user account yet *)
Lemma initialize_reply_sound_witness :
  (exists reply, post_initialize Devnet.new_user_ledger Devnet.initialize_request = Json reply) /\
  match post_initialize Devnet.new_user_ledger Devnet.initialize_request with
  | Json reply =>
      getUserAccount Devnet.new_user_ledger (JStr Devnet.alice) = Ok None /\
      method (ir_built reply) = "initializeUser"
  | Fail _ _ => False
  end.
Proof.
  destruct (post_initialize Devnet.new_user_ledger Devnet.initialize_request)
    as [status e|reply] eqn:Hp.
  - exfalso. revert Hp. vm_compute. discriminate.
  - split; [exists reply; reflexivity|].
    destruct (initialize_reply_sound _ _ _ Hp) as (Hnone & _ & _ & _ & _ & _ & _ & _ & _ & Hm & _).
    split; [exact Hnone | exact Hm].
Defined.

Lemma sum_amounts_from (amount : GoalAccount string -> Z) (goals : list (GoalAccount string)) :
  forall acc : Z,
    0 <= acc -> Forall (fun g => 0 <= amount g) goals ->
    acc + sum_Z (map amount goals) < 2 ^ 53 ->
    fold_left (fun sum g => Number_add sum (Number_of_Z (amount g))) goals (Number_of_Z acc)
    = Number_of_Z (acc + sum_Z (map amount goals)).
Proof.
  induction goals as [|g goals IH]; intros acc Hacc Hall Hsum; cbn [fold_left map sum_Z fold_right].
  - now rewrite Z.add_0_r.
  - inversion Hall as [|? ? Hg Hrest]; subst. cbn [map sum_Z fold_right] in Hsum.
    fold (sum_Z (map amount goals)) in *.
    assert (Hnn : 0 <= sum_Z (map amount goals)).
    { clear -Hrest. induction Hrest; cbn [map sum_Z fold_right]; [lia|].
      fold (sum_Z (map amount l)). lia. }
    rewrite Number_add_exact by lia. rewrite IH by (auto; lia). f_equal. lia.
Qed.

Lemma filters_disjoint {A : Type} (p q : A -> bool) (l : list A) :
  (forall a, p a = true -> q a = false) ->
  (length (List.filter p l) + length (List.filter q l) <= length l)%nat.
Proof.
  intros Hpq. induction l as [|a l IH]; cbn [List.filter]; [cbn; lia|].
  destruct (p a) eqn:Hp.
  - rewrite (Hpq a Hp). cbn [length]. lia.
  - destruct (q a); cbn [length]; lia.
Qed.

(** X8: whenever [GET /api/users/:address/stats] answers with statistics,
    they are those of the user account and of the goals that [getUserGoals]
    lists for the address: the active and the completed goals are the goals
    of that status, together no more than all goals, and, when no amount is
    negative and their sum is below 2^53, [totalSaved] is exactly the sum of
    the current amounts and [totalInterestEarned] the sum of the accrued
    interests. *)
Theorem stats_totals `{Platform} svc (address : string) reply :
  get_user_stats svc address = Json reply ->
  getUserAccount svc (JStr address) = Ok (Some (st_user reply)) /\
  getUserGoals svc (JStr address) = Ok (st_all reply) /\
  st_totalGoals reply = totalGoalsCreated (st_user reply) /\
  st_active reply = List.filter (fun g => String.eqb (status g) "active") (st_all reply) /\
  st_completed reply
    = List.filter (fun g => String.eqb (status g) "completed") (st_all reply) /\
  (length (st_active reply) + length (st_completed reply) <= length (st_all reply))%nat /\
  (Forall (fun g => 0 <= currentAmount g) (st_all reply) ->
   sum_Z (map currentAmount (st_all reply)) < 2 ^ 53 ->
   st_totalSaved reply = Number_of_Z (sum_Z (map currentAmount (st_all reply)))) /\
  (Forall (fun g => 0 <= accruedInterest g) (st_all reply) ->
   sum_Z (map accruedInterest (st_all reply)) < 2 ^ 53 ->
   st_totalInterestEarned reply = Number_of_Z (sum_Z (map accruedInterest (st_all reply)))).
Proof.
  unfold get_user_stats, handle. intros Hp.
  destruct (getUserAccount svc _) as [[ua|]|e] eqn:Hua; cbn [mbind result_bind] in Hp;
    try discriminate.
  destruct (getUserGoals svc _) as [goals|e] eqn:Hgoals; cbn [mbind result_bind] in Hp;
    [|discriminate].
  injection Hp as <-.
  cbn [st_user st_all st_totalGoals st_active st_completed st_totalSaved st_totalInterestEarned].
  repeat (split; [reflexivity|]). split; [|split].
  - apply filters_disjoint. intros g Hg. apply String.eqb_eq in Hg. now rewrite Hg.
  - intros Hall Hsum. unfold sum_amounts.
    rewrite (sum_amounts_from currentAmount goals 0) by (auto; lia). reflexivity.
  - intros Hall Hsum. unfold sum_amounts.
    rewrite (sum_amounts_from accruedInterest goals 0) by (auto; lia). reflexivity.
Qed.

(** X8 on alice's one goal of 10000 units *)
Lemma stats_totals_witness :
  (exists reply, get_user_stats Devnet.listing_ledger Devnet.alice = Json reply) /\
  match get_user_stats Devnet.listing_ledger Devnet.alice with
  | Json reply =>
      (length (st_active reply) + length (st_completed reply) <= length (st_all reply))%nat
  | Fail _ _ => False
  end.
Proof.
  destruct (get_user_stats Devnet.listing_ledger Devnet.alice) as [status e|reply] eqn:Hp.
  - exfalso. revert Hp. vm_compute. discriminate.
  - split; [exists reply; reflexivity|].
    destruct (stats_totals _ _ _ Hp) as (_ & _ & _ & _ & _ & Hlen & _). exact Hlen.
Defined.

(** ** Reading goals through the routes *)




(** the numbers that [parseInt] returns on index texts: exact below 2^53,
    the nearest binary64 beyond, Infinity from 2^1024 on; alice's only goal,
    at index 0, is served for 2^53 + 1, and index 1 is not found *)
Lemma index_arg_examples :
  index_arg (parseInt "7") = JNum 7 /\
  index_arg (parseInt "-3") = JNum (-3) /\
  index_arg (parseInt "9007199254740993") = JNum 9007199254740992 /\
  index_arg (Some (2 ^ 1024)) = JNum 0 /\
  (exists details,
     get_goal Devnet.listing_ledger 1700000001000 Devnet.alice "9007199254740993"
     = Json details) /\
  get_goal Devnet.listing_ledger 1700000001000 Devnet.alice "1" = Fail 404 "Goal not found".
Proof.
  split; [vm_compute; reflexivity|]. split; [vm_compute; reflexivity|].
  split; [vm_compute; reflexivity|]. split; [vm_compute; reflexivity|].
  split; [|vm_compute; reflexivity].
  destruct (get_goal Devnet.listing_ledger 1700000001000 Devnet.alice "9007199254740993")
    as [status e|details] eqn:Hd; [exfalso; revert Hd; vm_compute; discriminate|].
  now exists details.
Qed.

Lemma get_goal_Json `{Platform} svc (now_ms : Z) (address goalIndex : string) reply :
  get_goal svc now_ms address goalIndex = Json reply ->
  getGoalAccount svc (JStr address) (index_arg (parseInt goalIndex))
    = Ok (Some (eg_goal (gr_goal reply))) /\
  isExpired reply = (deadline (eg_goal (gr_goal reply)) <? now_ms / 1000) /\
  canWithdrawWithoutPenalty reply = isExpired reply.
Proof.
  unfold get_goal, handle. intros Hp.
  destruct (getGoalAccount svc _ _) as [[goal|]|e]; cbn [mbind result_bind] in Hp;
    try discriminate.
  unfold enrich in Hp. destruct (_ || _ || _); cbn [mbind result_bind] in Hp; [discriminate|].
  injection Hp as <-. auto.
Qed.

(** X10: the goal route and the withdrawal route read the deadline
    differently. When the goal route reports [canWithdrawWithoutPenalty] for
    a goal, a withdrawal of that goal requested at the same time without the
    [early] flag is built as a completed one. The converse fails exactly at
    the deadline: when the deadline equals the current time in seconds, the
    goal route reports that the goal cannot be withdrawn without penalty,
    and the withdrawal is built as a completed one all the same. The
    withdrawal names the goal by the number that the index text of the goal
    route parses to. *)
Theorem goal_details_and_withdrawal `{Platform} svc (now_ms : Z)
    (address goalIndex : string) (body : gmap string jsval) details reply :
  field body "walletAddress" = JStr address ->
  field body "goalIndex" = index_arg (parseInt goalIndex) ->
  truthy (field body "early") = false ->
  get_goal svc now_ms address goalIndex = Json details ->
  post_withdraw svc now_ms body = Json reply ->
  (canWithdrawWithoutPenalty details = true -> withdrawalType reply = "completed") /\
  (canWithdrawWithoutPenalty details = false /\ withdrawalType reply = "completed" <->
   deadline (eg_goal (gr_goal details)) = now_ms / 1000).
Proof.
  intros Hw Hg Hflag Hd Hp.
  destruct (get_goal_Json _ _ _ _ _ Hd) as (Hgoal & Hexp & ->). rewrite Hexp. clear Hexp.
  rewrite <- Hg in Hgoal.
  set (goal := eg_goal (gr_goal details)) in *.
  revert Hp. unfold post_withdraw, handle. rewrite Hw, Hflag, Hgoal.
  destruct (_ || _); [discriminate|]. cbn [mbind result_bind].
  destruct (currentAmount goal =? 0); [discriminate|].
  rewrite orb_false_r.
  destruct (Z.ltb_spec (now_ms / 1000) (deadline goal)) as [Hlt|Hge].
  - destruct (buildWithdrawEarlyTx _ _ _) as [r|e]; cbn [mbind result_bind]; [|discriminate].
    destruct (serialize_base64 _); cbn [mbind result_bind]; [|discriminate].
    intros [= <-]. cbn [withdrawalType]. split.
    + intros Hc. apply Z.ltb_lt in Hc. lia.
    + split; [intros [_ Hc]; discriminate Hc | lia].
  - destruct (buildWithdrawCompletedTx _ _ _) as [r|e]; cbn [mbind result_bind]; [|discriminate].
    destruct (serialize_base64 _); cbn [mbind result_bind]; [|discriminate].
    intros [= <-]. cbn [withdrawalType]. split; [reflexivity|]. split.
    + intros [Hc _]. apply Z.ltb_ge in Hc. lia.
    + intros Heq. split; [apply Z.ltb_ge; lia | reflexivity].
Qed.

(** X10 at the very second of the deadline of alice's goal *)
Lemma goal_details_and_withdrawal_witness :
  (field (Devnet.withdraw_request JUndefined) "walletAddress" = JStr Devnet.alice /\
   field (Devnet.withdraw_request JUndefined) "goalIndex" = index_arg (parseInt "0") /\
   truthy (field (Devnet.withdraw_request JUndefined) "early") = false /\
   (exists details, get_goal Devnet.due_ledger 1700000000000 Devnet.alice "0" = Json details) /\
   (exists reply,
      post_withdraw Devnet.due_ledger 1700000000000 (Devnet.withdraw_request JUndefined)
      = Json reply)) /\
  match get_goal Devnet.due_ledger 1700000000000 Devnet.alice "0",
        post_withdraw Devnet.due_ledger 1700000000000 (Devnet.withdraw_request JUndefined) with
  | Json details, Json reply =>
      canWithdrawWithoutPenalty details = false /\ withdrawalType reply = "completed"
  | _, _ => False
  end.
Proof.
  assert (H2 : field (Devnet.withdraw_request JUndefined) "walletAddress" = JStr Devnet.alice)
    by reflexivity.
  assert (H3 : field (Devnet.withdraw_request JUndefined) "goalIndex"
               = index_arg (parseInt "0"))
    by (vm_compute; reflexivity).
  assert (H4 : truthy (field (Devnet.withdraw_request JUndefined) "early") = false)
    by reflexivity.
  destruct (get_goal Devnet.due_ledger 1700000000000 Devnet.alice "0")
    as [status e|details] eqn:Hd; [exfalso; revert Hd; vm_compute; discriminate|].
  destruct (post_withdraw Devnet.due_ledger 1700000000000 (Devnet.withdraw_request JUndefined))
    as [status e|reply] eqn:Hp; [exfalso; revert Hp; vm_compute; discriminate|].
  split.
  { split; [exact H2|]. split; [exact H3|]. split; [exact H4|].
    split; [exists details | exists reply]; reflexivity. }
  apply (goal_details_and_withdrawal _ _ _ _ _ _ _ H2 H3 H4 Hd Hp).
  destruct (get_goal_Json _ _ _ _ _ Hd) as (Hgoal & _).
  revert Hgoal. generalize (eg_goal (gr_goal details)). intros goal.
  vm_compute. intros [= <-]. reflexivity.
Defined.

(** X11: the route [GET /currencies/all] of the goals router is never
    reached. It is registered after [GET /:address/:goalIndex], which
    matches every path of two non-empty segments, so a request for
    [/currencies/all] is served by the goal handler with the address
    "currencies" and the index "all"; as "currencies" is not a public key,
    the answer is the status 500. *)
Theorem currencies_route_shadowed `{Platform} svc (now_ms : Z) (status : option query_value) :
  (forall path reply, goals_get svc now_ms status path <> Some (Currencies reply)) /\
  goals_get svc now_ms status ["currencies"; "all"]
    = Some (GoalDetails (get_goal svc now_ms "currencies" "all")) /\
  (forall error,
     PublicKey_new (JStr "currencies") = Throw error ->
     includes error "Account does not exist" = false ->
     goals_get svc now_ms status ["currencies"; "all"]
       = Some (GoalDetails (Fail 500 "Internal server error"))).
Proof.
  assert (Hroute : goals_get svc now_ms status ["currencies"; "all"]
                   = Some (GoalDetails (get_goal svc now_ms "currencies" "all")))
    by reflexivity.
  split; [|split; [exact Hroute|]].
  - intros path reply. unfold goals_get, goals_get_routes.
    destruct path as [|a [|b [|c rest]]]; cbn [dispatch match_path];
      change (lower_string "user") with "user";
      change (lower_string "currencies") with "currencies";
      change (lower_string "all") with "all".
    + discriminate.
    + destruct (String.eqb (lower_string a) "user"); destruct (String.eqb a "");
        cbn [option_map]; cbv beta iota; try discriminate;
        destruct (String.eqb (lower_string a) "currencies"); cbv beta iota; discriminate.
    + destruct (String.eqb_spec b "") as [->|Hb].
      * cbn [lower_string String.eqb]. cbn [option_map].
        destruct (String.eqb (lower_string a) "user"); destruct (String.eqb a "");
          destruct (String.eqb (lower_string a) "currencies"); cbv beta iota; discriminate.
      * destruct (String.eqb_spec a "") as [->|Ha].
        -- cbn [lower_string String.eqb]. cbv beta iota. discriminate.
        -- cbn [option_map].
           destruct (String.eqb (lower_string a) "user"); cbv beta iota; discriminate.
    + destruct (String.eqb (lower_string a) "user"); destruct (String.eqb a "");
        destruct (String.eqb b ""); destruct (String.eqb c "");
        destruct (String.eqb (lower_string a) "currencies");
        destruct (String.eqb (lower_string b) "all");
        cbn [option_map]; cbv beta iota; discriminate.
  - intros error Hk Hmsg. rewrite Hroute. do 2 f_equal.
    unfold get_goal, handle, getGoalAccount, getGoalAccountPDA, walletPubkey.
    rewrite Hk. cbn [mbind result_bind null_if_missing]. rewrite Hmsg. reflexivity.
Qed.

(** X11 on a ledger where both currencies are configured *)
Lemma currencies_route_shadowed_witness :
  (PublicKey_new (JStr "currencies") = Throw "Invalid public key input" /\
   includes "Invalid public key input" "Account does not exist" = false) /\
  goals_get Devnet.listing_ledger 1700000001000 None ["currencies"; "all"]
  = Some (GoalDetails (Fail 500 "Internal server error")).
Proof.
  assert (H1 : PublicKey_new (JStr "currencies") = Throw "Invalid public key input")
    by (vm_compute; reflexivity).
  assert (H2 : includes "Invalid public key input" "Account does not exist" = false)
    by (vm_compute; reflexivity).
  split; [auto|].
  exact (proj2 (proj2 (currencies_route_shadowed Devnet.listing_ledger 1700000001000 None))
           _ H1 H2).
Defined.

Lemma map_result_Ok {A B : Type} (f : A -> result B) (l : list A) :
  forall bs, map_result f l = Ok bs <-> Forall2 (fun a b => f a = Ok b) l bs.
Proof.
  induction l as [|a l IH]; intros bs; cbn [map_result].
  - split; [intros [= <-]; constructor | intros Hf; inversion Hf; reflexivity].
  - split.
    + intros Hb. apply bind_Ok_inv in Hb as (b & Hfa & Hb).
      apply bind_Ok_inv in Hb as (bs' & Hrest & Hb). injection Hb as <-.
      constructor; [exact Hfa | now apply IH].
    + intros Hf. inversion Hf as [|? b ? bs' Hfa Hrest]; subst.
      rewrite Hfa. cbn [mbind result_bind]. apply IH in Hrest. rewrite Hrest. reflexivity.
Qed.

Lemma enrich_Ok `{Platform} (goal : GoalAccount string) e :
  enrich goal = Ok e ->
  eg_goal e = goal /\
  Date_valid_seconds (JNum (createdAt goal)) = true /\
  Date_valid_seconds (JNum (deadline goal)) = true /\
  lastDepositDate_valid goal = true.
Proof.
  unfold enrich.
  destruct (Date_valid_seconds (JNum (createdAt goal)));
    destruct (Date_valid_seconds (JNum (deadline goal)));
    destruct (lastDepositDate_valid goal); cbn [negb orb]; try discriminate.
  intros [= <-]. auto.
Qed.

(** the goals that the listing enriches are also fit for the history *)
Lemma enriched_goals `{Platform} (goals : list (GoalAccount string)) :
  forall listed,
    map_result enrich goals = Ok listed ->
    map eg_goal listed = goals /\
    exists history,
      map_result history_entry goals = Ok history /\
      map he_goalIndex history = map goalIndex goals.
Proof.
  induction goals as [|g goals IH]; intros listed; cbn [map_result].
  - intros [= <-]. split; [reflexivity|]. exists []. auto.
  - intros Hb. apply bind_Ok_inv in Hb as (e & He & Hb).
    apply bind_Ok_inv in Hb as (rest & Hrest & Hb). injection Hb as <-.
    destruct (IH _ Hrest) as (Hmap & history & Hh & Hidx).
    destruct (enrich_Ok _ _ He) as (Hg & Hc & _ & Hl).
    split; [cbn [map]; congruence|].
    assert (Hentry : exists entry, history_entry g = Ok entry /\ he_goalIndex entry = goalIndex g).
    { unfold history_entry. rewrite Hc, Hl. cbn [negb orb]. eauto. }
    destruct Hentry as (entry & Hentry & Hi). exists (entry :: history).
    rewrite Hentry, Hh. cbn [mbind result_bind]. split; [reflexivity|].
    cbn [map]. congruence.
Qed.

(** X12: whenever [GET /api/goals/user/:address] answers with a list, the
    list holds, in the order of [getUserGoals], all goals of the address when
    no [status] is given or it is empty, exactly the goals of that status
    when [status] is a non-empty string, and nothing when [status] is
    repeated or bracketed in the query. *)
Theorem goal_listing_filter `{Platform} svc (address : string) (status : option query_value)
    listed :
  get_user_goals svc address status = Json listed ->
  exists goals,
    getUserGoals svc (JStr address) = Ok goals /\
    (length listed <= length goals)%nat /\
    (status = None \/ status = Some (QStr "") -> map eg_goal listed = goals) /\
    (forall s, status = Some (QStr s) -> s <> "" ->
       map eg_goal listed = List.filter (fun g => String.eqb (Account.status g) s) goals /\
       Forall (fun e => Account.status (eg_goal e) = s) listed) /\
    (status = Some QMany -> listed = []).
Proof.
  unfold get_user_goals, handle. intros Hp.
  destruct (getUserGoals svc _) as [goals|e]; cbn [mbind result_bind] in Hp; [|discriminate].
  exists goals. split; [reflexivity|].
  destruct (map_result enrich _) as [l|e] eqn:Hl; cbn [mbind result_bind] in Hp;
    [|discriminate].
  injection Hp as <-. apply enriched_goals in Hl as (Hmap & _).
  assert (Hlen : forall p, (length (List.filter p goals) <= length goals)%nat).
  { intros p. clear. induction goals as [|g goals IH]; cbn [List.filter]; [lia|].
    destruct (p g); cbn [length]; lia. }
  split.
  { rewrite <- (length_map eg_goal), Hmap.
    destruct status as [[s|]|]; [destruct (String.eqb s "")|..]; auto. }
  split; [|split].
  - intros [->| ->]; exact Hmap.
  - intros s -> Hs. apply String.eqb_neq in Hs. rewrite Hs in Hmap. split; [exact Hmap|].
    apply List.Forall_forall. intros e He.
    assert (Hin : In (eg_goal e) (map eg_goal l)) by (apply in_map, He).
    rewrite Hmap in Hin. apply filter_In in Hin as [_ Hst]. now apply String.eqb_eq in Hst.
  - intros ->. destruct l; [reflexivity|].
    exfalso. assert (Hnil : List.filter (fun _ : GoalAccount string => false) goals = []).
    { clear. induction goals; auto. }
    rewrite Hnil in Hmap. discriminate Hmap.
Qed.

(** X12 on alice's goals, filtered by the status "completed": her one goal
    is active, the list is empty *)
Lemma goal_listing_filter_witness :
  (exists listed,
     get_user_goals Devnet.listing_ledger Devnet.alice (Some (QStr "completed")) = Json listed) /\
  match get_user_goals Devnet.listing_ledger Devnet.alice (Some (QStr "completed")) with
  | Json listed => Forall (fun e => Account.status (eg_goal e) = "completed") listed
  | Fail _ _ => False
  end.
Proof.
  destruct (get_user_goals Devnet.listing_ledger Devnet.alice (Some (QStr "completed")))
    as [status e|listed] eqn:Hp.
  - exfalso. revert Hp. vm_compute. discriminate.
  - split; [exists listed; reflexivity|].
    destruct (goal_listing_filter _ _ _ _ Hp) as (goals & _ & _ & _ & Hs & _).
    apply (Hs "completed" eq_refl). discriminate.
Defined.

(** X13: whenever the unfiltered goal listing of an address answers, so does
    its transaction history, with one entry for each listed goal, in the
    same order: the history converts two of the three dates that the listing
    converts. *)
Theorem listing_implies_history `{Platform} svc (address : string) listed :
  get_user_goals svc address None = Json listed ->
  exists history,
    get_history svc address = Json history /\
    map he_goalIndex history = map (fun e => goalIndex (eg_goal e)) listed.
Proof.
  unfold get_user_goals, get_history, handle. intros Hp.
  destruct (getUserGoals svc _) as [goals|e]; cbn [mbind result_bind] in Hp |- *; [|discriminate].
  destruct (map_result enrich _) as [l|e] eqn:Hl; cbn [mbind result_bind] in Hp;
    [|discriminate].
  injection Hp as <-. apply enriched_goals in Hl as (Hmap & history & Hh & Hidx).
  exists history. rewrite Hh. cbn [mbind result_bind]. split; [reflexivity|].
  rewrite Hidx, <- Hmap, map_map. reflexivity.
Qed.

(** X13 on alice's goals *)
Lemma listing_implies_history_witness :
  (exists listed, get_user_goals Devnet.listing_ledger Devnet.alice None = Json listed) /\
  exists history, get_history Devnet.listing_ledger Devnet.alice = Json history.
Proof.
  destruct (get_user_goals Devnet.listing_ledger Devnet.alice None) as [status e|listed] eqn:Hp.
  - exfalso. revert Hp. vm_compute. discriminate.
  - split; [exists listed; reflexivity|].
    destruct (listing_implies_history _ _ _ Hp) as (history & Hh & _). exists history. exact Hh.
Defined.

(** ** The faucet *)

Lemma buildClaimFaucetTx_Ok `{Platform} svc (userWallet tokenMint : jsval) r :
  buildClaimFaucetTx svc userWallet tokenMint = Ok r ->
  exists tokenMintPubkey,
    PublicKey_new tokenMint = Ok tokenMintPubkey /\
    method (cf_transaction r) = "claimTokens" /\
    args (cf_transaction r) = [] /\
    In ("tokenMint", tokenMintPubkey) (accounts (cf_transaction r)).
Proof.
  unfold buildClaimFaucetTx. rewrite rethrow_id. intros Hb.
  apply bind_Ok_inv in Hb. destruct Hb as (userPubkey & _ & Hb).
  apply bind_Ok_inv in Hb. destruct Hb as (tokenMintPubkey & Hmint & Hb).
  apply bind_Ok_inv in Hb. destruct Hb as (faucetConfigPDA & _ & Hb).
  apply bind_Ok_inv in Hb. destruct Hb as (userFaucetAccountPDA & _ & Hb).
  apply bind_Ok_inv in Hb. destruct Hb as (userTokenAccount & _ & Hb).
  apply bind_Ok_inv in Hb. destruct Hb as (faucetTokenAccount & _ & Hb).
  apply bind_Ok_inv in Hb. destruct Hb as (tx & Htx & Hb).
  apply bind_Ok_inv in Hb. destruct Hb as (blockhash & _ & Hb).
  injection Hb as <-. destruct (program_methods_Ok _ _ _ _ Htx) as (Hm & Ha & Hacc).
  exists tokenMintPubkey. cbn [cf_transaction stamp method args accounts].
  rewrite Hm, Ha, Hacc. repeat split; auto. cbn. auto.
Qed.

(** X14: whenever [POST /api/transactions/faucet/claim] answers with a
    transaction, the faucet is enabled in the environment, the wallet is
    within its limits if it has a faucet account, and the transaction is a
    claimTokens instruction on the key of the token mint that the request
    names, or, when it names none, on the base token mint configured for the
    request's currency id: a [tokenMint] in the request takes precedence
    over its [currencyId]. *)
Theorem faucet_reply_sound `{Platform} svc env (now_ms : Z) (body : gmap string jsval) reply :
  post_faucet_claim svc env now_ms body = Json reply ->
  env !! "FAUCET_ENABLED" = Some "true" /\
  exists mintAddress tokenMintPubkey faucetConfig,
    (if truthy (field body "tokenMint") then mintAddress = field body "tokenMint"
     else exists currencyConfig,
            getCurrencyConfig svc (field body "currencyId") = Ok currencyConfig /\
            mintAddress = JStr (baseTokenMint currencyConfig)) /\
    truthy mintAddress = true /\
    PublicKey_new mintAddress = Ok tokenMintPubkey /\
    method (fr_built reply) = "claimTokens" /\
    args (fr_built reply) = [] /\
    In ("tokenMint", tokenMintPubkey) (accounts (fr_built reply)) /\
    getFaucetConfig svc = Ok faucetConfig /\
    fr_amount reply = option_map amountPerClaim faucetConfig /\
    match getUserFaucetAccount svc (field body "walletAddress") with
    | Ok (Some userFaucetAccount) =>
        3600 <= now_ms / 1000 - lastClaimTime userFaucetAccount /\
        claimsToday userFaucetAccount < 10
    | Ok None => True
    | Throw _ => False
    end.
Proof.
  unfold post_faucet_claim, handle. intros Hp.
  destruct (truthy (field body "walletAddress")); [|discriminate]. cbn [negb] in Hp.
  destruct (mintAddress_of svc _ _) as [mintAddress|e] eqn:Hmint; cbn [mbind result_bind] in Hp;
    [|discriminate].
  destruct (truthy mintAddress) eqn:Htruthy; [|discriminate]. cbn [negb] in Hp.
  destruct (bool_decide (env !! "FAUCET_ENABLED" = Some "true")) eqn:Henabled; [|discriminate].
  cbn [negb] in Hp. apply bool_decide_eq_true_1 in Henabled. split; [exact Henabled|].
  assert (Hresolved :
    if truthy (field body "tokenMint") then mintAddress = field body "tokenMint"
    else exists currencyConfig,
           getCurrencyConfig svc (field body "currencyId") = Ok currencyConfig /\
           mintAddress = JStr (baseTokenMint currencyConfig)).
  { revert Hmint. unfold mintAddress_of.
    destruct (truthy (field body "tokenMint")) eqn:Htm; cbn [negb andb].
    - now intros [= <-].
    - destruct (strict_eq (field body "currencyId") JUndefined); cbn [negb].
      + intros [= <-]. rewrite Htm in Htruthy. discriminate.
      + intros Hb. apply bind_Ok_inv in Hb as (cc & Hcc & Hb). injection Hb as <-. eauto. }
  destruct (getUserFaucetAccount svc _) as [ufa|e]; cbn [mbind result_bind] in Hp;
    [|discriminate].
  assert (Hlimits :
    match ufa with
    | Some userFaucetAccount =>
        3600 <= now_ms / 1000 - lastClaimTime userFaucetAccount /\
        claimsToday userFaucetAccount < 10
    | None => True
    end /\
    (result ← buildClaimFaucetTx svc (field body "walletAddress") mintAddress;
     serializedTx ← serialize_base64 (cf_transaction result);
     faucetConfig ← getFaucetConfig svc;
     Ok (Json {| fr_transaction := serializedTx;
                 fr_built := cf_transaction result;
                 fr_userTokenAccount := cf_userTokenAccount result;
                 fr_amount := option_map amountPerClaim faucetConfig |}))
    = Ok (Json reply)).
  { destruct ufa as [acct|];
      [|destruct (_ ≫= _) as [r|]; [subst r; auto | discriminate]].
    destruct (Z.ltb_spec (now_ms / 1000 - lastClaimTime acct) 3600); [discriminate|].
    destruct (Z.leb_spec 10 (claimsToday acct)); [discriminate|].
    destruct (_ ≫= _) as [r|]; [subst r; auto | discriminate]. }
  destruct Hlimits as [Hlimits Hb]. clear Hp.
  apply bind_Ok_inv in Hb as (r & Hbuild & Hb).
  apply bind_Ok_inv in Hb as (stx & _ & Hb).
  apply bind_Ok_inv in Hb as (faucetConfig & Hfc & Hb). injection Hb as <-.
  destruct (buildClaimFaucetTx_Ok _ _ _ _ Hbuild) as (tokenMintPubkey & Hk & Hm & Ha & Hacc).
  exists mintAddress, tokenMintPubkey, faucetConfig. cbn [fr_built fr_amount]. auto 15.
Qed.

(** X14 on alice's claim two hours after her last one, the third of the day *)
Lemma faucet_reply_sound_witness :
  (exists reply,
     post_faucet_claim (Devnet.faucet_ledger (1700000000 - 7200) 2) Devnet.faucet_env
       1700000000000 Devnet.faucet_request = Json reply) /\
  match post_faucet_claim (Devnet.faucet_ledger (1700000000 - 7200) 2) Devnet.faucet_env
          1700000000000 Devnet.faucet_request with
  | Json reply =>
      Devnet.faucet_env !! "FAUCET_ENABLED" = Some "true" /\
      method (fr_built reply) = "claimTokens"
  | Fail _ _ => False
  end.
Proof.
  destruct (post_faucet_claim (Devnet.faucet_ledger (1700000000 - 7200) 2) Devnet.faucet_env
              1700000000000 Devnet.faucet_request) as [status e|reply] eqn:Hp.
  - exfalso. revert Hp. vm_compute. discriminate.
  - split; [exists reply; reflexivity|].
    destruct (faucet_reply_sound _ _ _ _ _ Hp) as (Hen & _ & _ & _ & _ & _ & _ & Hm & _).
    split; [exact Hen | exact Hm].
Defined.

(** ** Authentication, the other way round *)

Lemma str_truthy_inv (o : option string) :
  str_truthy o = true -> exists s, o = Some s /\ s <> "".
Proof.
  destruct o as [s|]; cbn; [|discriminate]. intros Hs. exists s. split; [reflexivity|].
  now apply String.eqb_neq, negb_true_iff.
Qed.

(** every outcome of the middleware in full mode *)
Lemma full_mode_outcomes `{Platform} env (now_ms : Z) req :
  env !! "SIMPLE_AUTH" <> Some "true" ->
  (exists e, verifyWalletSignature env now_ms req = Rejected 401 e) \/
  (exists w pk,
    signed_by req w pk /\ fresh now_ms req /\
    verifyWalletSignature env now_ms req
    = (if str_truthy (params req !! "address")
          && negb (bool_decide (params req !! "address" = Some w))
       then Rejected 403 "Forbidden"
       else if truthy (field (body req) "walletAddress")
               && negb (strict_eq (field (body req) "walletAddress") (JStr w))
       then Rejected 403 "Forbidden"
       else Authenticated w pk)) \/
  exists w pk sig sigBytes msg error,
    headers req !! "x-wallet-address" = Some w /\ PublicKey_new (JStr w) = Ok pk /\
    headers req !! "x-signature" = Some sig /\ bs58_decode sig = Ok sigBytes /\
    headers req !! "x-message" = Some msg /\
    nacl_sign_detached_verify (Buffer_from_string msg) sigBytes (pk_toBuffer pk) = Throw error /\
    verifyWalletSignature env now_ms req = Rejected 500 "Authentication failed".
Proof.
  intros Hmode. unfold verifyWalletSignature. cbv zeta.
  rewrite (bool_decide_eq_false_2 _ Hmode).
  destruct (str_truthy (headers req !! "x-wallet-address")) eqn:Hw; [|left; eauto].
  destruct (str_truthy (headers req !! "x-signature")) eqn:Hs; [|left; eauto].
  destruct (str_truthy (headers req !! "x-message")) eqn:Hm; [|left; eauto].
  destruct (str_truthy (headers req !! "x-timestamp")) eqn:Ht; [|left; eauto].
  cbn [negb orb].
  apply str_truthy_inv in Hw as (w & Hw & Hw0). apply str_truthy_inv in Hs as (sig & Hs & Hs0).
  apply str_truthy_inv in Hm as (msg & Hm & Hm0). apply str_truthy_inv in Ht as (ts & Ht & _).
  rewrite Hw, Hs, Hm, Ht. cbn [default from_option id].
  destruct (parseInt ts) as [t|] eqn:Hparse; [|left; eauto].
  destruct (Z.ltb_spec (5 * 60 * 1000) (Z.abs (now_ms - t))) as [|Hwin]; [left; eauto|].
  destruct (PublicKey_new (JStr w)) as [pk|] eqn:Hpk; [|left; eauto].
  destruct (bs58_decode sig) as [sigBytes|] eqn:Hdec; [|left; eauto].
  destruct (nacl_sign_detached_verify _ _ _) as [[|]|error] eqn:Hver; cbn [mbind result_bind negb].
  - right. left. exists w, pk. split; [|split].
    + unfold signed_by. eauto 15.
    + exists ts, t. repeat split; auto; lia.
    + destruct (_ && _); [reflexivity|]. destruct (_ && _); reflexivity.
  - left; eauto.
  - right. right. exists w, pk, sig, sigBytes, msg, error. auto 10.
Qed.

Lemma names_other_wallet_dec (req : Request) (w : string) :
  (str_truthy (params req !! "address")
   && negb (bool_decide (params req !! "address" = Some w))) = true \/
  (truthy (field (body req) "walletAddress")
   && negb (strict_eq (field (body req) "walletAddress") (JStr w))) = true
  <-> names_other_wallet req w.
Proof.
  unfold names_other_wallet, strict_eq. split.
  - intros [Hp|Hb].
    + left. apply andb_true_iff in Hp as [Hp Hne]. apply str_truthy_inv in Hp as (a & Ha & Ha0).
      exists a. repeat split; auto. apply negb_true_iff, bool_decide_eq_false_1 in Hne.
      intros ->. auto.
    + right. apply andb_true_iff in Hb as [Hb Hne]. split; [exact Hb|].
      now apply negb_true_iff, bool_decide_eq_false_1 in Hne.
  - intros [(a & Ha & Ha0 & Hne)|(Hb & Hne)].
    + left. rewrite Ha. rewrite (str_truthy_Some _ Ha0). cbn [andb].
      apply negb_true_iff, bool_decide_eq_false_2. congruence.
    + right. rewrite Hb. cbn [andb]. now apply negb_true_iff, bool_decide_eq_false_2.
Qed.

(** X15: in full mode the middleware passes a request on as authenticated
    only if it carries the wallet, a message and a signature of that message
    which verifies under the wallet's key, its time stamp lies within five
    minutes of the clock, and neither its route nor its body names another
    wallet. *)
Theorem authenticated_in_full_mode `{Platform} env (now_ms : Z) req w pk :
  env !! "SIMPLE_AUTH" <> Some "true" ->
  verifyWalletSignature env now_ms req = Authenticated w pk ->
  signed_by req w pk /\ fresh now_ms req /\ ~ names_other_wallet req w.
Proof.
  intros Hmode Hv.
  destruct (full_mode_outcomes env now_ms req Hmode)
    as [(e & He) | [(w' & pk' & Hs & Hf & He) | (? & ? & ? & ? & ? & ? & _ & _ & _ & _ & _ & _ & He)]];
    rewrite He in Hv; try discriminate.
  destruct (_ && _) eqn:Hp in Hv; [discriminate|].
  destruct (_ && _) eqn:Hb in Hv; [discriminate|].
  injection Hv as <- <-. split; [exact Hs|]. split; [exact Hf|].
  rewrite <- names_other_wallet_dec. intros [Hp'|Hb']; congruence.
Qed.

(** X15 on alice's signed request for her own wallet *)
Lemma authenticated_in_full_mode_witness :
  (Devnet.full_env !! "SIMPLE_AUTH" <> Some "true" /\
   verifyWalletSignature Devnet.full_env 1700000000000
     (Devnet.signed_request "1700000000000" Devnet.alice)
   = Authenticated Devnet.alice (Devnet.key Devnet.alice)) /\
  signed_by (Devnet.signed_request "1700000000000" Devnet.alice) Devnet.alice
    (Devnet.key Devnet.alice) /\
  fresh 1700000000000 (Devnet.signed_request "1700000000000" Devnet.alice).
Proof.
  assert (H1 : Devnet.full_env !! "SIMPLE_AUTH" <> Some "true") by (vm_compute; discriminate).
  assert (H2 : verifyWalletSignature Devnet.full_env 1700000000000
                 (Devnet.signed_request "1700000000000" Devnet.alice)
               = Authenticated Devnet.alice (Devnet.key Devnet.alice))
    by (vm_compute; reflexivity).
  split; [auto|].
  destruct (authenticated_in_full_mode _ _ _ _ _ H1 H2) as (Hs & Hf & _). auto.
Defined.

(** X16: the middleware rejects with 401, 403 or 500 only. It answers 403
    only in full mode, to a request whose signature has verified and whose
    time stamp is fresh, and which names another wallet; it answers 500 only
    in full mode, when the signature check itself throws, as it does on a
    signature of the wrong length. In simplified mode every rejection is a
    401. *)
Theorem rejection_statuses `{Platform} env (now_ms : Z) req status e :
  verifyWalletSignature env now_ms req = Rejected status e ->
  (status = 401 \/ status = 403 \/ status = 500) /\
  (status = 403 ->
   env !! "SIMPLE_AUTH" <> Some "true" /\
   exists w pk, signed_by req w pk /\ fresh now_ms req /\ names_other_wallet req w) /\
  (status = 500 ->
   env !! "SIMPLE_AUTH" <> Some "true" /\
   exists w pk sig sigBytes msg error,
     headers req !! "x-wallet-address" = Some w /\ PublicKey_new (JStr w) = Ok pk /\
     headers req !! "x-signature" = Some sig /\ bs58_decode sig = Ok sigBytes /\
     headers req !! "x-message" = Some msg /\
     nacl_sign_detached_verify (Buffer_from_string msg) sigBytes (pk_toBuffer pk)
       = Throw error).
Proof.
  intros Hv. destruct (decide (env !! "SIMPLE_AUTH" = Some "true")) as [Hmode|Hmode].
  - assert (Hs : status = 401).
    { revert Hv. unfold verifyWalletSignature. cbv zeta.
      rewrite (bool_decide_eq_true_2 _ Hmode).
      destruct (_ || _); [now intros [= <- _]|].
      destruct (PublicKey_new _); [|now intros [= <- _]].
      destruct (parseInt _); [discriminate | now intros [= <- _]]. }
    subst status. split; [auto|]. split; discriminate.
  - destruct (full_mode_outcomes env now_ms req Hmode)
      as [(e' & He) | [(w & pk & Hs & Hf & He) | (w & pk & sig & sigBytes & msg & error & He)]].
    + rewrite He in Hv. injection Hv as <- _. split; [auto|]. split; discriminate.
    + assert (Hn : status = 403 /\ names_other_wallet req w).
      { rewrite He in Hv. rewrite <- names_other_wallet_dec.
        destruct (_ && _) eqn:Hp in Hv; [injection Hv as <- _; auto|].
        destruct (_ && _) eqn:Hb in Hv; [injection Hv as <- _; auto | discriminate]. }
      destruct Hn as [-> Hn]. split; [auto|]. split; [|discriminate].
      intros _. split; [exact Hmode|]. exists w, pk. auto.
    + destruct He as (Hw & Hpk & Hsig & Hdec & Hmsg & Hver & He).
      rewrite He in Hv. injection Hv as <- _. split; [auto|]. split; [discriminate|].
      intros _. split; [exact Hmode|]. exists w, pk, sig, sigBytes, msg, error. auto 10.
Qed.

(** X16 on alice's signed request for bob's wallet *)
Lemma rejection_statuses_witness :
  verifyWalletSignature Devnet.full_env 1700000000000
    (Devnet.signed_request "1700000000000" Devnet.bob)
  = Rejected 403 "Forbidden" /\
  exists w pk,
    signed_by (Devnet.signed_request "1700000000000" Devnet.bob) w pk /\
    names_other_wallet (Devnet.signed_request "1700000000000" Devnet.bob) w.
Proof.
  assert (H1 : verifyWalletSignature Devnet.full_env 1700000000000
                 (Devnet.signed_request "1700000000000" Devnet.bob)
               = Rejected 403 "Forbidden")
    by (vm_compute; reflexivity).
  split; [exact H1|].
  destruct (rejection_statuses _ _ _ _ _ H1) as (_ & H403 & _).
  destruct (H403 eq_refl) as (_ & w & pk & Hs & _ & Hn). exists w, pk. auto.
Defined.

(** X17: in simplified mode the outcome of the middleware depends on the
    wallet and time-stamp headers alone, not on the clock, the signature,
    the message or the wallet that the request names; a request is passed on
    as authenticated exactly when the wallet header is a non-empty address
    that makes a public key and the time-stamp header parses as a number,
    however old that time stamp is. *)
Theorem simple_mode_outcome `{Platform} env (now_ms : Z) req :
  env !! "SIMPLE_AUTH" = Some "true" ->
  (forall now_ms' req',
     headers req' !! "x-wallet-address" = headers req !! "x-wallet-address" ->
     headers req' !! "x-timestamp" = headers req !! "x-timestamp" ->
     verifyWalletSignature env now_ms' req' = verifyWalletSignature env now_ms req) /\
  (forall w pk,
     verifyWalletSignature env now_ms req = Authenticated w pk <->
     headers req !! "x-wallet-address" = Some w /\ w <> "" /\
     PublicKey_new (JStr w) = Ok pk /\
     exists ts t, headers req !! "x-timestamp" = Some ts /\ parseInt ts = Some t).
Proof.
  intros Hmode. split.
  - intros now_ms' req' Hw Ht. unfold verifyWalletSignature. cbv zeta.
    rewrite (bool_decide_eq_true_2 _ Hmode), Hw, Ht. reflexivity.
  - intros w pk. unfold verifyWalletSignature. cbv zeta.
    rewrite (bool_decide_eq_true_2 _ Hmode). split.
    + destruct (str_truthy (headers req !! "x-wallet-address")) eqn:Hw; [|discriminate].
      destruct (str_truthy (headers req !! "x-timestamp")) eqn:Ht; [|discriminate].
      cbn [negb orb].
      apply str_truthy_inv in Hw as (w' & Hw & Hw0). apply str_truthy_inv in Ht as (ts & Ht & _).
      rewrite Hw, Ht. cbn [default from_option id].
      destruct (PublicKey_new (JStr w')) as [pk'|] eqn:Hpk; [|discriminate].
      destruct (parseInt ts) as [t|] eqn:Hparse; [|discriminate].
      intros [= <- <-]. eauto 10.
    + intros (Hw & Hw0 & Hpk & ts & t & Ht & Hparse).
      rewrite Hw, Ht. rewrite !str_truthy_Some by eauto using parseInt_nonempty.
      cbn [negb orb default from_option id]. rewrite Hpk, Hparse. reflexivity.
Qed.

(** X17 on alice's unsigned request with a time stamp of the year 1970 *)
Lemma simple_mode_outcome_witness :
  Devnet.simple_env !! "SIMPLE_AUTH" = Some "true" /\
  verifyWalletSignature Devnet.simple_env 1700000000000 (Devnet.simple_request "1" Devnet.bob)
  = Authenticated Devnet.alice (Devnet.key Devnet.alice).
Proof.
  assert (H1 : Devnet.simple_env !! "SIMPLE_AUTH" = Some "true") by reflexivity.
  split; [exact H1|].
  apply (proj2 (simple_mode_outcome Devnet.simple_env 1700000000000
                  (Devnet.simple_request "1" Devnet.bob) H1)).
  split; [reflexivity|]. split; [discriminate|]. split; [vm_compute; reflexivity|].
  exists "1", 1. split; reflexivity.
Defined.

(** X18: [optionalAuth] lets a request through unauthenticated exactly when
    its wallet header is missing or empty, a request that
    [verifyWalletSignature] answers with 401; on every other request it is
    [verifyWalletSignature]. *)
Theorem optionalAuth_outcomes `{Platform} env (now_ms : Z) req :
  match optionalAuth env now_ms req with
  | None =>
      str_truthy (headers req !! "x-wallet-address") = false /\
      verifyWalletSignature env now_ms req = Rejected 401 "Missing authentication headers"
  | Some outcome =>
      str_truthy (headers req !! "x-wallet-address") = true /\
      outcome = verifyWalletSignature env now_ms req
  end.
Proof.
  unfold optionalAuth. cbv zeta.
  destruct (str_truthy (headers req !! "x-wallet-address")) eqn:Hw; cbn [negb]; [auto|].
  split; [reflexivity|]. unfold verifyWalletSignature. cbv zeta. rewrite Hw.
  destruct (bool_decide _); reflexivity.
Qed.

(** ** Validation *)

Lemma BigInt_digits_nonneg (s : string) :
  forall acc, all_digits s = true -> 0 <= acc -> 0 <= BigInt_digits s acc.
Proof.
  induction s as [|a s IH]; cbn [all_digits BigInt_digits]; intros acc Hs Hacc; [exact Hacc|].
  apply andb_true_iff in Hs as [Ha Hs]. apply IH; [exact Hs|].
  unfold is_digit in Ha. apply andb_true_iff in Ha as [Ha _]. apply Z.leb_le in Ha. lia.
Qed.

Lemma string_of_uint_digits (d : Decimal.uint) :
  all_digits (NilEmpty.string_of_uint d) = true.
Proof. induction d; cbn [NilEmpty.string_of_uint all_digits]; auto. Qed.

Lemma BigInt_digits_of_uint_acc (d : Decimal.uint) :
  forall acc : positive,
    BigInt_digits (NilEmpty.string_of_uint d) (Zpos acc) = Zpos (Pos.of_uint_acc d acc).
Proof.
  induction d; intros acc; cbn [NilEmpty.string_of_uint BigInt_digits Pos.of_uint_acc];
    try reflexivity; rewrite <- IHd; f_equal;
    match goal with
    | |- context [code ?a] => let c := eval vm_compute in (code a) in change (code a) with c
    end; lia.
Qed.

Lemma BigInt_digits_of_uint (d : Decimal.uint) :
  BigInt_digits (NilEmpty.string_of_uint d) 0 = Z.of_N (Pos.of_uint d).
Proof.
  induction d; cbn [NilEmpty.string_of_uint BigInt_digits Pos.of_uint]; try reflexivity;
    try exact IHd; cbn [Z.of_N]; rewrite <- BigInt_digits_of_uint_acc; reflexivity.
Qed.

Lemma toString_pos (p : positive) :
  toString (JNum (Zpos p)) = NilEmpty.string_of_uint (Pos.to_uint p) /\
  toString (JNum (Zpos p)) <> "".
Proof.
  cbn [toString Z.to_int NilZero.string_of_int]. unfold NilZero.string_of_uint.
  pose proof (Unsigned.to_uint_nonnil p) as Hnil.
  destruct (Pos.to_uint p); try contradiction; split; try reflexivity; discriminate.
Qed.

(** the decimal text of a number that is not negative reads back as the
    number *)
Lemma toString_number (n : Z) :
  0 <= n ->
  test_digits_only (toString (JNum n)) = true /\ BigInt_digits (toString (JNum n)) 0 = n.
Proof.
  intros Hn. destruct n as [|p|p]; [split; reflexivity| |lia].
  destruct (toString_pos p) as [Hs Hne]. unfold test_digits_only.
  apply String.eqb_neq in Hne. rewrite Hne, Hs. cbn [negb andb]. split.
  - apply string_of_uint_digits.
  - rewrite BigInt_digits_of_uint, Unsigned.of_to. reflexivity.
Qed.

Lemma toString_negative (p : positive) : test_digits_only (toString (JNum (Zneg p))) = false.
Proof.
  cbn [toString Z.to_int NilZero.string_of_int]. unfold test_digits_only.
  cbn [String.eqb negb andb all_digits]. reflexivity.
Qed.

(** how [validateAmount] decides once the amount is present: the test for a
    negative value never fires *)
Lemma validateAmount_decides (amount : jsval) :
  strict_eq amount JUndefined || strict_eq amount JNull || strict_eq amount (JStr "") = false ->
  validateAmount amount =
    if test_digits_only (toString amount)
    then if MAX_U64 <? BigInt_digits (toString amount) 0
         then {| valid := false;
                 error := Some "Amount exceeds maximum allowed value (u64 max)";
                 value := None |}
         else {| valid := true; error := None; value := Some (toString amount) |}
    else {| valid := false; error := Some "Amount must be a positive integer"; value := None |}.
Proof.
  intros Hp. unfold validateAmount. rewrite Hp.
  destruct (test_digits_only (toString amount)) eqn:Hd; cbn [negb]; [|reflexivity].
  unfold test_digits_only in Hd. apply andb_true_iff in Hd as [_ Hd].
  pose proof (BigInt_digits_nonneg _ 0 Hd ltac:(lia)) as Hnn.
  destruct (Z.ltb_spec (BigInt_digits (toString amount) 0) 0); [lia|reflexivity].
Qed.

(** X19: [validateAmount] never answers "Amount must be positive": the text
    that reaches that test consists of digits. Whatever the amount, the
    verdict either is valid, without error, with the amount's text as value,
    a text of decimal digits that denotes an integer from 0 to 2^64 - 1, or
    is invalid, with an error and no value. *)
Theorem validateAmount_verdicts (amount : jsval) :
  error (validateAmount amount) <> Some "Amount must be positive" /\
  match value (validateAmount amount) with
  | Some amountStr =>
      valid (validateAmount amount) = true /\ error (validateAmount amount) = None /\
      amountStr = toString amount /\ test_digits_only amountStr = true /\
      0 <= BigInt_digits amountStr 0 <= MAX_U64
  | None => valid (validateAmount amount) = false /\ error (validateAmount amount) <> None
  end.
Proof.
  destruct (strict_eq amount JUndefined || strict_eq amount JNull || strict_eq amount (JStr ""))
    eqn:Hp.
  - unfold validateAmount. rewrite Hp. cbn. repeat split; discriminate.
  - rewrite (validateAmount_decides _ Hp).
    destruct (test_digits_only (toString amount)) eqn:Hd; [|cbn; repeat split; discriminate].
    destruct (Z.ltb_spec MAX_U64 (BigInt_digits (toString amount) 0)) as [|Hle];
      [cbn; repeat split; discriminate|].
    cbn [error value valid]. split; [discriminate|]. repeat split; auto.
    unfold test_digits_only in Hd. apply andb_true_iff in Hd as [_ Hd].
    apply BigInt_digits_nonneg; [exact Hd | lia].
Qed.

(** X20: an amount given as an integer number of magnitude below 2^53, the
    integers that a number holds exactly and prints digit by digit, is valid
    exactly when it is not negative; the validated value is then its decimal
    text, which reads back as the number. The number 0 is valid. *)
Theorem validateAmount_number (n : Z) :
  - 2 ^ 53 < n < 2 ^ 53 ->
  match value (validateAmount (JNum n)) with
  | Some amountStr =>
      valid (validateAmount (JNum n)) = true /\ 0 <= n /\
      amountStr = toString (JNum n) /\ BigInt_digits amountStr 0 = n
  | None => valid (validateAmount (JNum n)) = false /\ n < 0
  end.
Proof.
  intros Hsafe. assert (Hmax : 2 ^ 53 < MAX_U64) by (vm_compute; reflexivity).
  rewrite (validateAmount_decides (JNum n)) by reflexivity.
  destruct (Z.le_gt_cases 0 n) as [Hn|Hn].
  - destruct (toString_number n Hn) as [Hd Hv]. rewrite Hd, Hv.
    destruct (Z.ltb_spec MAX_U64 n); cbn [value valid]; [lia|].
    repeat split; auto; lia.
  - destruct n as [|p|p]; try lia. rewrite toString_negative. cbn [value valid].
    split; [reflexivity | lia].
Qed.

(** X20 on the numbers 250000, 0 and -5 *)
Lemma validateAmount_number_witness :
  (- 2 ^ 53 < 250000 < 2 ^ 53 /\ - 2 ^ 53 < 0 < 2 ^ 53 /\ - 2 ^ 53 < -5 < 2 ^ 53) /\
  (value (validateAmount (JNum 250000)) = Some "250000" /\
   valid (validateAmount (JNum 250000)) = true /\
   BigInt_digits "250000" 0 = 250000) /\
  valid (validateAmount (JNum 0)) = true /\
  valid (validateAmount (JNum (-5))) = false.
Proof.
  assert (H1 : - 2 ^ 53 < 250000 < 2 ^ 53) by (vm_compute; split; reflexivity).
  assert (H2 : - 2 ^ 53 < 0 < 2 ^ 53) by (vm_compute; split; reflexivity).
  assert (H3 : - 2 ^ 53 < -5 < 2 ^ 53) by (vm_compute; split; reflexivity).
  split; [auto|].
  pose proof (validateAmount_number 250000 H1) as Ha.
  pose proof (validateAmount_number 0 H2) as Hb.
  pose proof (validateAmount_number (-5) H3) as Hc.
  destruct (value (validateAmount (JNum 250000))) as [amountStr|] eqn:Hva; [|lia].
  destruct (value (validateAmount (JNum 0))) as [zero|] eqn:Hvb; [|lia].
  destruct (value (validateAmount (JNum (-5)))) as [neg|] eqn:Hvc; [lia|].
  destruct Ha as (Hvalid & _ & Htext & Hback). rewrite Htext in Hback |- *.
  split; [|split; [apply Hb | apply Hc]].
  split; [reflexivity|]. split; [exact Hvalid | exact Hback].
Defined.

(** X21: [validateSolanaAddress] accepts a value exactly when
    [isValidSolanaAddress] accepts it and it is a text of 32 to 44
    characters of the base58 alphabet which, in capitals, contains none of
    the words YOUR, WALLET and ADDRESS. A public key whose text contains
    such a word in any letter case is rejected as a placeholder. *)
Theorem validateSolanaAddress_accepts `{Platform} (address : jsval) :
  valid (validateSolanaAddress address) = true <->
  isValidSolanaAddress address = true /\
  exists s,
    address = JStr s /\
    32 <= Z.of_nat (String.length s) <= 44 /\
    all_base58 s = true /\
    includes_units (toUpperCase s) (units "YOUR") = false /\
    includes_units (toUpperCase s) (units "WALLET") = false /\
    includes_units (toUpperCase s) (units "ADDRESS") = false.
Proof.
  unfold validateSolanaAddress, isValidSolanaAddress. split.
  - destruct (truthy address) eqn:Ht; cbn [negb valid]; [|discriminate].
    destruct address as [| |b|n|s]; cbn [valid is_string negb orb]; try discriminate.
    destruct (includes_units (toUpperCase s) (units "YOUR")) eqn:Hy; cbn [orb valid];
      [discriminate|].
    destruct (includes_units (toUpperCase s) (units "WALLET")) eqn:Hw; cbn [orb valid];
      [discriminate|].
    destruct (includes_units (toUpperCase s) (units "ADDRESS")) eqn:Ha; cbn [orb valid];
      [discriminate|].
    destruct (Z.ltb_spec (Z.of_nat (String.length s)) 32); cbn [orb valid]; [discriminate|].
    destruct (Z.ltb_spec 44 (Z.of_nat (String.length s))); cbn [orb valid]; [discriminate|].
    destruct (base58Regex_test s) eqn:Hre; cbn [negb valid]; [|discriminate].
    destruct (PublicKey_new (JStr s)); cbn [valid]; [|discriminate].
    intros _. split; [reflexivity|]. exists s. unfold base58Regex_test in Hre.
    apply andb_true_iff in Hre as [_ Hre]. repeat split; auto; lia.
  - intros (Hv & s & -> & Hlen & Hb & Hy & Hw & Ha).
    assert (Hne : s <> "") by (intros ->; cbn in Hlen; lia).
    assert (Ht : truthy (JStr s) = true) by (cbn; now apply negb_true_iff, String.eqb_neq).
    rewrite Ht in *. cbn [negb is_string orb] in *. rewrite Hy, Hw, Ha. cbn [orb].
    destruct (Z.ltb_spec (Z.of_nat (String.length s)) 32); [lia|].
    destruct (Z.ltb_spec 44 (Z.of_nat (String.length s))); [lia|]. cbn [orb].
    unfold base58Regex_test. rewrite Hb. apply String.eqb_neq in Hne. rewrite Hne.
    cbn [negb andb]. destruct (PublicKey_new (JStr s)); [reflexivity | discriminate].
Qed.

(** ** Database transactions *)

Lemma client_query_queries_only (server : Server) (text : string) :
  queries_only (client_query server text).
Proof. intros log. exists [Query text]. split; reflexivity. Qed.

(** X22: [transaction] on a callback that only issues queries drives the
    client through BEGIN, the queries of the callback and, last, one
    release: the call before the release is COMMIT when the transaction
    returns and ROLLBACK when it throws. The client is released exactly
    once on every path, also when ROLLBACK itself fails. *)
Theorem transaction_log {A : Type} (client : Server) (callback : Server -> DB A) :
  queries_only (callback client) ->
  exists calls,
    forallb is_query calls = true /\
    match transaction (Ok client) callback with
    | (Ok _, log) => log = Query "BEGIN" :: app calls [Query "COMMIT"; Release]
    | (Throw _, log) => log = Query "BEGIN" :: app calls [Query "ROLLBACK"; Release]
    end.
Proof.
  intros Hcb. unfold transaction, try_finally, try_catch, db_bind, client_query, client_release,
    db_ret, db_throw. cbn [app].
  destruct (client [] "BEGIN") as [e|].
  - exists []. split; [reflexivity|]. cbn [forallb is_query andb app].
    destruct (client _ "ROLLBACK"); reflexivity.
  - destruct (Hcb [Query "BEGIN"]) as (calls & Hlog & Hq).
    destruct (callback client [Query "BEGIN"]) as [[a|e] log] eqn:Hrun; cbn [snd] in Hlog;
      subst log.
    + destruct (client _ "COMMIT") as [e|].
      * exists (app calls [Query "COMMIT"]). rewrite forallb_app, Hq.
        split; [reflexivity|].
        destruct (client _ "ROLLBACK");
          rewrite !forallb_app; cbn [app forallb is_query andb]; rewrite Hq;
          cbn [andb]; rewrite <- !app_assoc; reflexivity.
      * exists calls. split; [exact Hq|].
        rewrite !forallb_app; cbn [app forallb is_query andb]; rewrite Hq;
          cbn [andb]; rewrite <- !app_assoc; reflexivity.
    + exists calls. split; [exact Hq|].
      destruct (client _ "ROLLBACK");
        rewrite !forallb_app; cbn [app forallb is_query andb]; rewrite Hq;
        cbn [andb]; rewrite <- !app_assoc; reflexivity.
Qed.

(** X22 on an insertion whose COMMIT the server refuses: ROLLBACK, then the
    release *)
Lemma transaction_log_witness :
  queries_only (Devnet.insert_user Devnet.commit_refused) /\
  exists calls,
    forallb is_query calls = true /\
    snd (transaction (Ok Devnet.commit_refused) Devnet.insert_user)
    = Query "BEGIN" :: app calls [Query "ROLLBACK"; Release].
Proof.
  assert (H1 : queries_only (Devnet.insert_user Devnet.commit_refused))
    by apply client_query_queries_only.
  split; [exact H1|].
  destruct (transaction_log Devnet.commit_refused Devnet.insert_user H1) as (calls & Hq & Hlog).
  exists calls. split; [exact Hq|].
  destruct (transaction (Ok Devnet.commit_refused) Devnet.insert_user) as [[a|e] log] eqn:Ht.
  - exfalso. revert Ht. vm_compute. discriminate.
  - exact Hlog.
Defined.

(** X23: [transaction] on a callback that only issues queries returns a
    value only if BEGIN succeeded, the callback returned that value and
    COMMIT succeeded. When it throws, it throws the error of the first of
    these three steps to fail, unless the ROLLBACK that follows fails too:
    then the error of the ROLLBACK takes its place. The callback is not run
    when BEGIN fails. *)
Theorem transaction_outcome {A : Type} (client : Server) (callback : Server -> DB A) :
  queries_only (callback client) ->
  match fst (transaction (Ok client) callback) with
  | Ok a =>
      client [] "BEGIN" = None /\
      exists log, callback client [Query "BEGIN"] = (Ok a, log) /\ client log "COMMIT" = None
  | Throw error =>
      exists failure log,
        first_failure client callback failure log /\
        (client log "ROLLBACK" = Some error \/
         client log "ROLLBACK" = None /\ error = failure)
  end.
Proof.
  intros Hcb. unfold first_failure, transaction, try_finally, try_catch, db_bind, client_query,
    client_release, db_ret, db_throw. cbn [app].
  destruct (client [] "BEGIN") as [e|] eqn:Hbegin.
  - cbn [forallb is_query andb app].
    destruct (client [Query "BEGIN"] "ROLLBACK") as [e'|] eqn:Hrb; cbn [fst];
      exists e, [Query "BEGIN"]; rewrite Hrb; auto 10.
  - destruct (Hcb [Query "BEGIN"]) as (calls & Hlog & Hq).
    destruct (callback client [Query "BEGIN"]) as [[a|e] log] eqn:Hrun; cbn [snd] in Hlog.
    + destruct (client log "COMMIT") as [e|] eqn:Hcommit.
      * destruct (client (app log [Query "COMMIT"]) "ROLLBACK") as [e'|] eqn:Hrb;
          subst log; rewrite !forallb_app, Hq; cbn [forallb is_query andb fst];
          exists e, (app (app [Query "BEGIN"] calls) [Query "COMMIT"]); rewrite Hrb;
          (split; [right; split; [reflexivity|]; right; eauto 10 | auto]).
      * subst log. rewrite !forallb_app, Hq. cbn [forallb is_query andb fst]. eauto.
    + destruct (client log "ROLLBACK") as [e'|] eqn:Hrb;
        subst log; rewrite !forallb_app, Hq; cbn [forallb is_query andb fst];
        exists e, (app [Query "BEGIN"] calls); rewrite Hrb; auto 10.
Qed.

(** X23 on the same insertion: the transaction throws, and the first step
    to fail is the COMMIT *)
Lemma transaction_outcome_witness :
  queries_only (Devnet.insert_user Devnet.commit_refused) /\
  match fst (transaction (Ok Devnet.commit_refused) Devnet.insert_user) with
  | Ok _ => False
  | Throw error =>
      exists failure log,
        first_failure Devnet.commit_refused Devnet.insert_user failure log /\
        (Devnet.commit_refused log "ROLLBACK" = Some error \/
         Devnet.commit_refused log "ROLLBACK" = None /\ error = failure)
  end.
Proof.
  assert (H1 : queries_only (Devnet.insert_user Devnet.commit_refused))
    by apply client_query_queries_only.
  split; [exact H1|].
  pose proof (transaction_outcome Devnet.commit_refused Devnet.insert_user H1) as Hout.
  destruct (fst (transaction (Ok Devnet.commit_refused) Devnet.insert_user)) as [a|error] eqn:Hf.
  - revert Hf. vm_compute. discriminate.
  - exact Hout.
Defined.

(** ** Requests that are rejected for their form, and addresses that are not keys *)

(** X24: a request that a route rejects for its form (a missing field, an
    amount or currency id that is not valid, a mode or risk tier that is not
    known) is rejected before the ledger is read: the route gives the same
    answer on every ledger. *)
Theorem form_rejections_ignore_ledger `{Platform} svc svc' env (now_ms : Z)
    (body : gmap string jsval) :
  (forall e, In e ["Missing required fields"; "Invalid amount"; "Invalid currency"] ->
     post_deposit svc body = Fail 400 e -> post_deposit svc' body = Fail 400 e) /\
  (forall e, In e ["Missing required fields"; "Missing risk tier"; "Invalid mode";
                   "Invalid risk tier"] ->
     post_create svc now_ms body = Fail 400 e -> post_create svc' now_ms body = Fail 400 e) /\
  (post_withdraw svc now_ms body = Fail 400 "Missing required fields" ->
   post_withdraw svc' now_ms body = Fail 400 "Missing required fields") /\
  (post_faucet_claim svc env now_ms body = Fail 400 "Missing required field" ->
   post_faucet_claim svc' env now_ms body = Fail 400 "Missing required field") /\
  (post_initialize svc body = Fail 400 "Missing required field" ->
   post_initialize svc' body = Fail 400 "Missing required field").
Proof.
  split; [|split; [|split; [|split]]].
  - intros e He. unfold post_deposit, handle.
    destruct (_ || _ || _ || _); [auto|].
    destruct (valid (validateAmount _)); cbn [negb]; [|auto].
    destruct (valid (validateCurrencyId _)); cbn [negb]; [|auto].
    destruct (getGoalAccount svc _ _) as [[goal|]|]; cbn [mbind result_bind];
      [|discriminate..].
    destruct (negb _); [destruct He as [<-|[<-|[<-|[]]]]; discriminate|].
    destruct (negb _); [destruct He as [<-|[<-|[<-|[]]]]; discriminate|].
    destruct (buildDepositTx _ _ _ _ _); cbn [mbind result_bind]; [|discriminate].
    destruct (serialize_base64 _); cbn [mbind result_bind]; discriminate.
  - intros e He. unfold post_create, handle.
    destruct (_ || _ || _ || _ || _ || _); [auto|].
    destruct (_ && _); [auto|].
    destruct (negb _); [auto|].
    destruct (_ && _); [auto|].
    destruct (getUserAccount svc _) as [[ua|]|]; cbn [mbind result_bind].
    + destruct (5 <=? _); [destruct He as [<-|[<-|[<-|[<-|[]]]]]; discriminate|].
      destruct (js_lt _ _); [destruct He as [<-|[<-|[<-|[<-|[]]]]]; discriminate|].
      destruct (buildCreateGoalTx _ _ _ _ _ _ _ _); cbn [mbind result_bind]; [|discriminate].
      destruct (serialize_base64 _); cbn [mbind result_bind]; [|discriminate].
      destruct (getCurrencyConfig svc _); cbn [mbind result_bind]; [|discriminate].
      destruct (negb _); discriminate.
    + destruct He as [<-|[<-|[<-|[<-|[]]]]]; discriminate.
    + discriminate.
  - unfold post_withdraw, handle. destruct (_ || _); [auto|].
    destruct (getGoalAccount svc _ _) as [[goal|]|]; cbn [mbind result_bind];
      [|discriminate..].
    destruct (_ =? _); [discriminate|].
    destruct (_ || _).
    + destruct (buildWithdrawEarlyTx _ _ _); cbn [mbind result_bind]; [|discriminate].
      destruct (serialize_base64 _); cbn [mbind result_bind]; discriminate.
    + destruct (buildWithdrawCompletedTx _ _ _); cbn [mbind result_bind]; [|discriminate].
      destruct (serialize_base64 _); cbn [mbind result_bind]; discriminate.
  - unfold post_faucet_claim, handle. destruct (negb _); [auto|].
    destruct (mintAddress_of svc _ _) as [mint|]; cbn [mbind result_bind]; [|discriminate].
    destruct (negb (truthy mint)); [discriminate|].
    destruct (negb (bool_decide _)); [discriminate|].
    destruct (getUserFaucetAccount svc _) as [[acct|]|]; cbn [mbind result_bind];
      [| |discriminate].
    + destruct (_ <? _); [discriminate|]. destruct (_ <=? _); [discriminate|].
      destruct (buildClaimFaucetTx _ _ _); cbn [mbind result_bind]; [|discriminate].
      destruct (serialize_base64 _); cbn [mbind result_bind]; [|discriminate].
      destruct (getFaucetConfig svc); cbn [mbind result_bind]; discriminate.
    + destruct (buildClaimFaucetTx _ _ _); cbn [mbind result_bind]; [|discriminate].
      destruct (serialize_base64 _); cbn [mbind result_bind]; [|discriminate].
      destruct (getFaucetConfig svc); cbn [mbind result_bind]; discriminate.
  - unfold post_initialize, handle. destruct (negb _); [auto|].
    destruct (getUserAccount svc _) as [[ua|]|]; cbn [mbind result_bind]; try discriminate.
    destruct (buildInitializeUserTx _ _); cbn [mbind result_bind]; [|discriminate].
    destruct (serialize_base64 _); cbn [mbind result_bind]; discriminate.
Qed.

(** X24 on a deposit of a fractional amount: rejected on the empty ledger as
    on alice's *)
Lemma form_rejections_ignore_ledger_witness :
  post_deposit Devnet.due_ledger (Devnet.deposit_request (JStr "1.5"))
    = Fail 400 "Invalid amount" /\
  post_deposit Devnet.empty_ledger (Devnet.deposit_request (JStr "1.5"))
    = Fail 400 "Invalid amount".
Proof.
  assert (H1 : post_deposit Devnet.due_ledger (Devnet.deposit_request (JStr "1.5"))
               = Fail 400 "Invalid amount") by (vm_compute; reflexivity).
  split; [exact H1|].
  apply (proj1 (form_rejections_ignore_ledger Devnet.due_ledger Devnet.empty_ledger
                  ∅ 0 (Devnet.deposit_request (JStr "1.5"))) "Invalid amount");
    [cbn; auto | exact H1].
Defined.

Lemma getUserAccount_invalid `{Platform} svc (address error : string) :
  PublicKey_new (JStr address) = Throw error ->
  includes error "Account does not exist" = false ->
  getUserAccount svc (JStr address) = Throw error.
Proof.
  intros Hk Hmsg. unfold getUserAccount, getUserAccountPDA, walletPubkey.
  rewrite Hk. cbn [mbind result_bind null_if_missing]. now rewrite Hmsg.
Qed.

Lemma getGoalAccount_invalid `{Platform} svc (address error : string) (goalIndex : jsval) :
  PublicKey_new (JStr address) = Throw error ->
  includes error "Account does not exist" = false ->
  getGoalAccount svc (JStr address) goalIndex = Throw error.
Proof.
  intros Hk Hmsg. unfold getGoalAccount, getGoalAccountPDA, walletPubkey.
  rewrite Hk. cbn [mbind result_bind null_if_missing]. now rewrite Hmsg.
Qed.

(** X25: the routes do not validate the wallet address. For an address from
    which no public key can be made, every route that reads the ledger for
    that address answers with the status 500, not with 400 or 404: the
    error of the key constructor is not the message that the readers treat
    as an absent account. *)
Theorem invalid_address_answers_500 `{Platform} svc (now_ms : Z) (address error : string) :
  PublicKey_new (JStr address) = Throw error ->
  includes error "Account does not exist" = false ->
  get_user svc address = Fail 500 "Internal server error" /\
  get_user_stats svc address = Fail 500 "Internal server error" /\
  (forall status, get_user_goals svc address status = Fail 500 "Internal server error") /\
  (forall goalIndex, get_goal svc now_ms address goalIndex
                     = Fail 500 "Internal server error") /\
  get_history svc address = Fail 500 "Internal server error" /\
  (forall body, address <> "" -> field body "walletAddress" = JStr address ->
     post_initialize svc body = Fail 500 "Internal server error" /\
     (field body "goalIndex" <> JUndefined ->
      post_withdraw svc now_ms body = Fail 500 "Internal server error")).
Proof.
  intros Hk Hmsg.
  pose proof (getUserAccount_invalid svc address error Hk Hmsg) as Hua.
  assert (Hgoals : getUserGoals svc (JStr address) = Throw error).
  { unfold getUserGoals. rewrite rethrow_id, Hua. reflexivity. }
  split; [unfold get_user, handle; now rewrite Hua|].
  split; [unfold get_user_stats, handle; now rewrite Hua|].
  split; [intros status; unfold get_user_goals, handle; now rewrite Hgoals|].
  split.
  { intros goalIndex. unfold get_goal, handle.
    now rewrite (getGoalAccount_invalid svc address error _ Hk Hmsg). }
  split; [unfold get_history, handle; now rewrite Hgoals|].
  intros body Ha Hw.
  assert (Hne : truthy (JStr address) = true) by (destruct address; [contradiction|reflexivity]).
  split.
  - unfold post_initialize, handle. rewrite Hw, Hne, Hua. reflexivity.
  - intros Hgi. unfold post_withdraw, handle, strict_eq.
    rewrite Hw, Hne, (bool_decide_eq_false_2 _ Hgi).
    rewrite (getGoalAccount_invalid svc address error _ Hk Hmsg). reflexivity.
Qed.

(** X25 on the address "not-a-key" *)
Lemma invalid_address_answers_500_witness :
  (PublicKey_new (JStr "not-a-key") = Throw "Non-base58 character" /\
   includes "Non-base58 character" "Account does not exist" = false) /\
  get_user Devnet.listing_ledger "not-a-key" = Fail 500 "Internal server error" /\
  get_history Devnet.listing_ledger "not-a-key" = Fail 500 "Internal server error".
Proof.
  assert (H1 : PublicKey_new (JStr "not-a-key") = Throw "Non-base58 character")
    by (vm_compute; reflexivity).
  assert (H2 : includes "Non-base58 character" "Account does not exist" = false)
    by (vm_compute; reflexivity).
  split; [auto|].
  destruct (invalid_address_answers_500 Devnet.listing_ledger 0 _ _ H1 H2)
    as (Hu & _ & _ & _ & Hh & _).
  split; [exact Hu | exact Hh].
Defined.

(** ** The contract configuration *)

Lemma validate_first_refused `{Platform} (env : gmap string string) :
  validate env = match first_refused (required_addresses env) with
                 | None => Ok ()
                 | Some error => Throw error
                 end.
Proof.
  unfold validate, required_addresses. cbn [first_refused].
  repeat (match goal with
          | |- (?m ≫= _) = _ =>
              destruct m; cbn [mbind result_bind]; cbv beta iota; [|reflexivity]
          end).
  reflexivity.
Qed.

Lemma first_refused_None `{Platform} (l : list (jsval * string)) :
  first_refused l = None <->
  Forall (fun entry => truthy (fst entry) = true /\ exists k, PublicKey_new (fst entry) = Ok k) l.
Proof.
  induction l as [|[address name] l IH]; cbn [first_refused].
  - split; [constructor | reflexivity].
  - unfold validatePublicKey at 1.
    destruct (truthy address) eqn:Ht; cbn [negb].
    + destruct (PublicKey_new address) as [k|e] eqn:Hk.
      * rewrite IH. split.
        -- intros Hl. constructor; [cbn; eauto | exact Hl].
        -- intros Hl. now inversion Hl.
      * split; [discriminate|]. intros Hl. inversion Hl as [|? ? [_ [k Hk']] _]; subst.
        cbn in Hk'. congruence.
    + split; [discriminate|]. intros Hl. inversion Hl as [|? ? [Ht' _] _]; subst.
      cbn in Ht'. congruence.
Qed.

(** X26: [validate] succeeds exactly when each of the twelve required
    addresses is set, not empty, and makes a public key, where the savings
    mints may come from either of their two variables; otherwise it throws
    the error of the first address, in the order of the checks, that
    [validatePublicKey] refuses, an error that names the variable. *)
Theorem validate_accepts `{Platform} (env : gmap string string) :
  (validate env = Ok () <->
   Forall (fun entry => truthy (fst entry) = true /\ exists k, PublicKey_new (fst entry) = Ok k)
          (required_addresses env)) /\
  (forall error,
     validate env = Throw error <-> first_refused (required_addresses env) = Some error).
Proof.
  rewrite validate_first_refused. split.
  - rewrite <- first_refused_None.
    destruct (first_refused (required_addresses env)); split; congruence.
  - intros error. destruct (first_refused (required_addresses env)); split; congruence.
Qed.

(** X27: the currency ids that [validateCurrencyId] accepts are those for
    which the contract configuration has an entry: the numbers 0 and 1, not
    their texts; the entry found carries that id. *)
Theorem currency_ids_agree `{Platform} (env : gmap string string) (currencyId : jsval) :
  match getCurrency env currencyId with
  | Ok currency =>
      valid (validateCurrencyId currencyId) = true /\ currencyId = JNum (currency_id currency)
  | Throw _ =>
      valid (validateCurrencyId currencyId) = false /\
      currencyId <> JNum 0 /\ currencyId <> JNum 1
  end.
Proof.
  unfold getCurrency, validateCurrencyId, strict_eq.
  destruct (decide (currencyId = JNum 0)) as [->|H0]; [split; reflexivity|].
  rewrite (bool_decide_eq_false_2 _ H0).
  destruct (decide (currencyId = JNum 1)) as [->|H1]; [split; reflexivity|].
  rewrite (bool_decide_eq_false_2 _ H1). cbn. auto.
Qed.
